(** * PayrollX server: payroll run engine and tax calculator

    A shallow embedding of [src/utils/taxCalculator.js],
    [src/services/payroll.service.js], the payroll routes' validation chain
    and the tables of the SQL migrations these functions read and write.

    Numbers.  Amounts of money are exact rationals ([Q]): they are read
    from and written to DECIMAL columns of two decimals, where the engine's
    sums and differences are stored as the exact ones.  [Math.round] is
    [floor (x + 1/2)], the half-up rounding of ECMAScript.  Where the
    engine divides and multiplies before it rounds (the overtime pay), or
    divides by what may be zero, the model computes as binary64 does: see
    [JS.Number]. *)

From Stdlib Require Import QArith Qround Qpower ZArith List Bool Lia Lqa String
  DecimalString.
Import ListNotations.
Local Open Scope Q_scope.

(** ** JavaScript numeric helpers *)

Module JS.

(** [Math.round(x)]: the integer nearest to [x], ties towards +infinity. *)
Definition Math_round (x : Q) : Z := Qfloor (x + (1 # 2)).

(** [Math.min(a, b)]. *)
Definition Math_min (a b : Q) : Q := if Qle_bool a b then a else b.

(** [a >= b] and [a <= b] on numbers, as booleans. *)
Definition geb (a b : Q) : bool := Qle_bool b a.
Definition leb (a b : Q) : bool := Qle_bool a b.
Definition gtb (a b : Q) : bool := negb (Qle_bool a b).

(** *** Numbers that are rounded, or not finite *)

(** A JavaScript number: a finite value, NaN or an infinity.  The sign of a
    zero is not modelled: the zero divisors met here, [workingDays * 8] and
    a page limit, are never the negative zero. *)
Inductive Number :=
  | Finite (value : Q)
  | NaN
  | Infinity (negative : bool).

(** The binade of a positive rational: the [e] with [2^e <= q < 2^(e+1)]. *)
Definition binade (q : Q) : Z :=
  let e := (Z.log2 (Qnum q) - Z.log2 (Zpos (Qden q)))%Z in
  if Qle_bool (2 ^ e) q then e else (e - 1)%Z.

(** The integer nearest to [x], ties to the even one. *)
Definition round_half_even (x : Q) : Z :=
  let f := Qfloor x in
  match Qcompare (x - inject_Z f) (1 # 2) with
  | Lt => f
  | Gt => (f + 1)%Z
  | Eq => if Z.even f then f else (f + 1)%Z
  end.

(** A positive rational rounded to 53 significant bits. *)
Definition round_positive (q : Q) : Q :=
  let ulp := 2 ^ (binade q - 52) in
  inject_Z (round_half_even (q / ulp)) * ulp.

(** The binary64 number nearest to [q], ties to even.  The exponent range of
    the format is not modelled: no amount of a DECIMAL(15,2) column, times
    or over a number of hours or days, comes near its ends. *)
Definition to_double (q : Q) : Q :=
  match Qcompare q 0 with
  | Eq => 0
  | Gt => round_positive q
  | Lt => - round_positive (- q)
  end.

(** The unit roundoff of binary64, [2^-53]: the relative distance at most
    between a number and the nearest binary64 number. *)
Definition unit_roundoff : Q := 1 # 9007199254740992.

(** [2^-50], above what five roundings add up to. *)
Definition rounding_slack : Q := 1 # 1125899906842624.

(** [parseFloat(text)] on the decimal text of [q]. *)
Definition parseFloat (q : Q) : Number := Finite (to_double q).

Definition is_zero (q : Q) : bool := Qeq_bool q 0.
Definition is_negative (q : Q) : bool := negb (Qle_bool 0 q).

(** [a * b]. *)
Definition mul (a b : Number) : Number :=
  match a, b with
  | NaN, _ => NaN
  | _, NaN => NaN
  | Finite x, Finite y => Finite (to_double (x * y))
  | Infinity s, Finite y =>
      if is_zero y then NaN else Infinity (xorb s (is_negative y))
  | Finite x, Infinity s =>
      if is_zero x then NaN else Infinity (xorb s (is_negative x))
  | Infinity s, Infinity t => Infinity (xorb s t)
  end.

(** [a / b]. *)
Definition div (a b : Number) : Number :=
  match a, b with
  | NaN, _ => NaN
  | _, NaN => NaN
  | Finite x, Finite y =>
      if is_zero y
      then (if is_zero x then NaN else Infinity (is_negative x))
      else Finite (to_double (x / y))
  | Finite _, Infinity _ => Finite 0
  | Infinity s, Finite y => Infinity (xorb s (is_negative y))
  | Infinity _, Infinity _ => NaN
  end.

(** [a + b] and [a - b] on amounts: the finite sum is kept exact, as the
    DECIMAL column that receives it stores it. *)
Definition add (a b : Number) : Number :=
  match a, b with
  | NaN, _ => NaN
  | _, NaN => NaN
  | Finite x, Finite y => Finite (x + y)
  | Infinity s, Finite _ => Infinity s
  | Finite _, Infinity t => Infinity t
  | Infinity s, Infinity t => if Bool.eqb s t then Infinity s else NaN
  end.

Definition sub (a b : Number) : Number :=
  match a, b with
  | NaN, _ => NaN
  | _, NaN => NaN
  | Finite x, Finite y => Finite (x - y)
  | Infinity s, Finite _ => Infinity s
  | Finite _, Infinity t => Infinity (negb t)
  | Infinity s, Infinity t => if Bool.eqb s t then NaN else Infinity s
  end.

(** [Math.round] on a number: NaN and the infinities are kept. *)
Definition Math_round_number (x : Number) : Number :=
  match x with
  | Finite q => Finite (inject_Z (Math_round q))
  | _ => x
  end.

(** [x || 0]: NaN and zero are falsy. *)
Definition or_zero (x : Number) : Number :=
  match x with
  | NaN => Finite 0
  | Finite q => if is_zero q then Finite 0 else x
  | Infinity _ => x
  end.

(** What a DECIMAL column with a precision holds of a number: a value or
    NaN, no infinity. *)
Definition storable (x : Number) : bool :=
  match x with
  | Infinity _ => false
  | _ => true
  end.

End JS.

(** ** src/utils/taxCalculator.js *)

Module TaxCalculator.
Import JS.

(** One row of a slab table.  [max = None] is JavaScript's [Infinity]. *)
Record TaxSlab := mkSlab {
  slab_min : Q;
  slab_max : option Q;
  slab_rate : Q;
  slab_fixed : Q
}.

Definition TAX_SLABS_FILER : list TaxSlab :=
  [ mkSlab 0 (Some 600000) 0 0;
    mkSlab 600001 (Some 1200000) (25 # 10) 0;
    mkSlab 1200001 (Some 2200000) (125 # 10) 15000;
    mkSlab 2200001 (Some 3200000) (225 # 10) 140000;
    mkSlab 3200001 (Some 4100000) (275 # 10) 365000;
    mkSlab 4100001 None 35 612500 ].

Definition TAX_SLABS_NON_FILER : list TaxSlab :=
  [ mkSlab 0 (Some 600000) 0 0;
    mkSlab 600001 (Some 1200000) (275 # 100) 0;
    mkSlab 1200001 (Some 2200000) (1375 # 100) 16500;
    mkSlab 2200001 (Some 3200000) (2475 # 100) 154000;
    mkSlab 3200001 (Some 4100000) (3025 # 100) 401500;
    mkSlab 4100001 None (385 # 10) 673750 ].

(** [annualIncome <= slab.max], with [Infinity] above every number. *)
Definition le_max (income : Q) (m : option Q) : bool :=
  match m with
  | Some hi => leb income hi
  | None => true
  end.

(** The loop condition [annualIncome >= slab.min && annualIncome <= slab.max]. *)
Definition in_slab (income : Q) (s : TaxSlab) : bool :=
  geb income (slab_min s) && le_max income (slab_max s).

(** The [for ... break] loop: the first slab whose range holds the income. *)
Definition find_slab (slabs : list TaxSlab) (income : Q) : option TaxSlab :=
  find (in_slab income) slabs.

(** The value of the local [tax] when the loop is left. *)
Definition slab_tax (income : Q) (applicableSlab : option TaxSlab) : Q :=
  match applicableSlab with
  | Some slab =>
      if gtb (slab_rate slab) 0
      then let taxableAmount := income - slab_min slab + 1 in
           slab_fixed slab + (taxableAmount * slab_rate slab) / 100
      else 0
  | None => 0
  end.

Record AnnualTax := mkAnnualTax {
  at_annualIncome : Q;
  at_annualTax : Z;
  at_monthlyTax : Z;
  at_effectiveRate : Q;
  at_slab : option TaxSlab;
  at_isFiler : bool
}.

(** [effectiveRate]: the number printed by [toFixed(2)], kept as the
    rational it denotes (hundredths); [0] for a non-positive income. *)
Definition effectiveRate (tax income : Q) : Q :=
  if gtb income 0
  then inject_Z (Math_round ((tax / income) * 100 * 100)) / 100
  else 0.

Definition slabs_of (isFiler : bool) : list TaxSlab :=
  if isFiler then TAX_SLABS_FILER else TAX_SLABS_NON_FILER.

(** The unrounded local [tax] of [calculateAnnualTax]. *)
Definition raw_tax (annualIncome : Q) (isFiler : bool) : Q :=
  slab_tax annualIncome (find_slab (slabs_of isFiler) annualIncome).

(** [calculateAnnualTax(annualIncome, isFiler)].  The [slab] field keeps the
    applicable slab itself; the source renders it as a label, or as
    ['Exempt'] when no slab was selected. *)
Definition calculateAnnualTax (annualIncome : Q) (isFiler : bool) : AnnualTax :=
  let slabs := slabs_of isFiler in
  let applicableSlab := find_slab slabs annualIncome in
  let tax := slab_tax annualIncome applicableSlab in
  {| at_annualIncome := annualIncome;
     at_annualTax := Math_round tax;
     at_monthlyTax := Math_round (tax / 12);
     at_effectiveRate := effectiveRate tax annualIncome;
     at_slab := applicableSlab;
     at_isFiler := isFiler |}.

Record MonthlyTax := mkMonthlyTax {
  mt_monthlyGross : Q;
  mt_monthlyTax : Z;
  mt_annualProjection : Z;
  mt_effectiveRate : Q;
  mt_slab : option TaxSlab;
  mt_isFiler : bool
}.

(** [calculateMonthlyTax(monthlyGross, isFiler)]. *)
Definition calculateMonthlyTax (monthlyGross : Q) (isFiler : bool) : MonthlyTax :=
  let annualIncome := monthlyGross * 12 in
  let result := calculateAnnualTax annualIncome isFiler in
  {| mt_monthlyGross := monthlyGross;
     mt_monthlyTax := at_monthlyTax result;
     mt_annualProjection := at_annualTax result;
     mt_effectiveRate := at_effectiveRate result;
     mt_slab := at_slab result;
     mt_isFiler := isFiler |}.

Record Contribution := mkContribution {
  employer : Z;
  employee : Z;
  total : Z
}.

(** [calculateEOBI(grossSalary)]. *)
Definition calculateEOBI (grossSalary : Q) : Contribution :=
  let employerContribution := Math_round (grossSalary * (75 # 10000)) in
  let employeeContribution := Math_round (grossSalary * (15 # 10000)) in
  {| employer := employerContribution;
     employee := employeeContribution;
     total := (employerContribution + employeeContribution)%Z |}.

(** [calculateSESSI(grossSalary)]. *)
Definition calculateSESSI (grossSalary : Q) : Contribution :=
  let applicableSalary := Math_min grossSalary 25000 in
  let contribution := Math_round (applicableSalary * (75 # 10000)) in
  {| employer := contribution;
     employee := 0%Z;
     total := contribution |}.

(** The [additionalDeductions] argument; an absent key takes the default 0
    of the destructuring pattern. *)
Record AdditionalDeductions := mkAdditional {
  ad_loanDeduction : option Q;
  ad_otherDeductions : option Q
}.

Definition no_additional : AdditionalDeductions := mkAdditional None None.

Definition or_default (o : option Q) (d : Q) : Q :=
  match o with Some v => v | None => d end.

Record Deductions := mkDeductions {
  incomeTax : Z;
  taxSlab : option TaxSlab;
  effectiveTaxRate : Q;
  eobi : Z;
  sessi : Z;
  loanDeduction : Q;
  otherDeductions : Q;
  totalDeductions : Q;
  netSalary : Q;
  employerContributions_eobi : Z;
  employerContributions_sessi : Z
}.

(** [calculateAllDeductions(grossSalary, isFiler, additionalDeductions)]. *)
Definition calculateAllDeductions (grossSalary : Q) (isFiler : bool)
    (additionalDeductions : AdditionalDeductions) : Deductions :=
  let tax := calculateMonthlyTax grossSalary isFiler in
  let eobi_ := calculateEOBI grossSalary in
  let sessi_ := calculateSESSI grossSalary in
  let loan := or_default (ad_loanDeduction additionalDeductions) 0 in
  let other := or_default (ad_otherDeductions additionalDeductions) 0 in
  let total_ :=
    inject_Z (mt_monthlyTax tax) + inject_Z (employee eobi_) + loan + other in
  {| incomeTax := mt_monthlyTax tax;
     taxSlab := mt_slab tax;
     effectiveTaxRate := mt_effectiveRate tax;
     eobi := employee eobi_;
     sessi := employee sessi_;
     loanDeduction := loan;
     otherDeductions := other;
     totalDeductions := total_;
     netSalary := grossSalary - total_;
     employerContributions_eobi := employer eobi_;
     employerContributions_sessi := employer sessi_ |}.

End TaxCalculator.

(** ** The relational store (SQL migrations 003-012) *)

Module Store.
Import JS TaxCalculator.

(** Primary keys are UUIDs; only their identity matters. *)
Definition uuid := nat.

(** [payroll_runs.status]: the values of the column's CHECK constraint. *)
Inductive RunStatus :=
  draft | processing | completed | approved | paid | cancelled.

(** [payslips.status]. *)
Inductive PayslipStatus :=
  generated | slip_approved | slip_paid | slip_cancelled.

(** [attendance.status]. *)
Inductive AttendanceStatus :=
  present | absent | half_day | late | on_leave | holiday | weekend.

(** [employees.status]. *)
Inductive EmployeeStatus :=
  active | inactive | terminated | employee_on_leave.

(** [employees.tax_filing_status]. *)
Inductive TaxFilingStatus := filer | non_filer.

Scheme Equality for RunStatus.
Scheme Equality for AttendanceStatus.
Scheme Equality for EmployeeStatus.
Scheme Equality for TaxFilingStatus.

(** A calendar date (SQL [DATE]). *)
Record Date := mkDate { d_year : Z; d_month : Z; d_day : Z }.

Definition date_eqb (a b : Date) : bool :=
  (d_year a =? d_year b)%Z && (d_month a =? d_month b)%Z
  && (d_day a =? d_day b)%Z.

(** Chronological [a <= b]. *)
Definition date_leb (a b : Date) : bool :=
  (d_year a <? d_year b)%Z
  || ((d_year a =? d_year b)%Z
      && ((d_month a <? d_month b)%Z
          || ((d_month a =? d_month b)%Z && (d_day a <=? d_day b)%Z))).

(** [employees]: the columns the engine reads.  Both status columns have a
    default but no NOT NULL, hence the options. *)
Record Employee := mkEmployee {
  e_id : uuid;
  e_employee_id : string;
  e_tax_filing_status : option TaxFilingStatus;
  e_status : option EmployeeStatus
}.

(** [salary_structures].  The allowance columns are taken as numbers, so the
    generated [gross_salary] is one; the two deduction adjustments may be
    NULL, which the service replaces by 0. *)
Record SalaryStructure := mkSalaryStructure {
  ss_employee_id : uuid;
  ss_basic_salary : Q;
  ss_housing_allowance : Q;
  ss_transport_allowance : Q;
  ss_medical_allowance : Q;
  ss_utility_allowance : Q;
  ss_other_allowances : Q;
  ss_loan_deduction : option Q;
  ss_other_deductions : option Q;
  ss_is_current : bool
}.

(** The generated column [gross_salary]. *)
Definition ss_gross_salary (ss : SalaryStructure) : Q :=
  ss_basic_salary ss + ss_housing_allowance ss + ss_transport_allowance ss
  + ss_medical_allowance ss + ss_utility_allowance ss + ss_other_allowances ss.

(** [attendance]: one row per worker and day. *)
Record Attendance := mkAttendance {
  a_employee_id : uuid;
  a_date : Date;
  a_status : AttendanceStatus;
  a_overtime_hours : option Q
}.

(** [payroll_runs].  The totals of gross and net may hold NaN, which the
    engine writes for a month without working days. *)
Record PayrollRun := mkPayrollRun {
  pr_id : uuid;
  pr_month : Z;
  pr_year : Z;
  pr_status : RunStatus;
  pr_total_employees : Z;
  pr_total_gross_salary : Number;
  pr_total_deductions : Q;
  pr_total_tax : Q;
  pr_total_net_salary : Number;
  pr_processed_by : option uuid;
  pr_processed_at : option nat;
  pr_approved_by : option uuid;
  pr_approved_at : option nat
}.

(** [payslips]: the columns written by the engine, and [status].  The
    surrogate key and the row timestamps are produced by the store and are
    not part of a payslip's content.  Overtime pay, gross and net may hold
    NaN, as the run's totals may. *)
Record Payslip := mkPayslip {
  ps_payroll_run_id : uuid;
  ps_employee_id : uuid;
  ps_month : Z;
  ps_year : Z;
  ps_working_days : Z;
  ps_present_days : Z;
  ps_absent_days : Z;
  ps_leave_days : Z;
  ps_overtime_hours : Q;
  ps_basic_salary : Q;
  ps_housing_allowance : Q;
  ps_transport_allowance : Q;
  ps_medical_allowance : Q;
  ps_utility_allowance : Q;
  ps_other_allowances : Q;
  ps_overtime_pay : Number;
  ps_gross_salary : Number;
  ps_income_tax : Z;
  ps_eobi_contribution : Z;
  ps_sessi_contribution : Z;
  ps_loan_deduction : Q;
  ps_other_deductions : Q;
  ps_total_deductions : Q;
  ps_net_salary : Number;
  ps_taxable_income : Q;
  ps_tax_slab : option TaxSlab;
  ps_is_filer : bool;
  ps_status : PayslipStatus
}.

(** The database: one list of rows per table. *)
Record DB := mkDB {
  payroll_runs : list PayrollRun;
  payslips : list Payslip;
  employees : list Employee;
  salary_structures : list SalaryStructure;
  attendance : list Attendance;
  public_holidays : list Date
}.

Definition set_payroll_runs (d : DB) (rs : list PayrollRun) : DB :=
  mkDB rs (payslips d) (employees d) (salary_structures d) (attendance d)
       (public_holidays d).

Definition set_payslips (d : DB) (ps : list Payslip) : DB :=
  mkDB (payroll_runs d) ps (employees d) (salary_structures d) (attendance d)
       (public_holidays d).

(** The payslips of one run: [SELECT * FROM payslips WHERE payroll_run_id = $1]. *)
Definition payslips_of (rid : uuid) (d : DB) : list Payslip :=
  filter (fun p => ps_payroll_run_id p =? rid)%nat (payslips d).

(** The key of the unique index [idx_payslips_unique]. *)
Definition payslip_key (p : Payslip) : uuid * uuid :=
  (ps_payroll_run_id p, ps_employee_id p).

End Store.

(** ** Errors, the connection and its transaction (src/config/database.js) *)

Module Conn.
Import Store.

(** The error classes the engine throws, and the store's own failures. *)
Inductive Error :=
  | NotFoundError (message : string)
  | BadRequestError (message : string)
  | DatabaseError (message : string).

Inductive Outcome (A : Type) :=
  | Return (a : A)
  | Throw (e : Error).
Arguments Return {A} a.
Arguments Throw {A} e.

(** The world a request runs in: the committed database, the working copy
    of the transaction open on the client (if any), the number of
    statements issued so far, the statements the store will fail, the
    store's clock, and whether the server's time zone is ahead of UTC (its
    offset is taken to keep its sign). *)
Record World := mkWorld {
  committed : DB;
  working : option DB;
  issued : nat;
  faults : nat -> bool;
  now : nat;
  east_of_utc : bool
}.

Definition M (A : Type) : Type := World -> Outcome A * World.

Definition ret {A} (a : A) : M A := fun w => (Return a, w).

Definition throw {A} (e : Error) : M A := fun w => (Throw e, w).

Definition bind {A B} (m : M A) (k : A -> M B) : M B :=
  fun w =>
    match m w with
    | (Return a, w') => k a w'
    | (Throw e, w') => (Throw e, w')
    end.

Notation "x <- m ;; k" := (bind m (fun x => k))
  (at level 61, m at next level, right associativity).
Notation "m ;;; k" := (bind m (fun _ => k))
  (at level 61, right associativity).

Definition tick (w : World) : World :=
  mkWorld (committed w) (working w) (S (issued w)) (faults w) (now w)
          (east_of_utc w).

(** What a statement on the client reads: the transaction's working copy
    when one is open, the committed database otherwise. *)
Definition view (w : World) : DB :=
  match working w with
  | Some d => d
  | None => committed w
  end.

Definition set_view (w : World) (d : DB) : World :=
  match working w with
  | Some _ => mkWorld (committed w) (Some d) (issued w) (faults w) (now w)
                      (east_of_utc w)
  | None => mkWorld d None (issued w) (faults w) (now w) (east_of_utc w)
  end.

(** [client.query(text, params)]: one statement on the transaction's client.
    The store may fail it; a statement that fails changes nothing. *)
Definition client_query {A} (stmt : DB -> Outcome A * DB) : M A :=
  fun w =>
    if faults w (issued w)
    then (Throw (DatabaseError "statement failed"), tick w)
    else let (r, d) := stmt (view w) in (r, set_view (tick w) d).

(** [db.query(text, params)]: one autocommitted statement through the pool,
    outside any transaction of the client. *)
Definition pool_query {A} (stmt : DB -> Outcome A * DB) : M A :=
  fun w =>
    if faults w (issued w)
    then (Throw (DatabaseError "statement failed"), tick w)
    else let (r, d) := stmt (committed w) in
         (r, mkWorld d (working w) (S (issued w)) (faults w) (now w)
                     (east_of_utc w)).

(** [client.query('BEGIN')]. *)
Definition BEGIN : M unit :=
  fun w =>
    if faults w (issued w)
    then (Throw (DatabaseError "statement failed"), tick w)
    else (Return tt,
          mkWorld (committed w) (Some (view w)) (S (issued w)) (faults w)
                  (now w) (east_of_utc w)).

(** [client.query('COMMIT')]: publishes the working copy. *)
Definition COMMIT : M unit :=
  fun w =>
    if faults w (issued w)
    then (Throw (DatabaseError "statement failed"), tick w)
    else (Return tt,
          mkWorld (view w) None (S (issued w)) (faults w) (now w)
                  (east_of_utc w)).

(** [client.query('ROLLBACK')]: discards the working copy.  A connection
    that is lost discards it as well, so this statement is not failed. *)
Definition ROLLBACK (w : World) : World :=
  mkWorld (committed w) None (S (issued w)) (faults w) (now w)
          (east_of_utc w).

(** [try { body } catch (error) { ROLLBACK; throw error } finally { release }]. *)
Definition try_rollback {A} (body : M A) : M A :=
  fun w =>
    match body w with
    | (Return a, w') => (Return a, w')
    | (Throw e, w') => (Throw e, ROLLBACK w')
    end.

(** Read-only statements and updates. *)
Definition select {A} (q : DB -> A) : DB -> Outcome A * DB :=
  fun d => (Return (q d), d).

Definition execute (u : DB -> DB) : DB -> Outcome unit * DB :=
  fun d => (Return tt, u d).

(** The clock of the store, for [CURRENT_TIMESTAMP]. *)
Definition current_timestamp : M nat := fun w => (Return (now w), w).

(** The side of UTC the server's zone is on, which [toISOString] shows. *)
Definition server_zone : M bool := fun w => (Return (east_of_utc w), w).

End Conn.

(** ** Calendar arithmetic behind JavaScript's [Date]

    A [Date] built from a year, a month and a day is a local midnight.  Its
    local fields name that day; its ISO string names the UTC day, which is
    the day before when the server's zone is ahead of UTC.  Months are
    1..12, as the CHECK constraint of [payroll_runs.month] has them. *)

Module Calendar.
Import Store.
Local Open Scope Z_scope.

(** [new Date(year, ...)] reads a year 0..99 as 1900 + year. *)
Definition full_year (y : Z) : Z :=
  if (0 <=? y) && (y <=? 99) then 1900 + y else y.

Definition is_leap (y : Z) : bool :=
  ((y mod 4 =? 0) && negb (y mod 100 =? 0)) || (y mod 400 =? 0).

(** The day of month of [new Date(year, month, 0)]. *)
Definition days_in_month (y m : Z) : Z :=
  if m =? 2 then (if is_leap y then 29 else 28)
  else if (m =? 4) || (m =? 6) || (m =? 9) || (m =? 11) then 30
  else 31.

(** Days from 1970-01-01 to the given civil date (proleptic Gregorian). *)
Definition days_from_civil (y m d : Z) : Z :=
  let y' := if m <=? 2 then y - 1 else y in
  let era := y' / 400 in
  let yoe := y' - era * 400 in
  let mp := if 2 <? m then m - 3 else m + 9 in
  let doy := (153 * mp + 2) / 5 + d - 1 in
  let doe := yoe * 365 + yoe / 4 - yoe / 100 + doy in
  era * 146097 + doe - 719468.

(** [date.getDay()]: 0 is Sunday, 6 is Saturday. *)
Definition getDay (dt : Date) : Z :=
  (days_from_civil (d_year dt) (d_month dt) (d_day dt) + 4) mod 7.

(** The dates [current] runs through in the [while (current <= endDate)]
    loop: the first to the last day of the month. *)
Definition month_dates (month year : Z) : list Date :=
  let y := full_year year in
  map (fun k => mkDate y month (Z.of_nat k))
      (seq 1 (Z.to_nat (days_in_month y month))).

Definition startDate (month year : Z) : Date :=
  mkDate (full_year year) month 1.

Definition endDate (month year : Z) : Date :=
  let y := full_year year in mkDate y month (days_in_month y month).

(** The day before a day of the calendar. *)
Definition previous_day (dt : Date) : Date :=
  if 1 <? d_day dt then mkDate (d_year dt) (d_month dt) (d_day dt - 1)
  else if 1 <? d_month dt
  then mkDate (d_year dt) (d_month dt - 1)
              (days_in_month (d_year dt) (d_month dt - 1))
  else mkDate (d_year dt - 1) 12 31.

(** [date.toISOString().split('T')[0]] of a local midnight: the day itself,
    or the day before in a zone ahead of UTC. *)
Definition toISODate (east : bool) (dt : Date) : Date :=
  if east then previous_day dt else dt.

End Calendar.

(** ** src/services/payroll.service.js *)

Module PayrollService.
Import JS TaxCalculator Store Conn Calendar.

(** *** Helper queries *)

(** [SELECT date FROM public_holidays WHERE date >= $1 AND date <= $2]. *)
Definition select_holidays (lo hi : Date) (d : DB) : list Date :=
  filter (fun h => date_leb lo h && date_leb h hi) (public_holidays d).

(** The loop of [calculateWorkingDays] over the month's dates, given the
    holidays the query returned.  The set holds the ISO text of each
    holiday, itself read as a local midnight, and the loop looks up the ISO
    text of [current]: the two texts are the same exactly when the two days
    are, on either side of UTC, so the days are compared. *)
Definition count_working_days (holidays : list Date) (dates : list Date) : Z :=
  Z.of_nat (List.length (filter (fun current =>
    let day := getDay current in
    negb (day =? 0)%Z && negb (day =? 6)%Z
    && negb (existsb (date_eqb current) holidays)) dates)).

(** [calculateWorkingDays(client, month, year)].  The bounds of the query
    are the ISO texts of the month's first and last day: in a zone ahead of
    UTC the window lies one day early. *)
Definition calculateWorkingDays (month year : Z) : M Z :=
  east <- server_zone ;;
  holidays <- client_query
    (select (select_holidays (toISODate east (startDate month year))
                             (toISODate east (endDate month year)))) ;;
  ret (count_working_days holidays (month_dates month year)).

Record AttendanceSummary := mkSummary {
  presentDays : Z;
  absentDays : Z;
  leaveDays : Z;
  overtimeHours : Q
}.

(** The rows selected by [getEmployeeAttendance]'s WHERE clause. *)
Definition attendance_rows (employeeId : uuid) (month year : Z) (d : DB)
  : list Attendance :=
  filter (fun a => (a_employee_id a =? employeeId)%nat
                   && (d_month (a_date a) =? month)%Z
                   && (d_year (a_date a) =? year)%Z) (attendance d).

(** [COUNT( * ) FILTER (WHERE ...)]. *)
Definition count_filter (f : Attendance -> bool) (rows : list Attendance) : Z :=
  Z.of_nat (List.length (filter f rows)).

(** [SUM(COALESCE(overtime_hours, 0))]: NULL over no rows. *)
Definition sum_overtime (rows : list Attendance) : option Q :=
  match rows with
  | [] => None
  | _ => Some (fold_left (fun acc a => acc + or_default (a_overtime_hours a) 0)
                         rows 0)
  end.

Definition is_present (a : Attendance) : bool :=
  AttendanceStatus_beq (a_status a) present
  || AttendanceStatus_beq (a_status a) late.

Definition is_absent (a : Attendance) : bool :=
  AttendanceStatus_beq (a_status a) absent.

Definition is_on_leave (a : Attendance) : bool :=
  AttendanceStatus_beq (a_status a) on_leave.

(** The aggregate row and its conversion ([parseInt(..) || 0],
    [parseFloat(..) || 0]). *)
Definition attendance_summary (employeeId : uuid) (month year : Z) (d : DB)
  : AttendanceSummary :=
  let rows := attendance_rows employeeId month year d in
  {| presentDays := count_filter is_present rows;
     absentDays := count_filter is_absent rows;
     leaveDays := count_filter is_on_leave rows;
     overtimeHours := or_default (sum_overtime rows) 0 |}.

(** [getEmployeeAttendance(client, employeeId, month, year)]. *)
Definition getEmployeeAttendance (employeeId : uuid) (month year : Z)
  : M AttendanceSummary :=
  client_query (select (attendance_summary employeeId month year)).

(** A row of the employees/salary-structures join of [processPayroll]. *)
Record EmployeeRow := mkEmployeeRow {
  employee_id : uuid;
  emp_code : string;
  tax_filing_status : option TaxFilingStatus;
  basic_salary : Q;
  housing_allowance : Q;
  transport_allowance : Q;
  medical_allowance : Q;
  utility_allowance : Q;
  other_allowances : Q;
  gross_salary : Q;
  loan_deduction : option Q;
  other_deductions : option Q
}.

Definition join_row (e : Employee) (ss : SalaryStructure) : EmployeeRow :=
  {| employee_id := e_id e;
     emp_code := e_employee_id e;
     tax_filing_status := e_tax_filing_status e;
     basic_salary := ss_basic_salary ss;
     housing_allowance := ss_housing_allowance ss;
     transport_allowance := ss_transport_allowance ss;
     medical_allowance := ss_medical_allowance ss;
     utility_allowance := ss_utility_allowance ss;
     other_allowances := ss_other_allowances ss;
     gross_salary := ss_gross_salary ss;
     loan_deduction := ss_loan_deduction ss;
     other_deductions := ss_other_deductions ss |}.

Definition is_active (e : Employee) : bool :=
  match e_status e with
  | Some s => EmployeeStatus_beq s active
  | None => false
  end.

(** [FROM employees e JOIN salary_structures ss
     ON ss.employee_id = e.id AND ss.is_current = true
     WHERE e.status = 'active']. *)
Definition select_active_employees (d : DB) : list EmployeeRow :=
  flat_map (fun e =>
    map (join_row e)
        (filter (fun ss => (ss_employee_id ss =? e_id e)%nat && ss_is_current ss)
                (salary_structures d)))
    (filter is_active (employees d)).

(** [SELECT * FROM payroll_runs WHERE id = $1]. *)
Definition select_run (id : uuid) (d : DB) : list PayrollRun :=
  filter (fun r => (pr_id r =? id)%nat) (payroll_runs d).

(** [UPDATE payroll_runs SET ... WHERE id = $n]. *)
Definition update_run (id : uuid) (f : PayrollRun -> PayrollRun) (d : DB) : DB :=
  set_payroll_runs d
    (map (fun r => if (pr_id r =? id)%nat then f r else r) (payroll_runs d)).

Definition set_status (s : RunStatus) (r : PayrollRun) : PayrollRun :=
  mkPayrollRun (pr_id r) (pr_month r) (pr_year r) s (pr_total_employees r)
    (pr_total_gross_salary r) (pr_total_deductions r) (pr_total_tax r)
    (pr_total_net_salary r) (pr_processed_by r) (pr_processed_at r)
    (pr_approved_by r) (pr_approved_at r).

(** [DELETE FROM payslips WHERE payroll_run_id = $1]. *)
Definition delete_payslips (id : uuid) (d : DB) : DB :=
  set_payslips d
    (filter (fun p => negb (ps_payroll_run_id p =? id)%nat) (payslips d)).

(** A payslip none of whose computed amounts is an infinity. *)
Definition storable_row (p : Payslip) : bool :=
  storable (ps_overtime_pay p) && storable (ps_gross_salary p)
  && storable (ps_net_salary p).

(** [INSERT INTO payslips ...]: refused when a DECIMAL(15,2) column is
    handed an infinity, and by the unique index [idx_payslips_unique] when
    the run already has a payslip of the worker. *)
Definition insert_payslip (p : Payslip) (d : DB) : Outcome unit * DB :=
  if negb (storable_row p)
  then (Throw (DatabaseError "numeric field overflow"), d)
  else if existsb (fun q => (ps_payroll_run_id q =? ps_payroll_run_id p)%nat
                       && (ps_employee_id q =? ps_employee_id p)%nat)
             (payslips d)
  then (Throw (DatabaseError "idx_payslips_unique"), d)
  else (Return tt, set_payslips d (payslips d ++ [p])).

(** [transformPayrollRun(row)]: a total that is NaN is returned as 0
    ([parseFloat(..) || 0]).  The joined e-mail columns and the renaming of
    the fields are left out. *)
Definition transformPayrollRun (row : PayrollRun) : PayrollRun :=
  mkPayrollRun (pr_id row) (pr_month row) (pr_year row) (pr_status row)
    (pr_total_employees row) (or_zero (pr_total_gross_salary row))
    (pr_total_deductions row) (pr_total_tax row)
    (or_zero (pr_total_net_salary row)) (pr_processed_by row)
    (pr_processed_at row) (pr_approved_by row) (pr_approved_at row).

(** [getPayrollRunById(id)], through the pool. *)
Definition getPayrollRunById (id : uuid) : M PayrollRun :=
  rows <- pool_query (select (select_run id)) ;;
  match rows with
  | [] => throw (NotFoundError "Payroll run not found")
  | row :: _ => ret (transformPayrollRun row)
  end.

(** *** processPayroll *)

(** [emp.tax_filing_status === 'filer']. *)
Definition isFiler_of (emp : EmployeeRow) : bool :=
  match tax_filing_status emp with
  | Some filer => true
  | _ => false
  end.

(** [hourlyRate] and [overtimePay] of the loop body, on the numbers
    [parseFloat] reads: the quotient and the two products are rounded as
    binary64 rounds them, and with no working day the quotient is an
    infinity or NaN. *)
Definition hourlyRate (grossSalary : Q) (workingDays : Z) : Number :=
  div (parseFloat grossSalary) (Finite (inject_Z (workingDays * 8))).

Definition overtimePay (overtimeHours grossSalary : Q) (workingDays : Z)
  : Number :=
  Math_round_number
    (mul (mul (parseFloat overtimeHours) (hourlyRate grossSalary workingDays))
         (Finite (15 # 10))).

(** The deductions of a worker: [calculateAllDeductions] on the salary
    structure's gross, with the structure's two adjustments. *)
Definition deductions_of (emp : EmployeeRow) : Deductions :=
  calculateAllDeductions (gross_salary emp) (isFiler_of emp)
    (mkAdditional (Some (or_default (loan_deduction emp) 0))
                  (Some (or_default (other_deductions emp) 0))).

(** The row handed to [INSERT INTO payslips]; [status] takes the column's
    default. *)
Definition make_payslip (payrollRunId : uuid) (month year workingDays : Z)
    (emp : EmployeeRow) (attendanceSummary : AttendanceSummary) : Payslip :=
  let isFiler := isFiler_of emp in
  let grossSalary := gross_salary emp in
  let deductions := deductions_of emp in
  let overtimePay_ :=
    overtimePay (overtimeHours attendanceSummary) grossSalary workingDays in
  let finalGross := add (Finite grossSalary) overtimePay_ in
  let netSalary_ := sub finalGross (Finite (totalDeductions deductions)) in
  {| ps_payroll_run_id := payrollRunId;
     ps_employee_id := employee_id emp;
     ps_month := month;
     ps_year := year;
     ps_working_days := workingDays;
     ps_present_days := presentDays attendanceSummary;
     ps_absent_days := absentDays attendanceSummary;
     ps_leave_days := leaveDays attendanceSummary;
     ps_overtime_hours := overtimeHours attendanceSummary;
     ps_basic_salary := basic_salary emp;
     ps_housing_allowance := housing_allowance emp;
     ps_transport_allowance := transport_allowance emp;
     ps_medical_allowance := medical_allowance emp;
     ps_utility_allowance := utility_allowance emp;
     ps_other_allowances := other_allowances emp;
     ps_overtime_pay := overtimePay_;
     ps_gross_salary := finalGross;
     ps_income_tax := incomeTax deductions;
     ps_eobi_contribution := eobi deductions;
     ps_sessi_contribution := sessi deductions;
     ps_loan_deduction := loanDeduction deductions;
     ps_other_deductions := otherDeductions deductions;
     ps_total_deductions := totalDeductions deductions;
     ps_net_salary := netSalary_;
     ps_taxable_income := grossSalary * 12;
     ps_tax_slab := taxSlab deductions;
     ps_is_filer := isFiler;
     ps_status := generated |}.

(** The four accumulators of the loop. *)
Record Totals := mkTotals {
  totalGross : Number;
  totalDeductions_ : Q;
  totalTax : Q;
  totalNet : Number
}.

Definition zero_totals : Totals := mkTotals (Finite 0) 0 0 (Finite 0).

Definition add_totals (t : Totals) (p : Payslip) : Totals :=
  {| totalGross := add (totalGross t) (ps_gross_salary p);
     totalDeductions_ := totalDeductions_ t + ps_total_deductions p;
     totalTax := totalTax t + inject_Z (ps_income_tax p);
     totalNet := add (totalNet t) (ps_net_salary p) |}.

(** [for (const emp of employees) { ... }].  Nothing in the loop looks at
    [workingDays]: with no working day the overtime pay is NaN or an
    infinity, and so are the gross and the net handed to the INSERT. *)
Fixpoint generate_payslips (payrollRunId : uuid) (month year workingDays : Z)
    (emps : list EmployeeRow) (totals : Totals) : M Totals :=
  match emps with
  | [] => ret totals
  | emp :: rest =>
      attendanceSummary <- getEmployeeAttendance (employee_id emp) month year ;;
      let p := make_payslip payrollRunId month year workingDays emp
                            attendanceSummary in
      client_query (insert_payslip p) ;;;
      generate_payslips payrollRunId month year workingDays rest
                        (add_totals totals p)
  end.

(** The final [UPDATE payroll_runs SET status = 'completed', ...]. *)
Definition complete_run (n : nat) (t : Totals) (processedBy : uuid) (at_ : nat)
    (r : PayrollRun) : PayrollRun :=
  mkPayrollRun (pr_id r) (pr_month r) (pr_year r) completed
    (Z.of_nat n) (totalGross t) (totalDeductions_ t) (totalTax t) (totalNet t)
    (Some processedBy) (Some at_) (pr_approved_by r) (pr_approved_at r).

(** The statements of [processPayroll] from BEGIN to COMMIT. *)
Definition process_steps (payrollRunId processedBy : uuid) : M unit :=
  BEGIN ;;;
  runResult <- client_query (select (select_run payrollRunId)) ;;
  match runResult with
  | [] => throw (NotFoundError "Payroll run not found")
  | payrollRun :: _ =>
      if negb (RunStatus_beq (pr_status payrollRun) draft)
      then throw (BadRequestError "Only draft payroll runs can be processed")
      else
        client_query (execute (update_run payrollRunId (set_status processing))) ;;;
        emps <- client_query (select select_active_employees) ;;
        let month := pr_month payrollRun in
        let year := pr_year payrollRun in
        workingDays <- calculateWorkingDays month year ;;
        client_query (execute (delete_payslips payrollRunId)) ;;;
        totals <- generate_payslips payrollRunId month year workingDays emps
                                    zero_totals ;;
        at_ <- current_timestamp ;;
        client_query (execute (update_run payrollRunId
          (complete_run (List.length emps) totals processedBy at_))) ;;;
        COMMIT
  end.

(** [processPayroll(payrollRunId, processedBy)]: the statements, the read-back
    of the run, and the [catch] that rolls back and rethrows. *)
Definition processPayroll (payrollRunId processedBy : uuid) : M PayrollRun :=
  try_rollback (process_steps payrollRunId processedBy ;;;
                getPayrollRunById payrollRunId).

(** *** approvePayroll *)

Definition approve_run (approvedBy : uuid) (at_ : nat) (r : PayrollRun)
  : PayrollRun :=
  mkPayrollRun (pr_id r) (pr_month r) (pr_year r) approved
    (pr_total_employees r) (pr_total_gross_salary r) (pr_total_deductions r)
    (pr_total_tax r) (pr_total_net_salary r) (pr_processed_by r)
    (pr_processed_at r) (Some approvedBy) (Some at_).

Definition set_payslip_status (s : PayslipStatus) (p : Payslip) : Payslip :=
  mkPayslip (ps_payroll_run_id p) (ps_employee_id p) (ps_month p) (ps_year p)
    (ps_working_days p) (ps_present_days p) (ps_absent_days p) (ps_leave_days p)
    (ps_overtime_hours p) (ps_basic_salary p) (ps_housing_allowance p)
    (ps_transport_allowance p) (ps_medical_allowance p) (ps_utility_allowance p)
    (ps_other_allowances p) (ps_overtime_pay p) (ps_gross_salary p)
    (ps_income_tax p) (ps_eobi_contribution p) (ps_sessi_contribution p)
    (ps_loan_deduction p) (ps_other_deductions p) (ps_total_deductions p)
    (ps_net_salary p) (ps_taxable_income p) (ps_tax_slab p) (ps_is_filer p) s.

(** [UPDATE payslips SET status = $1 WHERE payroll_run_id = $2]. *)
Definition update_payslips_status (s : PayslipStatus) (id : uuid) (d : DB) : DB :=
  set_payslips d
    (map (fun p => if (ps_payroll_run_id p =? id)%nat
                   then set_payslip_status s p else p) (payslips d)).

(** [approvePayroll(payrollRunId, approvedBy)]: every statement goes through
    the pool; there is no transaction. *)
Definition approvePayroll (payrollRunId approvedBy : uuid) : M PayrollRun :=
  result <- pool_query (select (select_run payrollRunId)) ;;
  match result with
  | [] => throw (NotFoundError "Payroll run not found")
  | row :: _ =>
      if negb (RunStatus_beq (pr_status row) completed)
      then throw (BadRequestError "Only completed payroll runs can be approved")
      else
        at_ <- current_timestamp ;;
        pool_query (execute (update_run payrollRunId (approve_run approvedBy at_))) ;;;
        pool_query (execute (update_payslips_status slip_approved payrollRunId)) ;;;
        getPayrollRunById payrollRunId
  end.

End PayrollService.

(** ** POST /payroll/calculate-tax (src/routes/payroll.routes.js,
       src/middleware/validate.js, src/controllers/payroll.controller.js) *)

Module PayrollRoutes.
Import JS TaxCalculator.

(** [req.body.grossSalary] as the validator sees it: absent, a value written
    in float syntax (a JSON number or such a string), an array, or anything
    else.  A validator runs on each element of an array: [Some q] is an
    element in float syntax, [None] any other; elements that are arrays or
    objects themselves are not modelled. *)
Inductive GrossField :=
  | GrossMissing
  | GrossNumeric (value : Q)
  | GrossArray (items : list (option Q))
  | GrossOther.

(** [req.body.isFiler]: absent, a JSON boolean, a value [isBoolean] accepts
    that is not a boolean (the strings true, false, 1, 0, or an array of
    such values), or anything else. *)
Inductive FilerField :=
  | FilerMissing
  | FilerBoolean (b : bool)
  | FilerBooleanLike
  | FilerOther.

Record FieldError := mkFieldError { field : string; message : string }.

(** The bearer token of the request, as [protect] finds it. *)
Inductive Token := TokenMissing | TokenExpired | TokenInvalid | TokenValid.

(** A request on its way through the handlers: its token, the two body
    fields, and the errors the validators recorded. *)
Record Request := mkRequest {
  token : Token;
  grossSalary : GrossField;
  isFiler : FilerField;
  validation_errors : list FieldError
}.

Inductive HttpError :=
  | UnauthorizedError (msg : string)
  | BadRequestError (msg : string) (details : list FieldError).

(** A handler either calls [next()] or ends the request with an error. *)
Inductive Step :=
  | Next (req : Request)
  | Fail (e : HttpError).

Definition Middleware := Request -> Step.

Definition add_error (req : Request) (e : FieldError) : Request :=
  mkRequest (token req) (grossSalary req) (isFiler req)
            (validation_errors req ++ [e]).

(** [protect]. *)
Definition protect : Middleware := fun req =>
  match token req with
  | TokenValid => Next req
  | TokenMissing => Fail (UnauthorizedError "Access token required")
  | TokenExpired => Fail (UnauthorizedError "Access token has expired")
  | TokenInvalid => Fail (UnauthorizedError "Invalid access token")
  end.

(** [isFloat({ min: 0 })] on the field's text, or on the text of each
    element of an array: the empty array passes. *)
Definition isFloat_min0 (v : GrossField) : bool :=
  match v with
  | GrossNumeric q => geb q 0
  | GrossArray items =>
      forallb (fun item => match item with
                           | Some q => geb q 0
                           | None => false
                           end) items
  | _ => false
  end.

(** [body('grossSalary').isFloat({ min: 0 }).withMessage(...)]. *)
Definition validate_grossSalary : Middleware := fun req =>
  if isFloat_min0 (grossSalary req) then Next req
  else Next (add_error req
          (mkFieldError "grossSalary" "Gross salary must be a positive number")).

(** [body('isFiler').optional().isBoolean()]. *)
Definition validate_isFiler : Middleware := fun req =>
  match isFiler req with
  | FilerOther => Next (add_error req (mkFieldError "isFiler" "Invalid value"))
  | _ => Next req
  end.

(** [handleValidation]. *)
Definition handleValidation : Middleware := fun req =>
  match validation_errors req with
  | [] => Next req
  | messages => Fail (BadRequestError "Validation failed" messages)
  end.

(** Express runs the handlers in order until one fails. *)
Fixpoint run_handlers (hs : list Middleware) (req : Request) : Step :=
  match hs with
  | [] => Next req
  | h :: rest =>
      match h req with
      | Next req' => run_handlers rest req'
      | Fail e => Fail e
      end
  end.

(** [router.use(protect)] and [payrollValidation.calculateTax]. *)
Definition calculateTax_handlers : list Middleware :=
  [protect; validate_grossSalary; validate_isFiler; handleValidation].

(** The body of an error response (src/utils/apiResponse.js). *)
Record ErrorBody := mkErrorBody {
  statusCode : Z;
  code : string;
  error_message : string;
  details : list FieldError
}.

(** [errorHandler]: an application error that carries details is answered
    with [validationError(err.details)], any other with its own code. *)
Definition errorHandler (e : HttpError) : ErrorBody :=
  match e with
  | BadRequestError _ ds =>
      mkErrorBody 400 "VALIDATION_ERROR" "Request validation failed" ds
  | UnauthorizedError msg => mkErrorBody 401 "UNAUTHORIZED" msg []
  end.

(** What the route answers.  Arithmetic on a value that is not a number
    gives NaN fields, which the rationals do not hold: [SuccessNaN]. *)
Inductive Response :=
  | Success (taxDetails : Deductions)
  | SuccessNaN
  | Failure (body : ErrorBody).

(** The controller [calculateTax]:
    [calculateAllDeductions(grossSalary, isFiler === true)].  In the
    calculator's arithmetic the empty array counts as 0 and an array of one
    number as that number. *)
Definition calculateTax (req : Request) : Response :=
  let filer := match isFiler req with
               | FilerBoolean true => true
               | _ => false
               end in
  match grossSalary req with
  | GrossNumeric g => Success (calculateAllDeductions g filer no_additional)
  | GrossArray [] => Success (calculateAllDeductions 0 filer no_additional)
  | GrossArray [Some g] =>
      Success (calculateAllDeductions g filer no_additional)
  | _ => SuccessNaN
  end.

(** The route: handlers, then the controller; an error goes to the error
    handler. *)
Definition post_calculate_tax (req : Request) : Response :=
  match run_handlers calculateTax_handlers req with
  | Next req' => calculateTax req'
  | Fail e => Failure (errorHandler e)
  end.

End PayrollRoutes.

(** ** What a run writes, as functions of the database it starts from *)

Module RunContent.
Import JS TaxCalculator Store Conn Calendar PayrollService.

(** The working days [calculateWorkingDays] returns on database [d], on the
    given side of UTC. *)
Definition working_days_of (east : bool) (d : DB) (month year : Z) : Z :=
  count_working_days
    (select_holidays (toISODate east (startDate month year))
                     (toISODate east (endDate month year)) d)
    (month_dates month year).

(** The payslip the loop body inserts for [emp] on database [d]. *)
Definition payslip_of (payrollRunId : uuid) (month year workingDays : Z)
    (d : DB) (emp : EmployeeRow) : Payslip :=
  make_payslip payrollRunId month year workingDays emp
    (attendance_summary (employee_id emp) month year d).

(** The payslips of a whole run of the loop. *)
Definition regenerated (east : bool) (payrollRunId : uuid) (run : PayrollRun)
    (d : DB) : list Payslip :=
  map (payslip_of payrollRunId (pr_month run) (pr_year run)
         (working_days_of east d (pr_month run) (pr_year run)) d)
      (select_active_employees d).

(** The totals the loop accumulates over a list of payslips. *)
Definition run_totals (slips : list Payslip) : Totals :=
  fold_left add_totals slips zero_totals.

(** The database a completed [processPayroll] commits, from the database
    [d] it started on and the run row [run] it read. *)
Definition processed (east : bool) (payrollRunId processedBy : uuid)
    (at_ : nat) (run : PayrollRun) (d : DB) : DB :=
  let slips := regenerated east payrollRunId run d in
  mkDB
    (map (fun r => if (pr_id r =? payrollRunId)%nat
                   then complete_run (List.length (select_active_employees d))
                          (run_totals slips) processedBy at_ r
                   else r)
         (payroll_runs d))
    (filter (fun p => negb (ps_payroll_run_id p =? payrollRunId)%nat)
            (payslips d) ++ slips)
    (employees d) (salary_structures d) (attendance d) (public_holidays d).

(** The money columns of a payslip. *)
Record Money := mkMoney {
  m_basic_salary : Q;
  m_housing_allowance : Q;
  m_transport_allowance : Q;
  m_medical_allowance : Q;
  m_utility_allowance : Q;
  m_other_allowances : Q;
  m_overtime_pay : Number;
  m_gross_salary : Number;
  m_income_tax : Z;
  m_eobi_contribution : Z;
  m_sessi_contribution : Z;
  m_loan_deduction : Q;
  m_other_deductions : Q;
  m_total_deductions : Q;
  m_net_salary : Number;
  m_taxable_income : Q
}.

Definition money (p : Payslip) : Money :=
  {| m_basic_salary := ps_basic_salary p;
     m_housing_allowance := ps_housing_allowance p;
     m_transport_allowance := ps_transport_allowance p;
     m_medical_allowance := ps_medical_allowance p;
     m_utility_allowance := ps_utility_allowance p;
     m_other_allowances := ps_other_allowances p;
     m_overtime_pay := ps_overtime_pay p;
     m_gross_salary := ps_gross_salary p;
     m_income_tax := ps_income_tax p;
     m_eobi_contribution := ps_eobi_contribution p;
     m_sessi_contribution := ps_sessi_contribution p;
     m_loan_deduction := ps_loan_deduction p;
     m_other_deductions := ps_other_deductions p;
     m_total_deductions := ps_total_deductions p;
     m_net_salary := ps_net_salary p;
     m_taxable_income := ps_taxable_income p |}.


(** Two attendance rows of the same worker and day with the same overtime;
    the statuses are free. *)
Definition same_but_status (x y : Attendance) : Prop :=
  a_employee_id x = a_employee_id y
  /\ a_date x = a_date y
  /\ a_overtime_hours x = a_overtime_hours y.

(** The same input, except that attendance rows may differ in status. *)
Definition same_input_but_status (payrollRunId : uuid) (a b : DB) : Prop :=
  employees a = employees b
  /\ salary_structures a = salary_structures b
  /\ Forall2 same_but_status (attendance a) (attendance b)
  /\ public_holidays a = public_holidays b
  /\ map (fun r => (pr_month r, pr_year r)) (select_run payrollRunId a)
     = map (fun r => (pr_month r, pr_year r)) (select_run payrollRunId b).

End RunContent.

(** ** A concrete month: April 2024 *)

Module Scenario.
Import JS TaxCalculator Store Conn Calendar PayrollService.

Definition worker1 : Employee := mkEmployee 1%nat "EMP-001" (Some filer) (Some active).
Definition worker2 : Employee := mkEmployee 2%nat "EMP-002" None (Some active).
Definition worker3 : Employee := mkEmployee 3%nat "EMP-003" (Some filer) (Some terminated).

Definition structure1 : SalaryStructure :=
  mkSalaryStructure 1%nat 100000 30000 10000 5000 5000 0 None None true.
Definition structure2 : SalaryStructure :=
  mkSalaryStructure 2%nat 60000 0 0 0 0 0 (Some 2000) None true.
Definition structure2_old : SalaryStructure :=
  mkSalaryStructure 2%nat 50000 0 0 0 0 0 None None false.

(** Worker 1 has ten overtime hours in April 2024; worker 2 has no record. *)
Definition april_attendance : list Attendance :=
  [ mkAttendance 1%nat (mkDate 2024 4 1) present (Some 4);
    mkAttendance 1%nat (mkDate 2024 4 2) late (Some 6);
    mkAttendance 1%nat (mkDate 2024 4 3) present None;
    mkAttendance 1%nat (mkDate 2024 3 29) present (Some 3) ].

(** The same days with other statuses. *)
Definition april_attendance_absent : list Attendance :=
  [ mkAttendance 1%nat (mkDate 2024 4 1) absent (Some 4);
    mkAttendance 1%nat (mkDate 2024 4 2) on_leave (Some 6);
    mkAttendance 1%nat (mkDate 2024 4 3) absent None;
    mkAttendance 1%nat (mkDate 2024 3 29) present (Some 3) ].

Definition run_in (s : RunStatus) : PayrollRun :=
  mkPayrollRun 7%nat 4 2024 s 0 (Finite 0) 0 0 (Finite 0) None None None None.

(** A payslip left by an earlier processing, with other totals. *)
Definition stale_payslip : Payslip :=
  mkPayslip 7%nat 1%nat 4 2024 22 20 0 0 0 90000 0 0 0 0 0 (Finite 0)
            (Finite 90000) 0 135 0 0 0 135 (Finite 89865) 1080000 None true
            generated.

Definition april_db (s : RunStatus) (slips : list Payslip)
    (att : list Attendance) : DB :=
  mkDB [run_in s] slips [worker1; worker2; worker3]
       [structure1; structure2; structure2_old] att [mkDate 2024 4 10].

Definition no_faults : nat -> bool := fun _ => false.

(** A world on a server in UTC. *)
Definition world_of (d : DB) (f : nat -> bool) : World :=
  mkWorld d None 0 f 1000 false.

(** A draft run on an empty payslip table. *)
Definition draft_world : World :=
  world_of (april_db draft [] april_attendance) no_faults.

(** The run back in draft, with a stale payslip in the table. *)
Definition redo_world : World :=
  world_of (april_db draft [stale_payslip] april_attendance) no_faults.

(** The same draft run with the other attendance statuses. *)
Definition absent_world : World :=
  world_of (april_db draft [] april_attendance_absent) no_faults.

(** The store fails the tenth statement: the second worker's INSERT. *)
Definition failing_world : World :=
  world_of (april_db draft [stale_payslip] april_attendance)
           (fun n => (n =? 9)%nat).

(** The run row a call returned. *)
Definition returned (o : Outcome PayrollRun * World) : PayrollRun :=
  match fst o with
  | Return r => r
  | Throw _ => run_in draft
  end.

Definition completed_world : World :=
  world_of (april_db completed [stale_payslip] april_attendance) no_faults.

Definition approved_world : World :=
  world_of (april_db approved [stale_payslip] april_attendance) no_faults.

End Scenario.

(** ** Transaction discipline *)

Module Transactional.
Import Store Conn.

(** Computations that stay inside the open transaction: whatever they
    return, the committed database is the one they started from. *)
Definition tx_safe {A} (m : M A) : Prop :=
  forall w r w', working w <> None -> m w = (r, w') ->
    committed w' = committed w /\ working w' <> None.

(** Computations whose failure leaves the committed database untouched. *)
Definition throws_safe {A} (m : M A) : Prop :=
  forall w e w', working w <> None -> m w = (Throw e, w') ->
    committed w' = committed w.

End Transactional.

(** ** src/config/database.js: the transaction helper *)

Module Database.
Import Store Conn.

(** [transaction(callback)]: BEGIN, the callback on the client, COMMIT; any
    failure is answered by ROLLBACK and rethrown. *)
Definition transaction {A} (callback : M A) : M A :=
  try_rollback (BEGIN ;;;
                result <- callback ;;
                COMMIT ;;;
                ret result).

End Database.

(** ** src/services/payroll.service.js: creating and listing runs *)

Module PayrollRuns.
Import JS TaxCalculator Store Conn Calendar PayrollService.

(** [SELECT * FROM payroll_runs WHERE month = $1 AND year = $2]. *)
Definition select_period (month year : Z) (d : DB) : list PayrollRun :=
  filter (fun r => (pr_month r =? month)%Z && (pr_year r =? year)%Z)
         (payroll_runs d).

(** [gen_random_uuid()]: an id no row of the table has. *)
Definition fresh_id (d : DB) : uuid :=
  S (list_max (map pr_id (payroll_runs d))).

(** The row of [INSERT INTO payroll_runs (month, year, period_start,
    period_end, processed_by)]: the other columns take their defaults.  The
    two period columns are not among the columns [PayrollRun] keeps. *)
Definition new_run (id : uuid) (month year : Z) (processedBy : uuid)
  : PayrollRun :=
  mkPayrollRun id month year draft 0 (Finite 0) 0 0 (Finite 0)
               (Some processedBy) None None None.

(** The INSERT, with the table's CHECK on [month] and its unique index on
    (month, year).  The users table is not modelled: [processed_by] is taken
    to name a user. *)
Definition insert_run (month year : Z) (period_start period_end : Date)
    (processedBy : uuid) (d : DB) : Outcome PayrollRun * DB :=
  if negb ((1 <=? month)%Z && (month <=? 12)%Z)
  then (Throw (DatabaseError "payroll_runs_month_check"), d)
  else if existsb (fun r => (pr_month r =? month)%Z && (pr_year r =? year)%Z)
                  (payroll_runs d)
  then (Throw (DatabaseError "idx_payroll_runs_unique_period"), d)
  else let row := new_run (fresh_id d) month year processedBy in
       (Return row, set_payroll_runs d (payroll_runs d ++ [row])).

Definition status_name (s : RunStatus) : string :=
  match s with
  | draft => "draft"
  | processing => "processing"
  | completed => "completed"
  | approved => "approved"
  | paid => "paid"
  | cancelled => "cancelled"
  end.

Definition decimal (z : Z) : string := NilZero.string_of_int (Z.to_int z).

(** The message [`Payroll for ${month}/${year} is already ${status}`]. *)
Definition already_message (month year : Z) (s : RunStatus) : string :=
  ("Payroll for " ++ decimal month ++ "/" ++ decimal year ++ " is already "
   ++ status_name s)%string.

(** [createPayrollRun({ month, year, processedBy })].  The text of the two
    period dates is not modelled: the year is taken within 0 to 9999, where
    [toISOString] writes a date the store reads. *)
Definition createPayrollRun (month year : Z) (processedBy : uuid)
  : M PayrollRun :=
  existing <- pool_query (select (select_period month year)) ;;
  match existing with
  | row :: _ =>
      if negb (RunStatus_beq (pr_status row) draft)
      then throw (BadRequestError (already_message month year (pr_status row)))
      else getPayrollRunById (pr_id row)
  | [] =>
      let periodStart := startDate month year in
      let periodEnd := endDate month year in
      result <- pool_query
                  (insert_run month year periodStart periodEnd processedBy) ;;
      getPayrollRunById (pr_id result)
  end.

(** The [status] filter of a listing: absent (or empty), one of the
    column's values, or a text no row carries. *)
Inductive StatusFilter :=
  | AnyStatus
  | HasStatus (s : RunStatus)
  | UnknownStatus.

(** The WHERE clause [getPayrollRuns] assembles: [if (year)] and
    [if (status)] add a condition only for a truthy value. *)
Definition where_clause (year : option Z) (status : StatusFilter)
    (r : PayrollRun) : bool :=
  (match year with
   | Some y => if (y =? 0)%Z then true else (pr_year r =? y)%Z
   | None => true
   end)
  && (match status with
      | AnyStatus => true
      | HasStatus s => RunStatus_beq (pr_status r) s
      | UnknownStatus => false
      end).

(** [ORDER BY pr.year DESC, pr.month DESC]. *)
Definition listed_before (a b : PayrollRun) : bool :=
  (pr_year b <? pr_year a)%Z
  || ((pr_year a =? pr_year b)%Z && (pr_month b <=? pr_month a)%Z).

Fixpoint insert_sorted (r : PayrollRun) (l : list PayrollRun)
  : list PayrollRun :=
  match l with
  | [] => [r]
  | x :: rest =>
      if listed_before r x then r :: l else x :: insert_sorted r rest
  end.

Definition order_by_period (l : list PayrollRun) : list PayrollRun :=
  fold_right insert_sorted [] l.

(** [SELECT COUNT( * ) FROM payroll_runs WHERE ...]. *)
Definition count_runs (year : option Z) (status : StatusFilter) (d : DB) : Z :=
  Z.of_nat (List.length (filter (where_clause year status) (payroll_runs d))).

(** The page query [... ORDER BY ... LIMIT $n OFFSET $m]; the store refuses
    a negative OFFSET or LIMIT. *)
Definition select_page (year : option Z) (status : StatusFilter)
    (limit offset : Z) (d : DB) : Outcome (list PayrollRun) * DB :=
  if (offset <? 0)%Z
  then (Throw (DatabaseError "OFFSET must not be negative"), d)
  else if (limit <? 0)%Z
  then (Throw (DatabaseError "LIMIT must not be negative"), d)
  else (Return (firstn (Z.to_nat limit)
                  (skipn (Z.to_nat offset)
                     (order_by_period
                        (filter (where_clause year status) (payroll_runs d))))),
        d).

Record Pagination := mkPagination {
  page : Z;
  limit : Z;
  total : Z;
  totalPages : Number
}.

Record RunsPage := mkRunsPage {
  payrollRuns : list PayrollRun;
  pagination : Pagination
}.

(** [Math.ceil(total / limit)] for a limit other than 0. *)
Definition Math_ceil_div (total limit : Z) : Z :=
  Qceiling (inject_Z total / inject_Z limit).

(** [Number.MAX_SAFE_INTEGER]: up to it the engine's arithmetic on whole
    numbers is exact. *)
Definition MAX_SAFE_INTEGER : Z := 9007199254740991.

(** [Math.ceil(total / limit)] on whole numbers.  Below 2^53 the rounding
    of the quotient does not reach a whole number, so the ceiling is that of
    the exact quotient; with [limit = 0] the quotient is an infinity, or
    NaN for 0 / 0. *)
Definition total_pages (total limit : Z) : Number :=
  if (limit =? 0)%Z
  then (if (total =? 0)%Z then NaN else Infinity (total <? 0)%Z)
  else Finite (inject_Z (Math_ceil_div total limit)).

(** [getPayrollRuns({ page, limit, year, status })], for a page and a limit
    that are whole numbers. *)
Definition getPayrollRuns (page limit : Z) (year : option Z)
    (status : StatusFilter) : M RunsPage :=
  let offset := ((page - 1) * limit)%Z in
  total <- pool_query (select (count_runs year status)) ;;
  rows <- pool_query (select_page year status limit offset) ;;
  ret {| payrollRuns := map transformPayrollRun rows;
         pagination := mkPagination page limit total
                                    (total_pages total limit) |}.

End PayrollRuns.

(** ** The run routes (src/routes/payroll.routes.js, src/middleware/auth.js,
       src/controllers/payroll.controller.js) *)

Module RunRoutes.
Import Store Conn PayrollService PayrollRuns.

(** The bearer token as [protect] finds it.  [jwt.verify] fails with a
    TokenExpiredError, a JsonWebTokenError or, for a token whose [nbf] lies
    ahead, a NotBeforeError, to which [verifyAccessToken] gives no code; a
    token that verifies carries the user's id and role. *)
Inductive Bearer :=
  | NoBearer
  | ExpiredBearer
  | InvalidBearer
  | NotActiveBearer
  | ValidBearer (userId : uuid) (role : string).

Record User := mkUser { user_id : uuid; user_role : string }.

(** [req.params.id]: a UUID or some other text. *)
Inductive IdParam :=
  | IdUuid (id : uuid)
  | IdMalformed.

(** A body field checked by [isInt]: absent, a JSON number or a string that
    [isInt] reads as a whole number, an array, or anything else.  The model
    follows the service on the number, not on its spelling.  A validator
    runs on each element of an array: [Some z] is an element read as the
    whole number [z], [None] any other; elements that are arrays or objects
    themselves are not modelled. *)
Inductive IntField :=
  | IntMissing
  | IntWritten (value : Z)
  | IntArray (items : list (option Z))
  | IntOther.

(** A request on its way through the handlers. *)
Record Request := mkRequest {
  bearer : Bearer;
  user : option User;
  id_param : IdParam;
  body_month : IntField;
  body_year : IntField;
  validation_errors : list PayrollRoutes.FieldError
}.

(** The errors the handlers end a request with: the application errors,
    and the library's NotBeforeError that [protect] passes on as it is. *)
Inductive HttpError :=
  | UnauthorizedError (msg : string)
  | ForbiddenError (msg : string)
  | BadRequestError (msg : string) (details : list PayrollRoutes.FieldError)
  | NotBeforeError (msg : string).

Inductive Step :=
  | Next (req : Request)
  | Fail (e : HttpError).

Definition Middleware := Request -> Step.

Definition set_user (req : Request) (u : User) : Request :=
  mkRequest (bearer req) (Some u) (id_param req) (body_month req)
            (body_year req) (validation_errors req).

Definition add_error (req : Request) (e : PayrollRoutes.FieldError) : Request :=
  mkRequest (bearer req) (user req) (id_param req) (body_month req)
            (body_year req) (validation_errors req ++ [e]).

(** [protect]: attaches [req.user] from a token that verifies. *)
Definition protect : Middleware := fun req =>
  match bearer req with
  | ValidBearer userId role => Next (set_user req (mkUser userId role))
  | NoBearer => Fail (UnauthorizedError "Access token required")
  | ExpiredBearer => Fail (UnauthorizedError "Access token has expired")
  | InvalidBearer => Fail (UnauthorizedError "Invalid access token")
  | NotActiveBearer => Fail (NotBeforeError "jwt not active")
  end.

(** [restrictTo(...roles)]. *)
Definition restrictTo (roles : list string) : Middleware := fun req =>
  match user req with
  | None => Fail (UnauthorizedError "Authentication required")
  | Some u =>
      if existsb (String.eqb (user_role u)) roles then Next req
      else Fail (ForbiddenError
                   "You do not have permission to perform this action")
  end.

Definition adminOnly : Middleware := restrictTo ["admin"%string].
Definition hrOrAdmin : Middleware := restrictTo ["admin"%string; "hr"%string].

(** [commonValidation.uuid('id')[0]]: the validator alone, which records its
    finding; the [handleValidation] that follows it in the array is not
    taken. *)
Definition validate_uuid_param : Middleware := fun req =>
  match id_param req with
  | IdUuid _ => Next req
  | IdMalformed =>
      Next (add_error req
              (PayrollRoutes.mkFieldError "id" "id must be a valid UUID"))
  end.

(** [isInt({ min, max })], on the field or on each element of an array:
    the empty array passes. *)
Definition isInt_between (lo hi : Z) (v : IntField) : bool :=
  match v with
  | IntWritten z => (lo <=? z)%Z && (z <=? hi)%Z
  | IntArray items =>
      forallb (fun item => match item with
                           | Some z => (lo <=? z)%Z && (z <=? hi)%Z
                           | None => false
                           end) items
  | _ => false
  end.

(** [body('month').isInt({ min: 1, max: 12 }).withMessage(...)]. *)
Definition validate_month : Middleware := fun req =>
  if isInt_between 1 12 (body_month req) then Next req
  else Next (add_error req
          (PayrollRoutes.mkFieldError "month" "Month must be between 1 and 12")).

(** [body('year').isInt({ min: 2020, max: 2100 }).withMessage(...)]. *)
Definition validate_year : Middleware := fun req =>
  if isInt_between 2020 2100 (body_year req) then Next req
  else Next (add_error req (PayrollRoutes.mkFieldError "year" "Invalid year")).

(** [handleValidation]. *)
Definition handleValidation : Middleware := fun req =>
  match validation_errors req with
  | [] => Next req
  | messages => Fail (BadRequestError "Validation failed" messages)
  end.

(** Express runs the handlers in order until one fails. *)
Fixpoint run_handlers (hs : list Middleware) (req : Request) : Step :=
  match hs with
  | [] => Next req
  | h :: rest =>
      match h req with
      | Next req' => run_handlers rest req'
      | Fail e => Fail e
      end
  end.

(** What a route answers: the body [success(data, meta)] with its status,
    the body [errorHandler] builds for an application error, its answer to
    an error that is none (status 500 and code INTERNAL_ERROR, with the
    error's message outside production), the failure of the store (whose
    rendering depends on the store's error code and is not modelled), or the
    answer to a body the model does not follow the service on. *)
Inductive Response :=
  | Success (status : Z) (data : PayrollRun) (meta : string)
  | Failure (body : PayrollRoutes.ErrorBody)
  | InternalFailure (msg : string)
  | StoreFailure (e : Error)
  | NotModelled.

(** The HTTP status of an answer, where the model has it. *)
Definition status_of (r : Response) : option Z :=
  match r with
  | Success status _ _ => Some status
  | Failure body => Some (PayrollRoutes.statusCode body)
  | InternalFailure _ => Some 500%Z
  | StoreFailure _ => None
  | NotModelled => None
  end.

(** [errorHandler] on the handlers' errors: an application error that
    carries details is answered with [validationError(err.details)], any
    other with its own status and code, and an error that is no application
    error by the default branch. *)
Definition errorHandler (e : HttpError) : Response :=
  match e with
  | UnauthorizedError m =>
      Failure (PayrollRoutes.mkErrorBody 401 "UNAUTHORIZED" m [])
  | ForbiddenError m =>
      Failure (PayrollRoutes.mkErrorBody 403 "FORBIDDEN" m [])
  | BadRequestError _ ds =>
      Failure (PayrollRoutes.mkErrorBody 400 "VALIDATION_ERROR"
                                         "Request validation failed" ds)
  | NotBeforeError m => InternalFailure m
  end.

(** [errorHandler] on what the service throws. *)
Definition render_error (e : Error) : Response :=
  match e with
  | NotFoundError m => Failure (PayrollRoutes.mkErrorBody 404 "NOT_FOUND" m [])
  | Conn.BadRequestError m =>
      Failure (PayrollRoutes.mkErrorBody 400 "INVALID_INPUT" m [])
  | _ => StoreFailure e
  end.

(** A controller wrapped by [asyncHandler]: the service's result in
    [success(payrollRun, meta)], its error through [errorHandler]. *)
Definition respond (status : Z) (meta : string) (service : M PayrollRun)
  : M Response :=
  fun w =>
    match service w with
    | (Return run, w') => (Return (Success status run meta), w')
    | (Throw e, w') => (Return (render_error e), w')
    end.

(** A statement that carries an id the store cannot read as a UUID. *)
Definition malformed_id_statement {A} : DB -> Outcome A * DB :=
  fun d => (Throw (DatabaseError "invalid input syntax for type uuid"), d).

(** [processPayroll(req.params.id, ...)]: with a malformed id the first
    statement that carries it, the SELECT after BEGIN, fails. *)
Definition processPayroll_param (id : IdParam) (processedBy : uuid)
  : M PayrollRun :=
  match id with
  | IdUuid u => processPayroll u processedBy
  | IdMalformed => try_rollback (BEGIN ;;; client_query malformed_id_statement)
  end.

(** [approvePayroll(req.params.id, ...)]. *)
Definition approvePayroll_param (id : IdParam) (approvedBy : uuid)
  : M PayrollRun :=
  match id with
  | IdUuid u => approvePayroll u approvedBy
  | IdMalformed => pool_query malformed_id_statement
  end.

(** [req.user.id]; every route below runs after [protect]. *)
Definition requester (req : Request) : uuid :=
  match user req with
  | Some u => user_id u
  | None => 0%nat
  end.

(** A route: its handlers, then its controller; a handler's error goes to
    the error handler. *)
Definition route (hs : list Middleware) (controller : Request -> M Response)
    (req : Request) : M Response :=
  match run_handlers hs req with
  | Next req' => controller req'
  | Fail e => ret (errorHandler e)
  end.

(** [router.post('/runs/:id/process', hrOrAdmin, uuid('id')[0], ...)],
    after [router.use(protect)]. *)
Definition post_process : Request -> M Response :=
  route [protect; hrOrAdmin; validate_uuid_param]
        (fun req => respond 200 "Payroll processed successfully"
                      (processPayroll_param (id_param req) (requester req))).

(** [router.post('/runs/:id/approve', adminOnly, uuid('id')[0], ...)]. *)
Definition post_approve : Request -> M Response :=
  route [protect; adminOnly; validate_uuid_param]
        (fun req => respond 200 "Payroll approved"
                      (approvePayroll_param (id_param req) (requester req))).

(** A statement that carries an array where the store reads an integer. *)
Definition array_for_integer_statement {A} : DB -> Outcome A * DB :=
  fun d => (Throw (DatabaseError "invalid input syntax for type integer"), d).

(** [createPayrollRun({ month, year, processedBy })] on the body's fields:
    with an array for the month or the year the service's first statement,
    which carries both, fails.  The service on a field that is absent or
    otherwise no whole number is not modelled. *)
Definition createPayrollRun_body (month year : IntField) (processedBy : uuid)
  : option (M PayrollRun) :=
  match month, year with
  | IntWritten m, IntWritten y => Some (createPayrollRun m y processedBy)
  | IntArray _, IntWritten _ => Some (pool_query array_for_integer_statement)
  | IntWritten _, IntArray _ => Some (pool_query array_for_integer_statement)
  | IntArray _, IntArray _ => Some (pool_query array_for_integer_statement)
  | _, _ => None
  end.

(** [router.post('/runs', hrOrAdmin, payrollValidation.create, ...)]. *)
Definition post_runs : Request -> M Response :=
  route [protect; hrOrAdmin; validate_month; validate_year; handleValidation]
        (fun req =>
           match createPayrollRun_body (body_month req) (body_year req)
                                       (requester req) with
           | Some service => respond 201 "Payroll run created" service
           | None => ret NotModelled
           end).

End RunRoutes.

(** ** The tax schedule on whole incomes *)

Module Schedule.
Import JS TaxCalculator.

(** The tax of a slab table read as a marginal schedule: the fixed amount of
    the income's bracket plus the bracket's rate on the excess over the
    bracket's lower threshold, the thresholds being 600,000, 1,200,000,
    2,200,000, 3,200,000 and 4,100,000. *)
Definition marginal_tax (income : Q) (isFiler : bool) : Q :=
  if leb income 600000 then 0
  else if leb income 1200000
  then (income - 600000) * (if isFiler then 25 # 1000 else 275 # 10000)
  else if leb income 2200000
  then (if isFiler then 15000 else 16500)
       + (income - 1200000) * (if isFiler then 125 # 1000 else 1375 # 10000)
  else if leb income 3200000
  then (if isFiler then 140000 else 154000)
       + (income - 2200000) * (if isFiler then 225 # 1000 else 2475 # 10000)
  else if leb income 4100000
  then (if isFiler then 365000 else 401500)
       + (income - 3200000) * (if isFiler then 275 # 1000 else 3025 # 10000)
  else (if isFiler then 612500 else 673750)
       + (income - 4100000) * (if isFiler then 35 # 100 else 385 # 1000).

(** The highest marginal rate of a table. *)
Definition top_rate (isFiler : bool) : Q :=
  if isFiler then 35 # 100 else 385 # 1000.

End Schedule.

(** ** Week days of a month *)

Module WeekDays.
Import Store Calendar PayrollService.

(** The test of the working-day loop on the day of the week. *)
Definition is_week_day (dt : Date) : bool :=
  negb (getDay dt =? 0)%Z && negb (getDay dt =? 6)%Z.

(** The days of a month that are neither Saturday nor Sunday, counted. *)
Definition week_days_in (fullYear month : Z) : Z :=
  Z.of_nat (List.length
    (filter (fun k => is_week_day (mkDate fullYear month (Z.of_nat k)))
            (seq 1 (Z.to_nat (days_in_month fullYear month))))).

(** The same count from the day of the week [first] of the month's first
    day and the month's length. *)
Definition week_days_from (first len : Z) : Z :=
  Z.of_nat (List.length
    (filter (fun k => let day := ((first + (Z.of_nat k - 1)) mod 7)%Z in
                      negb (day =? 0)%Z && negb (day =? 6)%Z)
            (seq 1 (Z.to_nat len)))).

End WeekDays.

(** ** Sums and pages, for stating what the service returns *)

Module ServiceViews.
Import JS TaxCalculator Store Conn Calendar PayrollService PayrollRuns.

(** The sum of a column over payslips. *)
Definition sum_of (column : Payslip -> Q) (slips : list Payslip) : Q :=
  fold_right (fun p acc => column p + acc) 0 slips.

(** The same for a column that may hold NaN: one NaN makes the sum NaN. *)
Definition sum_of_numbers (column : Payslip -> Number) (slips : list Payslip)
  : Number :=
  fold_right (fun p acc => add (column p) acc) (Finite 0) slips.

(** Two numbers that are the same: equal values, both NaN, or the same
    infinity. *)
Definition same_number (a b : Number) : Prop :=
  match a, b with
  | Finite x, Finite y => x == y
  | NaN, NaN => True
  | Infinity s, Infinity t => s = t
  | _, _ => False
  end.

(** An attendance row counted in none of the three day counts. *)
Definition is_uncounted (a : Attendance) : bool :=
  AttendanceStatus_beq (a_status a) half_day
  || AttendanceStatus_beq (a_status a) holiday
  || AttendanceStatus_beq (a_status a) weekend.

(** The period of a run, the key of [idx_payroll_runs_unique_period]. *)
Definition period (r : PayrollRun) : Z * Z := (pr_month r, pr_year r).

(** All the rows a listing pages through, in its order. *)
Definition listing (year : option Z) (status : StatusFilter) (d : DB)
  : list PayrollRun :=
  order_by_period (filter (where_clause year status) (payroll_runs d)).

(** The rows [getPayrollRuns] returns for a page. *)
Definition rows_of_page (page limit : Z) (year : option Z)
    (status : StatusFilter) (w : World) : list PayrollRun :=
  match fst (getPayrollRuns page limit year status w) with
  | Return rp => payrollRuns rp
  | Throw _ => []
  end.

End ServiceViews.

(** ** Further worlds of April 2024 *)

Module Scenario2.
Import JS TaxCalculator Store Conn Calendar PayrollService PayrollRuns Scenario.

(** The store fails the read-back that follows COMMIT. *)
Definition readback_failing_world : World :=
  world_of (april_db draft [stale_payslip] april_attendance)
           (fun n => (n =? 12)%nat).

(** The store fails the payslip update of an approval. *)
Definition cascade_failing_world : World :=
  world_of (april_db completed [stale_payslip] april_attendance)
           (fun n => (n =? 2)%nat).

(** No run with id 8. *)
Definition other_id : uuid := 8%nat.

(** The 22 week days of April 2024. *)
Definition april_week_days : list Date :=
  map (mkDate 2024 4)
      [1; 2; 3; 4; 5; 8; 9; 10; 11; 12; 15; 16; 17; 18; 19; 22; 23; 24; 25;
       26; 29; 30]%Z.

(** April 2024 with every week day a public holiday, and the given
    attendance. *)
Definition shutdown_db (att : list Attendance) : DB :=
  mkDB [run_in draft] [] [worker1; worker2; worker3]
       [structure1; structure2; structure2_old] att april_week_days.

(** No working day and no attendance row. *)
Definition shutdown_world : World := world_of (shutdown_db []) no_faults.

(** No working day, and worker 1 with overtime hours. *)
Definition shutdown_overtime_world : World :=
  world_of (shutdown_db april_attendance) no_faults.

(** April 2024 with holidays on the 10th and the 30th, on a server ahead of
    UTC and on one in UTC. *)
Definition two_holidays_db : DB :=
  mkDB [run_in draft] [] [worker1; worker2; worker3]
       [structure1; structure2; structure2_old] april_attendance
       [mkDate 2024 4 10; mkDate 2024 4 30].

Definition karachi_world : World :=
  mkWorld two_holidays_db None 0 no_faults 1000 true.

Definition utc_world : World := world_of two_holidays_db no_faults.

Definition run_of (id : uuid) (month year : Z) (s : RunStatus) : PayrollRun :=
  mkPayrollRun id month year s 0 (Finite 0) 0 0 (Finite 0)
               None None None None.

(** Five runs, to page through. *)
Definition five_runs_db : DB :=
  mkDB [ run_of 1%nat 11 2023 approved; run_of 2%nat 1 2024 completed;
         run_of 3%nat 12 2023 approved; run_of 4%nat 3 2024 draft;
         run_of 5%nat 2 2024 completed ]
       [] [] [] [] [].

End Scenario2.

(** ** The specification's wording, for comparison with the code *)

Module SpecWording.
Import JS TaxCalculator.

(** The monthly tax as the specification words it: the annual figure is
    rounded, divided by 12 and rounded again. *)
Definition spec_monthlyTax (monthlyGross : Q) (isFiler : bool) : Z :=
  Math_round
    (inject_Z (at_annualTax (calculateAnnualTax (monthlyGross * 12) isFiler)) / 12).

(** A payslip whose deductions are the calculator's output on the payslip's
    own, overtime-inclusive gross, as the specification orders the steps. *)
Definition deducted_on_final_gross (p : Store.Payslip) : Prop :=
  exists finalGross,
    Store.ps_gross_salary p = Finite finalGross
    /\ let deductions :=
         calculateAllDeductions finalGross (Store.ps_is_filer p)
           (mkAdditional (Some (Store.ps_loan_deduction p))
                         (Some (Store.ps_other_deductions p))) in
       Store.ps_income_tax p = incomeTax deductions
       /\ Store.ps_eobi_contribution p = eobi deductions
       /\ Store.ps_total_deductions p == totalDeductions deductions.

End SpecWording.

(** * Properties *)

(** ** Rounding *)

Module JSFacts.
Import JS.

Lemma Math_round_mono (x y : Q) : x <= y -> (Math_round x <= Math_round y)%Z.
Proof.
  intros H. unfold Math_round. apply Qfloor_resp_le. lra.
Qed.

Lemma Math_round_Z (z : Z) : Math_round (inject_Z z) = z.
Proof.
  unfold Math_round.
  pose proof (Qfloor_le (inject_Z z + (1 # 2))) as Hlo.
  pose proof (Qlt_floor (inject_Z z + (1 # 2))) as Hhi.
  remember (Qfloor (inject_Z z + (1 # 2))) as f eqn:Ef. clear Ef.
  rewrite inject_Z_plus in Hhi. change (inject_Z 1) with 1 in Hhi.
  assert (H1 : (f < z + 1)%Z).
  { rewrite Zlt_Qlt, inject_Z_plus. change (inject_Z 1) with 1. lra. }
  assert (H2 : (z < f + 1)%Z).
  { rewrite Zlt_Qlt, inject_Z_plus. change (inject_Z 1) with 1. lra. }
  lia.
Qed.

Lemma Math_round_comp (x y : Q) : x == y -> Math_round x = Math_round y.
Proof.
  intros H. unfold Math_round. apply Qfloor_comp. rewrite H. reflexivity.
Qed.

Lemma Math_round_lower (z : Z) (x : Q) :
  inject_Z z <= x + (1 # 2) -> (z <= Math_round x)%Z.
Proof.
  intros H. unfold Math_round.
  rewrite <- (Qfloor_Z z). now apply Qfloor_resp_le.
Qed.

Lemma Math_round_upper (z : Z) (x : Q) :
  x + (1 # 2) < inject_Z z -> (Math_round x < z)%Z.
Proof.
  intros H. unfold Math_round.
  pose proof (Qfloor_le (x + (1 # 2))) as Hf.
  rewrite Zlt_Qlt. lra.
Qed.

Lemma Math_round_near (x : Q) :
  inject_Z (Math_round x) <= x + (1 # 2) /\ x - (1 # 2) < inject_Z (Math_round x).
Proof.
  unfold Math_round.
  pose proof (Qfloor_le (x + (1 # 2))) as Hlo.
  pose proof (Qlt_floor (x + (1 # 2))) as Hhi.
  rewrite inject_Z_plus in Hhi. change (inject_Z 1) with 1 in Hhi.
  split; lra.
Qed.

Lemma Qle_bool_false (a b : Q) : Qle_bool a b = false -> b < a.
Proof.
  intros H. apply Qnot_le_lt. intros Hle.
  apply Qle_bool_iff in Hle. congruence.
Qed.

(** *** Binary64 rounding *)

Lemma round_half_even_near (x : Q) :
  x - (1 # 2) <= inject_Z (round_half_even x) <= x + (1 # 2).
Proof.
  unfold round_half_even.
  pose proof (Qfloor_le x) as Hlo.
  pose proof (Qlt_floor x) as Hhi.
  rewrite inject_Z_plus in Hhi. change (inject_Z 1) with 1 in Hhi.
  destruct (Qcompare (x - inject_Z (Qfloor x)) (1 # 2)) eqn:E.
  - apply Qeq_alt in E.
    destruct (Z.even (Qfloor x)).
    + split; lra.
    + rewrite inject_Z_plus. change (inject_Z 1) with 1. split; lra.
  - apply Qlt_alt in E. split; lra.
  - apply Qgt_alt in E. rewrite inject_Z_plus. change (inject_Z 1) with 1.
    split; lra.
Qed.

Lemma Qpower_2_pos (e : Z) : 0 < 2 ^ e.
Proof.
  apply Qpower_0_lt. reflexivity.
Qed.

Lemma binade_le (q : Q) : 0 < q -> 2 ^ binade q <= q.
Proof.
  intros Hq. unfold binade. cbv zeta.
  destruct (Qle_bool _ q) eqn:E.
  - apply Qle_bool_iff. exact E.
  - clear E. destruct q as [n d]. cbn [Qnum Qden].
    assert (Hn : (0 < n)%Z).
    { unfold Qlt in Hq. cbn in Hq. lia. }
    pose proof (Z.log2_spec n Hn) as [Hn1 _].
    pose proof (Z.log2_spec (Zpos d) (Pos2Z.is_pos d)) as [_ Hd2].
    pose proof (Z.log2_nonneg n) as Ha.
    pose proof (Z.log2_nonneg (Zpos d)) as Hb.
    set (a := Z.log2 n) in *. set (b := Z.log2 (Zpos d)) in *.
    replace (a - b - 1)%Z with (a + - (Z.succ b))%Z by lia.
    rewrite Qpower_plus by discriminate.
    rewrite Qpower_opp.
    rewrite <- (Zpower_Qpower 2 a) by exact Ha.
    rewrite <- (Zpower_Qpower 2 (Z.succ b)) by lia.
    assert (Hpb : (0 < 2 ^ Z.succ b)%Z) by (apply Z.pow_pos_nonneg; lia).
    assert (Hpa : (0 < 2 ^ a)%Z) by (apply Z.pow_pos_nonneg; lia).
    apply Qle_shift_div_r.
    + change 0 with (inject_Z 0). rewrite <- Zlt_Qlt. exact Hpb.
    + unfold Qle, Qmult, inject_Z. cbn [Qnum Qden].
      rewrite Pos.mul_1_r, Z.mul_1_r.
      apply Z.mul_le_mono_nonneg; lia.
Qed.

Lemma round_positive_near (q : Q) :
  0 < q ->
  q * (1 - unit_roundoff) <= round_positive q <= q * (1 + unit_roundoff).
Proof.
  intros Hq. unfold round_positive. cbv zeta.
  pose proof (binade_le q Hq) as Hb.
  set (ulp := 2 ^ (binade q - 52)).
  assert (Hulp : 0 < ulp) by apply Qpower_2_pos.
  assert (Hu : ulp == 2 ^ binade q * (1 # 4503599627370496)).
  { unfold ulp. replace (binade q - 52)%Z with (binade q + -52)%Z by lia.
    rewrite Qpower_plus by discriminate. reflexivity. }
  clearbody ulp. set (top := 2 ^ binade q) in *. clearbody top.
  pose proof (round_half_even_near (q / ulp)) as [Hlo Hhi].
  set (r := inject_Z (round_half_even (q / ulp))) in *.
  assert (Hq' : q / ulp * ulp == q) by (field; lra).
  assert (H1 : (q / ulp - (1 # 2)) * ulp <= r * ulp).
  { apply Qmult_le_compat_r; lra. }
  assert (H2 : r * ulp <= (q / ulp + (1 # 2)) * ulp).
  { apply Qmult_le_compat_r; lra. }
  assert (H3 : (q / ulp - (1 # 2)) * ulp == q - ulp * (1 # 2)).
  { rewrite <- Hq' at 2. ring. }
  assert (H4 : (q / ulp + (1 # 2)) * ulp == q + ulp * (1 # 2)).
  { rewrite <- Hq' at 2. ring. }
  rewrite H3 in H1. rewrite H4 in H2.
  assert (H5 : ulp * (1 # 2) <= q * unit_roundoff).
  { rewrite Hu. unfold unit_roundoff. lra. }
  split; lra.
Qed.

(** A non-negative number and its nearest binary64 number differ by at
    most the unit roundoff, relatively. *)
Lemma to_double_near (q : Q) :
  0 <= q ->
  q * (1 - unit_roundoff) <= to_double q <= q * (1 + unit_roundoff).
Proof.
  intros Hq. unfold to_double.
  destruct (Qcompare q 0) eqn:E.
  - apply Qeq_alt in E. rewrite E. split; lra.
  - apply Qlt_alt in E. lra.
  - apply Qgt_alt in E. apply round_positive_near. exact E.
Qed.

Lemma to_double_nonneg (q : Q) : 0 <= q -> 0 <= to_double q.
Proof.
  intros Hq. pose proof (to_double_near q Hq) as [H _].
  assert (0 <= q * (1 - unit_roundoff)).
  { apply Qmult_le_0_compat; [exact Hq | unfold unit_roundoff; lra]. }
  lra.
Qed.

(** Rounding a value that lies within factors of [x]. *)
Lemma to_double_within (lo hi x y : Q) :
  0 <= x -> 0 <= lo ->
  x * lo <= y <= x * hi ->
  x * (lo * (1 - unit_roundoff)) <= to_double y
  /\ to_double y <= x * (hi * (1 + unit_roundoff))
  /\ 0 <= to_double y.
Proof.
  intros Hx Hlo [H1 H2].
  assert (Hy : 0 <= y).
  { apply Qle_trans with (x * lo); [apply Qmult_le_0_compat |]; assumption. }
  pose proof (to_double_near y Hy) as [H3 H4].
  assert (Hu1 : 0 <= 1 - unit_roundoff) by (unfold unit_roundoff; lra).
  assert (Hu2 : 0 <= 1 + unit_roundoff) by (unfold unit_roundoff; lra).
  split; [| split].
  - apply Qle_trans with (y * (1 - unit_roundoff)); [| exact H3].
    rewrite Qmult_assoc. apply Qmult_le_compat_r; assumption.
  - apply Qle_trans with (y * (1 + unit_roundoff)); [exact H4 |].
    rewrite Qmult_assoc. apply Qmult_le_compat_r; assumption.
  - apply to_double_nonneg. exact Hy.
Qed.

Lemma product_within (lo1 hi1 lo2 hi2 x1 y1 x2 y2 : Q) :
  0 <= x1 -> 0 <= x2 -> 0 <= lo1 -> 0 <= lo2 ->
  x1 * lo1 <= y1 <= x1 * hi1 ->
  x2 * lo2 <= y2 <= x2 * hi2 ->
  x1 * x2 * (lo1 * lo2) <= y1 * y2 <= x1 * x2 * (hi1 * hi2).
Proof.
  intros Hx1 Hx2 Hl1 Hl2 [A1 A2] [B1 B2].
  assert (P1 : 0 <= x1 * lo1) by (apply Qmult_le_0_compat; assumption).
  assert (P2 : 0 <= x2 * lo2) by (apply Qmult_le_0_compat; assumption).
  split.
  - setoid_replace (x1 * x2 * (lo1 * lo2)) with ((x1 * lo1) * (x2 * lo2))
      by ring.
    apply Qmult_le_compat_nonneg; split; assumption.
  - setoid_replace (x1 * x2 * (hi1 * hi2)) with ((x1 * hi1) * (x2 * hi2))
      by ring.
    apply Qmult_le_compat_nonneg; split; try assumption; lra.
Qed.

End JSFacts.

(** ** Tax and deduction calculator *)

Module TaxFacts.
Import JS JSFacts TaxCalculator SpecWording.

(** At a monthly gross of 50,019 (annual income 600,228, unrounded annual
    tax 5.7) the calculator returns 0, the twice-rounded figure is 1. *)
Lemma monthlyTax_not_twice_rounded :
  mt_monthlyTax (calculateMonthlyTax 50019 true) <> spec_monthlyTax 50019 true.
Proof.
  vm_compute. discriminate.
Qed.

Lemma div12 (x : Q) : x / 12 == x * (1 # 12).
Proof. unfold Qdiv. reflexivity. Qed.

Lemma round_div12_bounds (t : Q) :
  (Math_round (t / 12) <= Math_round (inject_Z (Math_round t) / 12)
   <= Math_round (t / 12) + 1)%Z.
Proof.
  destruct (Math_round_near (t / 12)) as [Ha1 Ha2].
  destruct (Math_round_near t) as [Hr1 Hr2].
  destruct (Math_round_near (inject_Z (Math_round t) / 12)) as [Hb1 Hb2].
  remember (Math_round (inject_Z (Math_round t) / 12)) as b eqn:Eb.
  remember (Math_round (t / 12)) as a eqn:Ea.
  rewrite div12 in Ha1, Ha2, Hb1, Hb2.
  assert (HR : (12 * a + -6 <= Math_round t)%Z).
  { apply Math_round_lower.
    rewrite inject_Z_plus, inject_Z_mult.
    change (inject_Z 12) with 12. change (inject_Z (-6)) with (-6). lra. }
  rewrite Zle_Qle in HR.
  rewrite inject_Z_plus, inject_Z_mult in HR.
  change (inject_Z 12) with 12 in HR. change (inject_Z (-6)) with (-6) in HR.
  split.
  - subst b. apply Math_round_lower. rewrite div12. lra.
  - assert (Hlt : (b < a + 2)%Z); [| lia].
    rewrite Zlt_Qlt, inject_Z_plus. change (inject_Z 2) with 2. lra.
Qed.

(** C2 (as the code has it).  The monthly tax is the unrounded annual tax on
    twelve times the monthly gross, divided by 12 and rounded once; the
    annual projection is the same unrounded figure rounded.  The monthly tax
    never exceeds the twice-rounded figure and is at most one unit below it. *)
Theorem monthlyTax_rounds_unrounded_annual (monthlyGross : Q) (isFiler : bool) :
  mt_monthlyTax (calculateMonthlyTax monthlyGross isFiler)
    = Math_round (raw_tax (monthlyGross * 12) isFiler / 12)
  /\ mt_annualProjection (calculateMonthlyTax monthlyGross isFiler)
    = Math_round (raw_tax (monthlyGross * 12) isFiler)
  /\ (mt_monthlyTax (calculateMonthlyTax monthlyGross isFiler)
      <= spec_monthlyTax monthlyGross isFiler
      <= mt_monthlyTax (calculateMonthlyTax monthlyGross isFiler) + 1)%Z.
Proof.
  split; [reflexivity | split; [reflexivity |]].
  unfold spec_monthlyTax, calculateMonthlyTax, calculateAnnualTax.
  cbn [mt_monthlyTax at_monthlyTax at_annualTax].
  apply round_div12_bounds.
Qed.

(** At a gross of 100,000 the uncapped contribution totals 900 (0.90%), not
    750, and the employer's share is 750, not the residual 600. *)
Lemma eobi_total_not_075_percent :
  total (calculateEOBI 100000) <> Math_round (100000 * (75 # 10000))
  /\ employer (calculateEOBI 100000) <> Math_round (100000 * (60 # 10000)).
Proof.
  split; vm_compute; discriminate.
Qed.

Lemma Math_min_spec (a b : Q) :
  (Math_min a b == a \/ Math_min a b == b)
  /\ Math_min a b <= a /\ Math_min a b <= b.
Proof.
  unfold Math_min. destruct (Qle_bool a b) eqn:E.
  - apply Qle_bool_iff in E. split; [left; reflexivity | split; lra].
  - apply Qle_bool_false in E. split; [right; reflexivity | split; lra].
Qed.

(** C6 (as the code has it).  Uncapped contribution: the employer pays 0.75%
    of gross and the employee 0.15% of gross, each rounded half-up, and the
    total is their sum, within one unit of 0.90% of gross.  Capped
    contribution: 0.75% of the smaller of gross and 25,000, rounded, paid by
    the employer alone. *)
Theorem statutory_contributions (g : Q) :
  employer (calculateEOBI g) = Math_round (g * (75 # 10000))
  /\ employee (calculateEOBI g) = Math_round (g * (15 # 10000))
  /\ total (calculateEOBI g)
     = (employer (calculateEOBI g) + employee (calculateEOBI g))%Z
  /\ g * (90 # 10000) - 1 < inject_Z (total (calculateEOBI g))
     <= g * (90 # 10000) + 1
  /\ employee (calculateSESSI g) = 0%Z
  /\ employer (calculateSESSI g) = total (calculateSESSI g)
  /\ total (calculateSESSI g) = Math_round (Math_min g 25000 * (75 # 10000))
  /\ (Math_min g 25000 == g \/ Math_min g 25000 == 25000)
  /\ Math_min g 25000 <= g /\ Math_min g 25000 <= 25000.
Proof.
  repeat (split; [reflexivity |]).
  split.
  - cbn [calculateEOBI total].
    destruct (Math_round_near (g * (75 # 10000))) as [H1 H2].
    destruct (Math_round_near (g * (15 # 10000))) as [H3 H4].
    rewrite inject_Z_plus. split; lra.
  - repeat (split; [reflexivity |]). apply Math_min_spec.
Qed.

Lemma Qle_bool_Z_left (c n : Z) : Qle_bool (c # 1) (inject_Z n) = (c <=? n)%Z.
Proof.
  unfold Qle_bool, inject_Z. cbn [Qnum Qden]. rewrite !Z.mul_1_r. reflexivity.
Qed.

Lemma Qle_bool_Z_right (c n : Z) : Qle_bool (inject_Z n) (c # 1) = (n <=? c)%Z.
Proof.
  unfold Qle_bool, inject_Z. cbn [Qnum Qden]. rewrite !Z.mul_1_r. reflexivity.
Qed.

Ltac split_leb :=
  repeat match goal with
  | |- context [(?a <=? ?b)%Z] => destruct (Z.leb_spec a b); try lia
  | H : context [(?a <=? ?b)%Z] |- _ =>
      destruct (Z.leb_spec a b); try lia; cbn [andb] in H; try discriminate H
  end.

(** On whole incomes the tables are contiguous and exhaustive: a whole
    income from 0 up lies in exactly one slab. *)
Lemma whole_income_in_exactly_one_slab (n : Z) (isFiler : bool) :
  (0 <= n)%Z ->
  exists s,
    find_slab (slabs_of isFiler) (inject_Z n) = Some s
    /\ forall s', In s' (slabs_of isFiler) ->
                  in_slab (inject_Z n) s' = true -> s' = s.
Proof.
  intros Hn.
  destruct isFiler; unfold find_slab, slabs_of, TAX_SLABS_FILER,
    TAX_SLABS_NON_FILER; cbn [find In]; unfold in_slab, le_max, geb, leb;
    cbn [slab_min slab_max];
    rewrite ?Qle_bool_Z_left, ?Qle_bool_Z_right;
    split_leb; cbn [andb];
    (eexists; split; [reflexivity |]);
    intros s' Hin Hs';
    repeat (destruct Hin as [<- | Hin]; [ try reflexivity; exfalso | ]);
    try (destruct Hin);
    cbn [slab_min slab_max] in Hs';
    rewrite ?Qle_bool_Z_left, ?Qle_bool_Z_right in Hs';
    split_leb.
Qed.

(** C7 (the code at the failing input).  A monthly gross of 100,000.04
    annualises to 1,200,000.48, which lies in no slab of either table: the
    loop selects nothing and the tax is 0, while an income of 1,200,000 is
    taxed 15,000. *)
Theorem slab_gap_at_fractional_income :
  let income := (10000004 # 100) * 12 in
  1200000 < income /\ income < 1200001
  /\ find_slab TAX_SLABS_FILER income = None
  /\ find_slab TAX_SLABS_NON_FILER income = None
  /\ at_annualTax (calculateAnnualTax income true) = 0%Z
  /\ at_slab (calculateAnnualTax income true) = None
  /\ at_annualTax (calculateAnnualTax 1200000 true) = 15000%Z.
Proof.
  cbv zeta. repeat split; reflexivity.
Qed.

Ltac split_comparisons :=
  repeat match goal with
  | |- context [Qle_bool ?a ?b] =>
      let E := fresh "E" in
      destruct (Qle_bool a b) eqn:E;
      [ apply Qle_bool_iff in E | apply Qle_bool_false in E ];
      cbn [andb negb]
  end.

(** Slab by slab the non-filer table has the filer table's ranges, with a
    rate and a fixed amount that are not lower. *)
Lemma raw_tax_filer_le (i : Q) : raw_tax i true <= raw_tax i false.
Proof.
  unfold raw_tax, find_slab, slabs_of, TAX_SLABS_FILER, TAX_SLABS_NON_FILER.
  unfold find, in_slab, le_max, geb, leb.
  cbn [slab_min slab_max].
  split_comparisons; unfold slab_tax, gtb; cbn [slab_rate slab_min slab_fixed];
    try (exfalso; lra);
    repeat match goal with
    | |- context [Qle_bool ?a ?b] =>
        let c := eval vm_compute in (Qle_bool a b) in
        change (Qle_bool a b) with c
    end;
    cbn [negb]; unfold Qdiv; change (/ 100) with (1 # 100); lra.
Qed.

(** C8.  For every annual income above 600,000 the annual tax of a filer is
    at most the annual tax of a non-filer at the same income. *)
Theorem filer_never_pays_more (i : Q) :
  600000 < i ->
  (at_annualTax (calculateAnnualTax i true)
   <= at_annualTax (calculateAnnualTax i false))%Z.
Proof.
  intros _. unfold calculateAnnualTax. cbn [at_annualTax].
  apply Math_round_mono. apply raw_tax_filer_le.
Qed.

Lemma filer_never_pays_more_witness :
  600000 < 1000000
  /\ (at_annualTax (calculateAnnualTax 1000000 true)
      <= at_annualTax (calculateAnnualTax 1000000 false))%Z.
Proof.
  split; [reflexivity | apply (filer_never_pays_more 1000000); reflexivity].
Defined.

End TaxFacts.

(** ** The tax preview route *)

Module RouteFacts.
Import JS JSFacts TaxCalculator PayrollRoutes.

Lemma isFloat_min0_negative (g : Q) : g < 0 -> isFloat_min0 (GrossNumeric g) = false.
Proof.
  intros H. unfold isFloat_min0, geb.
  destruct (Qle_bool 0 g) eqn:E; [| reflexivity].
  apply Qle_bool_iff in E. lra.
Qed.

(** C9.  A request whose gross salary is a negative number never reaches
    the controller: the handlers in front of it end the request with an
    error, so the route answers with that error and with no deduction
    breakdown; when the token verifies, the error is the validation
    failure, answered with status 400 and code VALIDATION_ERROR, whose
    details name the [grossSalary] field. *)
Theorem negative_gross_rejected (req : Request) (g : Q) :
  grossSalary req = GrossNumeric g ->
  g < 0 ->
  (exists e, run_handlers calculateTax_handlers req = Fail e
             /\ post_calculate_tax req = Failure (errorHandler e))
  /\ (forall taxDetails, post_calculate_tax req <> Success taxDetails)
  /\ (token req = TokenValid ->
      exists ds,
        run_handlers calculateTax_handlers req
          = Fail (BadRequestError "Validation failed" ds)
        /\ post_calculate_tax req
           = Failure (mkErrorBody 400 "VALIDATION_ERROR"
                                  "Request validation failed" ds)
        /\ In (mkFieldError "grossSalary" "Gross salary must be a positive number")
              ds).
Proof.
  intros Hg Hneg.
  set (err := mkFieldError "grossSalary"
                "Gross salary must be a positive number").
  assert (Hrun : exists e, run_handlers calculateTax_handlers req = Fail e
     /\ (token req = TokenValid -> exists ds,
           e = BadRequestError "Validation failed" ds /\ In err ds)).
  { unfold calculateTax_handlers, run_handlers, protect.
    destruct (token req) eqn:Htok;
      try (eexists; split; [reflexivity | discriminate]).
    unfold validate_grossSalary. rewrite Hg, (isFloat_min0_negative g Hneg).
    fold err.
    assert (Hin : forall r, In err (validation_errors r) ->
              exists e, handleValidation r = Fail e
                /\ (TokenValid = TokenValid -> exists ds,
                      e = BadRequestError "Validation failed" ds
                      /\ In err ds)).
    { intros r Hr. unfold handleValidation.
      destruct (validation_errors r) as [| m ms] eqn:Hv; [destruct Hr |].
      eexists; split; [reflexivity |]. intros _. eexists; split; [reflexivity |].
      exact Hr. }
    unfold validate_isFiler. cbn [isFiler add_error].
    destruct (isFiler req);
      (edestruct Hin as (e & He & Hd);
       [| rewrite He; exists e; split; [reflexivity | exact Hd]]);
      cbn [validation_errors add_error];
      rewrite ?in_app_iff; cbn [In]; auto. }
  destruct Hrun as (e & Hrun & Hdet).
  unfold post_calculate_tax. rewrite Hrun.
  split; [exists e; split; reflexivity |].
  split; [intros td; discriminate |].
  intros Htok. destruct (Hdet Htok) as (ds & -> & Hin).
  exists ds. split; [reflexivity | split; [reflexivity | exact Hin]].
Qed.

Lemma negative_gross_rejected_witness :
  -5 < 0
  /\ exists ds,
       run_handlers calculateTax_handlers
         (mkRequest TokenValid (GrossNumeric (-5)) (FilerBoolean true) [])
         = Fail (BadRequestError "Validation failed" ds)
       /\ post_calculate_tax
            (mkRequest TokenValid (GrossNumeric (-5)) (FilerBoolean true) [])
          = Failure (mkErrorBody 400 "VALIDATION_ERROR"
                                 "Request validation failed" ds)
       /\ In (mkFieldError "grossSalary" "Gross salary must be a positive number")
             ds.
Proof.
  split; [reflexivity |].
  apply (negative_gross_rejected
           (mkRequest TokenValid (GrossNumeric (-5)) (FilerBoolean true) [])
           (-5));
    reflexivity.
Defined.

End RouteFacts.

(** ** The connection monad *)

Module ConnFacts.
Import Store Conn Transactional.

Lemma bind_Return {A B} (m : M A) (k : A -> M B) (w w' : World) (b : B) :
  bind m k w = (Return b, w') ->
  exists a w1, m w = (Return a, w1) /\ k a w1 = (Return b, w').
Proof.
  unfold bind. destruct (m w) as [[a | e] w1]; [eauto | discriminate].
Qed.

Lemma bind_Throw {A B} (m : M A) (k : A -> M B) (w w' : World) (e : Error) :
  bind m k w = (Throw e, w') ->
  m w = (Throw e, w')
  \/ exists a w1, m w = (Return a, w1) /\ k a w1 = (Throw e, w').
Proof.
  unfold bind. destruct (m w) as [[a | e'] w1]; [eauto |].
  intros H. inversion H; subst. left. reflexivity.
Qed.

(** A statement that returns, inside an open transaction: it was not failed,
    it ran on the working copy, and only the working copy and the statement
    count moved. *)
Lemma client_query_Return {A} (stmt : DB -> Outcome A * DB) (w w' : World)
    (d : DB) (a : A) :
  working w = Some d ->
  client_query stmt w = (Return a, w') ->
  exists d', stmt d = (Return a, d')
    /\ w' = mkWorld (committed w) (Some d') (S (issued w)) (faults w) (now w)
                    (east_of_utc w).
Proof.
  unfold client_query, view, set_view, tick. intros Hw.
  destruct (faults w (issued w)); [discriminate |].
  cbn [working committed issued faults now]. rewrite Hw.
  destruct (stmt d) as [r d'].
  intros H. inversion H; subst. eauto.
Qed.

Lemma pool_query_Return {A} (stmt : DB -> Outcome A * DB) (w w' : World) (a : A) :
  pool_query stmt w = (Return a, w') ->
  exists d', stmt (committed w) = (Return a, d')
    /\ w' = mkWorld d' (working w) (S (issued w)) (faults w) (now w)
                    (east_of_utc w).
Proof.
  unfold pool_query.
  destruct (faults w (issued w)); [discriminate |].
  destruct (stmt (committed w)) as [r d'].
  intros H. inversion H; subst. eauto.
Qed.

Lemma tx_safe_ret {A} (a : A) : tx_safe (ret a).
Proof. intros w r w' Hw H. inversion H; subst. auto. Qed.

Lemma tx_safe_throw {A} (e : Error) : tx_safe (@throw A e).
Proof. intros w r w' Hw H. inversion H; subst. auto. Qed.

Lemma tx_safe_current_timestamp : tx_safe current_timestamp.
Proof. intros w r w' Hw H. inversion H; subst. auto. Qed.

Lemma tx_safe_client_query {A} (stmt : DB -> Outcome A * DB) :
  tx_safe (client_query stmt).
Proof.
  intros w r w' Hw. unfold client_query, view, set_view, tick.
  destruct (faults w (issued w)).
  - intros H. inversion H; subst. cbn. auto.
  - cbn [working committed issued faults now].
    destruct (working w) as [d |] eqn:Ew; [| congruence].
    destruct (stmt d) as [r' d'].
    intros H. inversion H; subst. cbn. split; [reflexivity | discriminate].
Qed.

Lemma tx_safe_bind {A B} (m : M A) (k : A -> M B) :
  tx_safe m -> (forall a, tx_safe (k a)) -> tx_safe (bind m k).
Proof.
  intros Hm Hk w r w' Hw. unfold bind.
  destruct (m w) as [[a | e] w1] eqn:Em.
  - destruct (Hm _ _ _ Hw Em) as [Hc Hw1]. intros H.
    destruct (Hk a _ _ _ Hw1 H) as [Hc' Hw']. split; congruence.
  - destruct (Hm _ _ _ Hw Em) as [Hc Hw1]. intros H.
    inversion H; subst. auto.
Qed.

Lemma throws_safe_of_tx_safe {A} (m : M A) : tx_safe m -> throws_safe m.
Proof. intros Hm w e w' Hw H. exact (proj1 (Hm _ _ _ Hw H)). Qed.

Lemma throws_safe_bind {A B} (m : M A) (k : A -> M B) :
  tx_safe m -> (forall a, throws_safe (k a)) -> throws_safe (bind m k).
Proof.
  intros Hm Hk w e w' Hw H. apply bind_Throw in H.
  destruct H as [H | (a & w1 & Em & H)].
  - exact (proj1 (Hm _ _ _ Hw H)).
  - destruct (Hm _ _ _ Hw Em) as [Hc Hw1].
    rewrite <- Hc. exact (Hk a _ _ _ Hw1 H).
Qed.

Lemma throws_safe_COMMIT : throws_safe COMMIT.
Proof.
  intros w e w' Hw. unfold COMMIT, tick.
  destruct (faults w (issued w)); [| discriminate].
  intros H. inversion H; subst. reflexivity.
Qed.

End ConnFacts.

(** ** The payroll run engine *)

Module ServiceFacts.
Import JS JSFacts TaxCalculator Store Conn Calendar PayrollService.
Import RunContent Transactional ConnFacts SpecWording Scenario Scenario2.

Lemma select_Return {A} (q : DB -> A) (d d' : DB) (a : A) :
  select q d = (Return a, d') -> a = q d /\ d' = d.
Proof. unfold select. intros H. inversion H; subst. auto. Qed.

Lemma execute_Return (u : DB -> DB) (d d' : DB) (x : unit) :
  execute u d = (Return x, d') -> d' = u d.
Proof. unfold execute. intros H. inversion H; subst. auto. Qed.

Lemma insert_payslip_Return (p : Payslip) (d d' : DB) (x : unit) :
  insert_payslip p d = (Return x, d') ->
  d' = set_payslips d (payslips d ++ [p])
  /\ storable_row p = true
  /\ forall q, In q (payslips d) -> payslip_key q <> payslip_key p.
Proof.
  unfold insert_payslip.
  destruct (storable_row p) eqn:Es; cbn [negb]; [| discriminate].
  destruct (existsb _ (payslips d)) eqn:E; [discriminate |].
  intros H. inversion H; subst. split; [reflexivity |].
  split; [reflexivity |].
  intros q Hq Hkey.
  assert (Hex : existsb (fun q0 =>
            (ps_payroll_run_id q0 =? ps_payroll_run_id p)%nat
            && (ps_employee_id q0 =? ps_employee_id p)%nat) (payslips d) = true).
  { apply existsb_exists. exists q. split; [exact Hq |].
    unfold payslip_key in Hkey. inversion Hkey as [[H1 H2]].
    rewrite !Nat.eqb_refl. reflexivity. }
  congruence.
Qed.

(** The loop, when it completes: one statement pair per worker, the
    payslips appended in the workers' order, nothing else touched. *)
Lemma generate_payslips_Return (rid : uuid) (m y wd : Z) (emps : list EmployeeRow) :
  forall (t t' : Totals) (w w' : World) (d : DB),
  working w = Some d ->
  generate_payslips rid m y wd emps t w = (Return t', w') ->
  let new := map (payslip_of rid m y wd d) emps in
  committed w' = committed w
  /\ working w' = Some (set_payslips d (payslips d ++ new))
  /\ faults w' = faults w /\ now w' = now w
  /\ t' = fold_left add_totals new t
  /\ Forall (fun p => storable_row p = true) new
  /\ (forall q emp, In q (payslips d) -> In emp emps ->
        payslip_key q <> (rid, employee_id emp))
  /\ NoDup (map employee_id emps)
  /\ east_of_utc w' = east_of_utc w.
Proof.
  induction emps as [| emp rest IH]; intros t t' w w' d Hw H; cbn zeta.
  - cbn in H. inversion H; subst. cbn [map].
    rewrite app_nil_r. destruct d; cbn.
    repeat split; auto; try constructor.
  - cbn [generate_payslips] in H.
    apply bind_Return in H. destruct H as (att & w1 & Hatt & H).
    unfold getEmployeeAttendance in Hatt.
    destruct (client_query_Return _ _ _ _ _ Hw Hatt) as (d1 & Hsel & ->).
    apply select_Return in Hsel. destruct Hsel as [-> ->].
    apply bind_Return in H. destruct H as (x & w2 & Hins & H).
    eapply client_query_Return in Hins; [| reflexivity].
    destruct Hins as (d2 & Hd2 & ->).
    apply insert_payslip_Return in Hd2. destruct Hd2 as (-> & Hst & Hfresh).
    cbn [committed working issued faults now] in H.
    eapply IH in H; [| reflexivity]. cbn zeta in H.
    cbn [committed working faults now east_of_utc] in H.
    destruct H as (Hc & Hwk & Hf & Hn & Ht & Hsts & Hkeys & Hnd & Hz).
    change (payslip_of rid m y wd
              (set_payslips d (payslips d ++
                 [make_payslip rid m y wd emp
                    (attendance_summary (employee_id emp) m y d)])))
      with (payslip_of rid m y wd d) in *.
    fold (payslip_of rid m y wd d emp) in *.
    cbn [map].
    repeat split; auto.
    + rewrite Hwk. cbn [set_payslips payslips payroll_runs employees
                        salary_structures attendance public_holidays].
      rewrite <- app_assoc. reflexivity.
    + intros q e Hq [<- | He].
      * apply Hfresh. exact Hq.
      * apply Hkeys; [| exact He]. cbn [payslips set_payslips].
        apply in_or_app. left. exact Hq.
    + cbn [map]. constructor; [| exact Hnd].
      intros Hin. apply in_map_iff in Hin. destruct Hin as (e & He1 & He2).
      apply (Hkeys (payslip_of rid m y wd d emp) e); [| exact He2 |].
      * cbn [payslips set_payslips]. apply in_or_app. right. left. reflexivity.
      * unfold payslip_key. cbn. rewrite He1. reflexivity.
Qed.

Ltac query_step H :=
  let Hq := fresh "Hq" in
  apply bind_Return in H; destruct H as (? & ? & Hq & H);
  eapply client_query_Return in Hq; [| reflexivity];
  let Hs := fresh "Hs" in
  destruct Hq as (? & Hs & ->);
  cbn [committed working issued faults now east_of_utc] in H.

(** [processPayroll]'s statements, when they all complete: the run was a
    draft, and the committed database is [processed]. *)
Lemma process_steps_Return (rid by_ : uuid) (w w' : World) (x : unit) :
  working w = None ->
  process_steps rid by_ w = (Return x, w') ->
  exists run rest,
    select_run rid (committed w) = run :: rest
    /\ pr_status run = draft
    /\ committed w'
       = processed (east_of_utc w) rid by_ (now w) run (committed w)
    /\ working w' = None /\ faults w' = faults w /\ now w' = now w
    /\ Forall (fun p => storable_row p = true)
              (regenerated (east_of_utc w) rid run (committed w))
    /\ NoDup (map employee_id (select_active_employees (committed w)))
    /\ east_of_utc w' = east_of_utc w.
Proof.
  intros Hw H. unfold process_steps in H.
  apply bind_Return in H. destruct H as (u & w0 & Hb & H).
  unfold BEGIN, view in Hb. rewrite Hw in Hb.
  destruct (faults w (issued w)); [discriminate |].
  inversion Hb; subst u w0; clear Hb.
  query_step H. apply select_Return in Hs. destruct Hs as [-> ->].
  destruct (select_run rid (committed w)) as [| run rest] eqn:Erun;
    [discriminate |].
  destruct (RunStatus_beq (pr_status run) draft) eqn:Est;
    cbn [negb] in H; [| discriminate].
  query_step H. apply execute_Return in Hs. subst.
  query_step H. apply select_Return in Hs. destruct Hs as [-> ->].
  unfold calculateWorkingDays in H.
  apply bind_Return in H. destruct H as (wd & w1 & Hwd & H).
  apply bind_Return in Hwd. destruct Hwd as (east & w5 & Hz & Hwd).
  inversion Hz; subst east w5; clear Hz.
  cbn [east_of_utc] in Hwd.
  query_step Hwd. apply select_Return in Hs. destruct Hs as [-> ->].
  inversion Hwd; subst wd w1; clear Hwd.
  query_step H. apply execute_Return in Hs. subst.
  apply bind_Return in H. destruct H as (totals & w2 & Hloop & H).
  eapply generate_payslips_Return in Hloop; [| reflexivity].
  cbn zeta in Hloop. cbn [committed working issued faults now] in Hloop.
  destruct Hloop as (Hc & Hwk & Hf & Hn & Ht & Hsts & Hkeys & Hnd & Hz).
  apply bind_Return in H. destruct H as (at_ & w3 & Hts & H).
  inversion Hts; subst at_ w3; clear Hts.
  apply bind_Return in H. destruct H as (u & w4 & Hq & H).
  eapply client_query_Return in Hq; [| exact Hwk].
  destruct Hq as (d4 & Hs & ->). apply execute_Return in Hs. subst d4.
  unfold COMMIT, view in H. cbn [committed working issued faults now] in H.
  destruct (faults w2 _); [discriminate |].
  inversion H; subst; clear H.
  exists run, rest. cbn [committed working issued faults now].
  repeat split; auto.
  - apply internal_RunStatus_dec_bl. exact Est.
  - unfold processed, update_run, delete_payslips, set_payslips,
      set_payroll_runs, regenerated, run_totals.
    cbn [payroll_runs payslips employees salary_structures attendance
         public_holidays].
    rewrite map_map, Hn. f_equal.
    apply map_ext. intros r. unfold set_status.
    destruct (pr_id r =? rid)%nat eqn:Er; cbn [pr_id]; rewrite Er;
      reflexivity.
Qed.

Lemma getPayrollRunById_Return (id : uuid) (w w' : World) (r : PayrollRun) :
  getPayrollRunById id w = (Return r, w') ->
  committed w' = committed w /\ working w' = working w
  /\ exists row rest, select_run id (committed w) = row :: rest
                      /\ r = transformPayrollRun row.
Proof.
  unfold getPayrollRunById. intros H.
  apply bind_Return in H. destruct H as (rows & w1 & Hq & H).
  apply pool_query_Return in Hq. destruct Hq as (d' & Hs & ->).
  apply select_Return in Hs. destruct Hs as [-> ->].
  destruct (select_run id (committed w)) as [| row rest]; [discriminate |].
  inversion H; subst. cbn.
  split; [reflexivity |]. split; [reflexivity |].
  exists row, rest. split; reflexivity.
Qed.

(** A completed [processPayroll]. *)
Lemma processPayroll_Return (rid by_ : uuid) (w w' : World) (r : PayrollRun) :
  working w = None ->
  processPayroll rid by_ w = (Return r, w') ->
  exists run rest,
    select_run rid (committed w) = run :: rest
    /\ pr_status run = draft
    /\ committed w'
       = processed (east_of_utc w) rid by_ (now w) run (committed w)
    /\ working w' = None
    /\ Forall (fun p => storable_row p = true)
              (regenerated (east_of_utc w) rid run (committed w))
    /\ NoDup (map employee_id (select_active_employees (committed w)))
    /\ exists row, In row (select_run rid (committed w'))
                   /\ r = transformPayrollRun row.
Proof.
  intros Hw H. unfold processPayroll, try_rollback in H.
  destruct (bind _ _ w) as [[a | e] w1] eqn:Eb; [| discriminate].
  inversion H; subst a w1; clear H.
  apply bind_Return in Eb. destruct Eb as (u & w1 & Hsteps & Hget).
  apply (process_steps_Return _ _ _ _ _ Hw) in Hsteps.
  destruct Hsteps
    as (run & rest & Hrun & Hst & Hc & Hwk & _ & _ & Hsts & Hnd & _).
  apply getPayrollRunById_Return in Hget.
  destruct Hget as (Hc' & Hwk' & row & rest' & Hsel & Hr).
  exists run, rest. repeat split; auto; try congruence.
  exists row. split; [| exact Hr].
  rewrite Hc', Hsel. left. reflexivity.
Qed.

Lemma payslips_of_processed (east : bool) (rid by_ : uuid) (at_ : nat)
    (run : PayrollRun) (d : DB) :
  payslips_of rid (processed east rid by_ at_ run d)
  = regenerated east rid run d.
Proof.
  unfold payslips_of, processed. cbn [payslips].
  rewrite filter_app.
  assert (Hold : filter (fun p => (ps_payroll_run_id p =? rid)%nat)
            (filter (fun p => negb (ps_payroll_run_id p =? rid)%nat)
                    (payslips d)) = []).
  { induction (payslips d) as [| p ps IH]; [reflexivity |]. cbn [filter].
    destruct (ps_payroll_run_id p =? rid)%nat eqn:E; cbn [negb filter];
      [| rewrite E]; exact IH. }
  rewrite Hold. cbn [app].
  unfold regenerated.
  induction (select_active_employees d) as [| e es IH]; [reflexivity |].
  cbn [map filter]. unfold payslip_of at 1.
  cbn [make_payslip ps_payroll_run_id]. rewrite Nat.eqb_refl.
  f_equal. exact IH.
Qed.




(** *** Completion *)

Lemma client_query_runs {A} (stmt : DB -> Outcome A * DB) (w : World) (d : DB) :
  working w = Some d ->
  faults w (issued w) = false ->
  client_query stmt w
  = (fst (stmt d),
     mkWorld (committed w) (Some (snd (stmt d))) (S (issued w)) (faults w)
             (now w) (east_of_utc w)).
Proof.
  intros Hw Hf. unfold client_query, view, set_view, tick. rewrite Hf.
  cbn [working committed issued faults now]. rewrite Hw.
  destruct (stmt d); reflexivity.
Qed.

(** With a working day the overtime pay is a whole, finite amount. *)
Lemma overtimePay_Finite (hours gross : Q) (wd : Z) :
  wd <> 0%Z ->
  exists pay : Z, overtimePay hours gross wd = Finite (inject_Z pay).
Proof.
  intros Hwd. unfold overtimePay, hourlyRate, parseFloat, div.
  assert (Hz : is_zero (inject_Z (wd * 8)) = false).
  { unfold is_zero. destruct (Qeq_bool _ 0) eqn:E; [| reflexivity].
    apply Qeq_bool_eq in E. unfold Qeq in E. cbn in E. lia. }
  rewrite Hz. cbn [mul Math_round_number]. eauto.
Qed.

Lemma storable_make_payslip (rid : uuid) (m y wd : Z) (emp : EmployeeRow)
    (att : AttendanceSummary) :
  wd <> 0%Z -> storable_row (make_payslip rid m y wd emp att) = true.
Proof.
  intros Hwd. unfold storable_row.
  cbn [make_payslip ps_overtime_pay ps_gross_salary ps_net_salary].
  destruct (overtimePay_Finite (overtimeHours att) (gross_salary emp) wd Hwd)
    as [pay ->].
  reflexivity.
Qed.

Lemma insert_payslip_fresh (p : Payslip) (d : DB) :
  storable_row p = true ->
  (forall q, In q (payslips d) -> payslip_key q <> payslip_key p) ->
  insert_payslip p d = (Return tt, set_payslips d (payslips d ++ [p])).
Proof.
  intros Hst Hfresh. unfold insert_payslip. rewrite Hst. cbn [negb].
  destruct (existsb _ (payslips d)) eqn:E; [| reflexivity].
  apply existsb_exists in E. destruct E as (q & Hq & Hk).
  apply andb_true_iff in Hk. destruct Hk as [H1 H2].
  apply Nat.eqb_eq in H1, H2. exfalso. apply (Hfresh q Hq).
  unfold payslip_key. rewrite H1, H2. reflexivity.
Qed.

Ltac run_query Hf :=
  erewrite client_query_runs;
  [| reflexivity | cbn [faults issued]; apply Hf];
  cbn [committed working issued faults now].

(** The loop completes when the store fails no statement, no payslip holds
    an infinity and no worker is listed twice. *)
Lemma generate_payslips_completes (rid : uuid) (m y wd : Z)
    (emps : list EmployeeRow) :
  forall (t : Totals) (w : World) (d : DB),
  working w = Some d ->
  (forall n, faults w n = false) ->
  (forall emp att, In emp emps ->
     storable_row (make_payslip rid m y wd emp att) = true) ->
  NoDup (map employee_id emps) ->
  (forall q emp, In q (payslips d) -> In emp emps ->
     payslip_key q <> (rid, employee_id emp)) ->
  exists t' w', generate_payslips rid m y wd emps t w = (Return t', w').
Proof.
  induction emps as [| emp rest IH]; intros t w d Hw Hf Hst Hnd Hfresh.
  - cbn [generate_payslips]. unfold ret. eauto.
  - cbn [generate_payslips]. unfold bind, getEmployeeAttendance.
    rewrite (client_query_runs _ w d Hw (Hf _)). cbn [select fst snd].
    set (p := make_payslip rid m y wd emp
                (attendance_summary (employee_id emp) m y d)).
    run_query Hf.
    rewrite insert_payslip_fresh.
    + cbn [fst snd].
      cbn [map] in Hnd. inversion Hnd as [| e es Hnotin Hnd']; subst.
      eapply IH.
      * reflexivity.
      * exact Hf.
      * intros e att He. apply Hst. right. exact He.
      * exact Hnd'.
      * cbn [payslips set_payslips]. intros q e Hq He.
        apply in_app_or in Hq. destruct Hq as [Hq | [<- | []]].
        -- apply Hfresh; [exact Hq | right; exact He].
        -- unfold payslip_key, p. cbn [make_payslip ps_payroll_run_id ps_employee_id].
           intros Hk. inversion Hk as [Hid]. apply Hnotin.
           rewrite Hid. apply in_map. exact He.
    + apply Hst. left. reflexivity.
    + intros q Hq. apply Hfresh; [exact Hq | left; reflexivity].
Qed.

(** On a draft run [processPayroll] completes when the store fails no
    statement, no payslip of the run holds an infinity and the join lists no
    worker twice. *)
Lemma processPayroll_completes_storable (rid by_ : uuid) (w : World)
    (run : PayrollRun) (rest : list PayrollRun) :
  working w = None ->
  (forall n, faults w n = false) ->
  select_run rid (committed w) = run :: rest ->
  pr_status run = draft ->
  (forall emp att, In emp (select_active_employees (committed w)) ->
     storable_row
       (make_payslip rid (pr_month run) (pr_year run)
          (working_days_of (east_of_utc w) (committed w)
             (pr_month run) (pr_year run)) emp att) = true) ->
  NoDup (map employee_id (select_active_employees (committed w))) ->
  exists r w', processPayroll rid by_ w = (Return r, w').
Proof.
  intros Hw Hf Hrun Hst Hwd Hnd.
  assert (Hsteps : exists u w1, process_steps rid by_ w = (Return u, w1)).
  { unfold process_steps, bind at 1, BEGIN, view. rewrite Hf, Hw.
    unfold bind at 1.
    run_query Hf. cbn [select fst snd].
    rewrite Hrun, Hst. cbn [RunStatus_beq negb].
    unfold bind at 1.
    run_query Hf. cbn [execute fst snd].
    unfold bind at 1.
    run_query Hf. cbn [select fst snd].
    unfold calculateWorkingDays. unfold bind at 1. unfold bind at 1.
    unfold bind at 1. unfold server_zone at 1. cbn [east_of_utc].
    run_query Hf. cbn [select fst snd ret].
    unfold bind at 1.
    run_query Hf. cbn [execute fst snd].
    unfold bind at 1.
    match goal with
    | |- context [generate_payslips ?a ?b ?c ?wd ?emps ?t ?w0] =>
        destruct (generate_payslips_completes a b c wd emps t w0
                    (delete_payslips rid
                       (update_run rid (set_status processing) (committed w))))
          as (t' & w2 & Hloop)
    end.
    - reflexivity.
    - exact Hf.
    - exact Hwd.
    - exact Hnd.
    - intros q emp Hq _ Hk. unfold delete_payslips in Hq.
      cbn [payslips set_payslips] in Hq. apply filter_In in Hq.
      destruct Hq as [_ Hq]. unfold payslip_key in Hk.
      inversion Hk as [[Hid Hemp]]. rewrite Hid, Nat.eqb_refl in Hq.
      discriminate.
    - rewrite Hloop.
      pose proof Hloop as Hafter.
      eapply generate_payslips_Return in Hafter; [| reflexivity].
      cbn zeta in Hafter. destruct Hafter as (_ & Hwk & Hf2 & _).
      cbn [committed working issued faults now] in Hwk, Hf2.
      unfold bind at 1. cbn [current_timestamp].
      unfold bind at 1.
      rewrite (client_query_runs _ _ _ Hwk); [| rewrite Hf2; apply Hf].
      cbn [execute fst snd].
      unfold COMMIT. cbn [committed working issued faults now].
      rewrite Hf2, Hf. eauto. }
  destruct Hsteps as (u & w1 & Hsteps).
  pose proof (process_steps_Return _ _ _ _ _ Hw Hsteps)
    as (run' & rest' & Hrun' & _ & Hc & _ & Hf1 & _).
  unfold processPayroll, try_rollback, bind at 1. rewrite Hsteps.
  unfold getPayrollRunById, bind, pool_query. rewrite Hf1, Hf.
  cbn [select]. rewrite Hc.
  rewrite Hrun in Hrun'. inversion Hrun'; subst run' rest'.
  set (east := east_of_utc w) in *.
  assert (Hsel : select_run rid
                   (processed east rid by_ (now w) run (committed w))
                 <> []).
  { unfold processed, select_run. cbn [payroll_runs].
    unfold select_run in Hrun.
    induction (payroll_runs (committed w)) as [| r0 rs IH]; [discriminate |].
    cbn [map filter] in *.
    destruct (pr_id r0 =? rid)%nat eqn:E.
    - cbn [complete_run pr_id]. rewrite E. discriminate.
    - rewrite E. apply IH. exact Hrun. }
  destruct (select_run rid
              (processed east rid by_ (now w) run (committed w)));
    [contradiction | unfold ret; eauto].
Qed.

(** In particular when the month has a working day. *)
Lemma processPayroll_completes (rid by_ : uuid) (w : World)
    (run : PayrollRun) (rest : list PayrollRun) :
  working w = None ->
  (forall n, faults w n = false) ->
  select_run rid (committed w) = run :: rest ->
  pr_status run = draft ->
  working_days_of (east_of_utc w) (committed w) (pr_month run) (pr_year run)
  <> 0%Z ->
  NoDup (map employee_id (select_active_employees (committed w))) ->
  exists r w', processPayroll rid by_ w = (Return r, w').
Proof.
  intros Hw Hf Hrun Hst Hwd Hnd.
  apply (processPayroll_completes_storable rid by_ w run rest); auto.
  intros emp att _. apply storable_make_payslip. exact Hwd.
Qed.

(** *** Atomicity *)

Lemma tx_safe_server_zone : tx_safe server_zone.
Proof.
  intros w r w' Hw H. unfold server_zone in H. inversion H; subst.
  split; [reflexivity | exact Hw].
Qed.

Lemma tx_safe_calculateWorkingDays (m y : Z) : tx_safe (calculateWorkingDays m y).
Proof.
  unfold calculateWorkingDays.
  apply tx_safe_bind; [apply tx_safe_server_zone |].
  intros east.
  apply tx_safe_bind; [apply tx_safe_client_query |].
  intros hs. apply tx_safe_ret.
Qed.

Lemma tx_safe_generate_payslips (rid : uuid) (m y wd : Z)
    (emps : list EmployeeRow) :
  forall t, tx_safe (generate_payslips rid m y wd emps t).
Proof.
  induction emps as [| emp rest IH]; intros t; cbn [generate_payslips].
  - apply tx_safe_ret.
  - apply tx_safe_bind; [apply tx_safe_client_query |].
    intros att.
    apply tx_safe_bind; [apply tx_safe_client_query |].
    intros _. apply IH.
Qed.

Ltac tx_safe_tac :=
  solve [ apply tx_safe_client_query | apply tx_safe_ret | apply tx_safe_throw
        | apply tx_safe_current_timestamp | apply tx_safe_calculateWorkingDays
        | apply tx_safe_generate_payslips ].

Ltac throws_safe_tac :=
  repeat first
    [ apply throws_safe_COMMIT
    | apply throws_safe_of_tx_safe; tx_safe_tac
    | apply throws_safe_bind; [tx_safe_tac | intros ?; cbn beta]
    | match goal with
      | |- throws_safe (match ?x with _ => _ end) => destruct x
      end ].

(** Whatever statement of [processPayroll] fails, from BEGIN to COMMIT, the
    committed database is the one the call started from. *)
Lemma process_steps_Throw (rid by_ : uuid) (w w1 : World) (e : Error) :
  working w = None ->
  process_steps rid by_ w = (Throw e, w1) ->
  committed w1 = committed w.
Proof.
  intros Hw H. unfold process_steps in H.
  apply bind_Throw in H. destruct H as [H | (u & w0 & Hb & H)].
  - unfold BEGIN in H. destruct (faults w (issued w)); [| discriminate].
    inversion H; subst. reflexivity.
  - unfold BEGIN in Hb. destruct (faults w (issued w)); [discriminate |].
    inversion Hb; subst u w0; clear Hb.
    match type of H with
    | ?m ?w0 = _ =>
        assert (Hsafe : throws_safe m) by throws_safe_tac;
        apply (Hsafe w0 e w1) in H; [exact H | discriminate]
    end.
Qed.

(** C4.  If any statement of [processPayroll] from BEGIN to COMMIT fails
    (the status flip, the working-day query, an attendance query or a
    payslip INSERT, the totals update), the call throws that same error and
    the committed database, hence the run's status, its totals and its
    payslips, is exactly the one before the call; no transaction stays
    open. *)
Theorem processPayroll_atomic (rid by_ : uuid) (w w1 : World) (e : Error) :
  working w = None ->
  process_steps rid by_ w = (Throw e, w1) ->
  exists w',
    processPayroll rid by_ w = (Throw e, w')
    /\ committed w' = committed w
    /\ working w' = None.
Proof.
  intros Hw H. exists (ROLLBACK w1).
  unfold processPayroll, try_rollback, bind. rewrite H.
  split; [reflexivity |].
  cbn [ROLLBACK committed working].
  split; [| reflexivity].
  exact (process_steps_Throw _ _ _ _ _ Hw H).
Qed.

Lemma processPayroll_atomic_witness :
  exists w',
    processPayroll 7%nat 9%nat failing_world
      = (Throw (DatabaseError "statement failed"), w')
    /\ committed w' = committed failing_world
    /\ working w' = None.
Proof.
  eapply (processPayroll_atomic 7%nat 9%nat failing_world).
  - reflexivity.
  - vm_compute. reflexivity.
Defined.

(** The one failure that is not rolled back: the read-back of the run after
    COMMIT.  Then the error reaches the caller although the run is
    processed. *)
Lemma processPayroll_Throw_cases (rid by_ : uuid) (w w' : World) (e : Error) :
  working w = None ->
  processPayroll rid by_ w = (Throw e, w') ->
  committed w' = committed w
  \/ exists u w1, process_steps rid by_ w = (Return u, w1)
                  /\ committed w' = committed w1.
Proof.
  intros Hw H. unfold processPayroll, try_rollback in H.
  destruct (bind _ _ w) as [[a | e'] w2] eqn:Eb; [discriminate |].
  inversion H; subst e' w'; clear H.
  apply bind_Throw in Eb. destruct Eb as [Hs | (u & w1 & Hs & Hget)].
  - left. cbn [ROLLBACK committed]. exact (process_steps_Throw _ _ _ _ _ Hw Hs).
  - right. exists u, w1. split; [exact Hs |]. cbn [ROLLBACK committed].
    unfold getPayrollRunById in Hget.
    apply bind_Throw in Hget. destruct Hget as [Hq | (rows & w3 & Hq & Hm)].
    + unfold pool_query in Hq. destruct (faults w1 (issued w1)).
      * inversion Hq; subst. reflexivity.
      * cbn in Hq. discriminate.
    + apply pool_query_Return in Hq. destruct Hq as (d' & Hsel & ->).
      apply select_Return in Hsel. destruct Hsel as [-> ->].
      destruct (select_run rid (committed w1)); inversion Hm; subst; reflexivity.
Qed.

(** *** The state machine *)

Lemma select_run_update (rid : uuid) (f : PayrollRun -> PayrollRun) (d : DB) :
  (forall r, pr_id (f r) = pr_id r) ->
  select_run rid (update_run rid f d) = map f (select_run rid d).
Proof.
  intros Hf. unfold select_run, update_run, set_payroll_runs.
  cbn [payroll_runs].
  induction (payroll_runs d) as [| r rs IH]; [reflexivity |].
  cbn [map filter].
  destruct (pr_id r =? rid)%nat eqn:E.
  - rewrite Hf, E. cbn [map]. f_equal. exact IH.
  - rewrite E. exact IH.
Qed.

Lemma payslips_of_update_status (rid : uuid) (s : PayslipStatus) (d : DB) :
  payslips_of rid (update_payslips_status s rid d)
  = map (set_payslip_status s) (payslips_of rid d).
Proof.
  unfold payslips_of, update_payslips_status, set_payslips. cbn [payslips].
  induction (payslips d) as [| p ps IH]; [reflexivity |].
  cbn [map filter].
  destruct (ps_payroll_run_id p =? rid)%nat eqn:E.
  - cbn [set_payslip_status ps_payroll_run_id]. rewrite E. cbn [map].
    f_equal. exact IH.
  - rewrite E. exact IH.
Qed.

Lemma processPayroll_not_draft (rid by_ : uuid) (w : World)
    (run : PayrollRun) (rest : list PayrollRun) :
  working w = None ->
  select_run rid (committed w) = run :: rest ->
  pr_status run <> draft ->
  faults w (issued w) = false ->
  faults w (S (issued w)) = false ->
  exists w',
    processPayroll rid by_ w
      = (Throw (BadRequestError "Only draft payroll runs can be processed"), w')
    /\ committed w' = committed w /\ working w' = None.
Proof.
  intros Hw Hrun Hst Hf0 Hf1.
  assert (Hs : exists w1, process_steps rid by_ w
    = (Throw (BadRequestError "Only draft payroll runs can be processed"), w1)).
  { unfold process_steps, bind, BEGIN, client_query, view, set_view, tick.
    rewrite Hf0. cbn [committed working issued faults now].
    rewrite Hf1, Hw. cbn [select]. rewrite Hrun.
    destruct (RunStatus_beq (pr_status run) draft) eqn:E.
    - apply internal_RunStatus_dec_bl in E. contradiction.
    - cbn [negb throw]. eexists. reflexivity. }
  destruct Hs as (w1 & Hs). exists (ROLLBACK w1).
  unfold processPayroll, try_rollback, bind. rewrite Hs.
  split; [reflexivity |]. cbn [ROLLBACK committed working].
  split; [| reflexivity].
  exact (process_steps_Throw _ _ _ _ _ Hw Hs).
Qed.

Lemma approvePayroll_Return (rid by_ : uuid) (w w' : World) (r : PayrollRun) :
  approvePayroll rid by_ w = (Return r, w') ->
  exists run rest,
    select_run rid (committed w) = run :: rest
    /\ pr_status run = completed
    /\ committed w'
       = update_payslips_status slip_approved rid
           (update_run rid (approve_run by_ (now w)) (committed w))
    /\ exists row, In row (select_run rid (committed w'))
                   /\ r = transformPayrollRun row.
Proof.
  unfold approvePayroll. intros H.
  apply bind_Return in H. destruct H as (rows & w1 & Hq & H).
  apply pool_query_Return in Hq. destruct Hq as (d1 & Hs & ->).
  apply select_Return in Hs. destruct Hs as [-> ->].
  destruct (select_run rid (committed w)) as [| run rest] eqn:Erun;
    [discriminate |].
  destruct (RunStatus_beq (pr_status run) completed) eqn:Est;
    cbn [negb] in H; [| discriminate].
  apply bind_Return in H. destruct H as (at_ & w2 & Hts & H).
  inversion Hts; subst at_ w2; clear Hts.
  apply bind_Return in H. destruct H as (u1 & w2 & Hq & H).
  apply pool_query_Return in Hq. destruct Hq as (d2 & Hs & ->).
  apply execute_Return in Hs. subst d2.
  apply bind_Return in H. destruct H as (u2 & w3 & Hq & H).
  apply pool_query_Return in Hq. destruct Hq as (d3 & Hs & ->).
  apply execute_Return in Hs. subst d3.
  cbn [committed working issued faults now] in H.
  apply getPayrollRunById_Return in H.
  destruct H as (Hc & _ & row & rest' & Hsel & Hr).
  cbn [committed] in Hc, Hsel.
  exists run, rest. repeat split.
  - apply internal_RunStatus_dec_bl. exact Est.
  - exact Hc.
  - exists row. split; [| exact Hr]. rewrite Hc, Hsel. left. reflexivity.
Qed.

Lemma approvePayroll_not_completed (rid by_ : uuid) (w : World)
    (run : PayrollRun) (rest : list PayrollRun) :
  select_run rid (committed w) = run :: rest ->
  pr_status run <> completed ->
  faults w (issued w) = false ->
  exists w',
    approvePayroll rid by_ w
      = (Throw (BadRequestError "Only completed payroll runs can be approved"), w')
    /\ committed w' = committed w.
Proof.
  intros Hrun Hst Hf0.
  unfold approvePayroll, bind, pool_query. rewrite Hf0.
  cbn [select]. rewrite Hrun.
  destruct (RunStatus_beq (pr_status run) completed) eqn:E.
  - apply internal_RunStatus_dec_bl in E. contradiction.
  - cbn [negb throw]. eexists. split; reflexivity.
Qed.

(** C5.  [processPayroll] completes only on a run whose status is draft; on
    a run in any other status it throws the bad-request error of the guard
    and leaves the database as it was.  [approvePayroll] completes only on
    a run whose status is completed, and then the run is approved and every
    payslip of the run is approved; on a run in any other status it throws
    the bad-request error of its guard and changes nothing. *)
Theorem run_state_machine_guards (rid by_ : uuid) (w : World) :
  working w = None ->
  (forall r w', processPayroll rid by_ w = (Return r, w') ->
     exists run rest, select_run rid (committed w) = run :: rest
                      /\ pr_status run = draft)
  /\ (forall run rest,
        select_run rid (committed w) = run :: rest ->
        pr_status run <> draft ->
        faults w (issued w) = false ->
        faults w (S (issued w)) = false ->
        exists w',
          processPayroll rid by_ w
            = (Throw (BadRequestError "Only draft payroll runs can be processed"),
               w')
          /\ committed w' = committed w /\ working w' = None)
  /\ (forall r w', approvePayroll rid by_ w = (Return r, w') ->
        exists run rest,
          select_run rid (committed w) = run :: rest
          /\ pr_status run = completed
          /\ pr_status r = approved
          /\ (forall r', In r' (select_run rid (committed w')) ->
                pr_status r' = approved)
          /\ payslips_of rid (committed w')
             = map (set_payslip_status slip_approved)
                   (payslips_of rid (committed w))
          /\ (forall p, In p (payslips_of rid (committed w')) ->
                ps_status p = slip_approved))
  /\ (forall run rest,
        select_run rid (committed w) = run :: rest ->
        pr_status run <> completed ->
        faults w (issued w) = false ->
        exists w',
          approvePayroll rid by_ w
            = (Throw (BadRequestError
                        "Only completed payroll runs can be approved"), w')
          /\ committed w' = committed w).
Proof.
  intros Hw. split; [| split; [| split]].
  - intros r w' H.
    destruct (processPayroll_Return _ _ _ _ _ Hw H)
      as (run & rest & Hrun & Hst & _).
    exists run, rest. auto.
  - intros run rest. apply processPayroll_not_draft. exact Hw.
  - intros r w' H.
    destruct (approvePayroll_Return _ _ _ _ _ H)
      as (run & rest & Hrun & Hst & Hc & row & Hrow & ->).
    assert (Hsel : select_run rid (committed w')
                   = map (approve_run by_ (now w)) (select_run rid (committed w))).
    { rewrite Hc. unfold update_payslips_status, set_payslips, select_run.
      cbn [payroll_runs]. apply select_run_update. reflexivity. }
    assert (Hall : forall r', In r' (select_run rid (committed w')) ->
                     pr_status r' = approved).
    { intros r' Hr'. rewrite Hsel in Hr'. apply in_map_iff in Hr'.
      destruct Hr' as (r0 & <- & _). reflexivity. }
    assert (Hps : payslips_of rid (committed w')
                  = map (set_payslip_status slip_approved)
                        (payslips_of rid (committed w))).
    { rewrite Hc, payslips_of_update_status. reflexivity. }
    exists run, rest. repeat split; auto.
    + cbn [transformPayrollRun pr_status]. apply Hall. exact Hrow.
    + intros p Hp. rewrite Hps in Hp. apply in_map_iff in Hp.
      destruct Hp as (p0 & <- & _). reflexivity.
  - intros run rest. apply approvePayroll_not_completed.
Qed.

Lemma run_state_machine_guards_witness :
  (exists w',
     processPayroll 7%nat 9%nat approved_world
       = (Throw (BadRequestError "Only draft payroll runs can be processed"), w')
     /\ committed w' = committed approved_world /\ working w' = None)
  /\ (exists w',
        approvePayroll 7%nat 9%nat draft_world
          = (Throw (BadRequestError "Only completed payroll runs can be approved"),
             w')
        /\ committed w' = committed draft_world)
  /\ (exists run rest,
        select_run 7%nat (committed completed_world) = run :: rest
        /\ pr_status run = completed
        /\ pr_status (returned (approvePayroll 7%nat 9%nat completed_world))
           = approved
        /\ (forall r', In r' (select_run 7%nat
                (committed (snd (approvePayroll 7%nat 9%nat completed_world)))) ->
              pr_status r' = approved)
        /\ payslips_of 7%nat
             (committed (snd (approvePayroll 7%nat 9%nat completed_world)))
           = map (set_payslip_status slip_approved)
                 (payslips_of 7%nat (committed completed_world))
        /\ (forall p, In p (payslips_of 7%nat
                (committed (snd (approvePayroll 7%nat 9%nat completed_world)))) ->
              ps_status p = slip_approved)).
Proof.
  split; [| split].
  - destruct (run_state_machine_guards 7%nat 9%nat approved_world eq_refl)
      as (_ & H & _ & _).
    apply (H (run_in approved) []); try reflexivity. discriminate.
  - destruct (run_state_machine_guards 7%nat 9%nat draft_world eq_refl)
      as (_ & _ & _ & H).
    apply (H (run_in draft) []); try reflexivity. discriminate.
  - destruct (run_state_machine_guards 7%nat 9%nat completed_world eq_refl)
      as (_ & _ & H & _).
    apply (H (returned (approvePayroll 7%nat 9%nat completed_world))
             (snd (approvePayroll 7%nat 9%nat completed_world))).
    vm_compute. reflexivity.
Defined.

(** *** What a payslip holds *)

Lemma payslips_after_process (rid by_ : uuid) (w w' : World) (r : PayrollRun) :
  working w = None ->
  processPayroll rid by_ w = (Return r, w') ->
  exists run rest,
    select_run rid (committed w) = run :: rest
    /\ payslips_of rid (committed w')
       = regenerated (east_of_utc w) rid run (committed w)
    /\ Forall (fun p => storable_row p = true)
              (regenerated (east_of_utc w) rid run (committed w))
    /\ NoDup (map employee_id (select_active_employees (committed w))).
Proof.
  intros Hw H.
  destruct (processPayroll_Return _ _ _ _ _ Hw H)
    as (run & rest & Hrun & _ & Hc & _ & Hsts & Hnd & _).
  exists run, rest. rewrite Hc, payslips_of_processed. auto.
Qed.

Lemma Forall2_map_right {A B} (R : A -> B -> Prop) (f : A -> B) (l : list A) :
  (forall a, In a l -> R a (f a)) -> Forall2 R l (map f l).
Proof.
  induction l as [| a l IH]; intros H; cbn [map]; constructor.
  - apply H. left. reflexivity.
  - apply IH. intros b Hb. apply H. right. exact Hb.
Qed.

(** In April 2024 (21 working days) worker 1, a filer with a structure gross
    of 150,000 and ten overtime hours, gets a payslip gross of 163,393 and
    an income tax of 7,500, the tax on 150,000; the calculator on 163,393
    gives 9,174. *)
Lemma payslip_not_deducted_on_final_gross :
  exists r w' p,
    processPayroll 7%nat 9%nat draft_world = (Return r, w')
    /\ In p (payslips_of 7%nat (committed w'))
    /\ ps_gross_salary p = Finite 163393
    /\ ps_income_tax p = 7500%Z
    /\ incomeTax (calculateAllDeductions 163393 (ps_is_filer p)
                    (mkAdditional (Some (ps_loan_deduction p))
                                  (Some (ps_other_deductions p)))) = 9174%Z
    /\ ~ deducted_on_final_gross p.
Proof.
  eexists. eexists. eexists.
  split; [vm_compute; reflexivity |].
  split; [vm_compute; left; reflexivity |].
  split; [vm_compute; reflexivity |].
  split; [vm_compute; reflexivity |].
  split; [vm_compute; reflexivity |].
  intros (g & Hg & H & _). vm_compute in Hg. inversion Hg; subst g.
  vm_compute in H. discriminate.
Qed.

(** C1 (as the code has it).  After a completed [processPayroll] the run has
    one payslip per active worker with a current salary structure, in the
    workers' order, and for each of them: the deduction calculator is
    applied to the salary structure's gross, before overtime; the overtime
    pay is [round(overtimeHours x (gross / (workingDays x 8)) x 1.5)], the
    quotient and the products computed in binary64, and is added to that
    gross to give the payslip's gross; income tax, the two employee
    contributions and total deductions are the calculator's output on the
    structure's gross; and net = payslip gross - total deductions.  When
    the month has a working day the overtime pay is a whole amount and the
    gross and the net are finite. *)
Theorem payslip_deductions_on_structure_gross (rid by_ : uuid) (w w' : World)
    (r : PayrollRun) :
  working w = None ->
  processPayroll rid by_ w = (Return r, w') ->
  exists run rest,
    select_run rid (committed w) = run :: rest
    /\ Forall2
         (fun emp p =>
            let workingDays :=
              working_days_of (east_of_utc w) (committed w)
                (pr_month run) (pr_year run) in
            let hours :=
              overtimeHours (attendance_summary (employee_id emp)
                               (pr_month run) (pr_year run) (committed w)) in
            let deductions :=
              calculateAllDeductions (gross_salary emp) (isFiler_of emp)
                (mkAdditional (Some (or_default (loan_deduction emp) 0))
                              (Some (or_default (other_deductions emp) 0))) in
            ps_employee_id p = employee_id emp
            /\ ps_working_days p = workingDays
            /\ ps_overtime_pay p
               = Math_round_number
                   (mul (mul (parseFloat hours)
                             (div (parseFloat (gross_salary emp))
                                  (Finite (inject_Z (workingDays * 8)))))
                        (Finite (15 # 10)))
            /\ ps_gross_salary p
               = add (Finite (gross_salary emp)) (ps_overtime_pay p)
            /\ ps_income_tax p = incomeTax deductions
            /\ ps_eobi_contribution p = eobi deductions
            /\ ps_sessi_contribution p = sessi deductions
            /\ ps_total_deductions p = totalDeductions deductions
            /\ ps_net_salary p
               = sub (ps_gross_salary p) (Finite (ps_total_deductions p))
            /\ (workingDays <> 0%Z ->
                exists pay : Z,
                  ps_overtime_pay p = Finite (inject_Z pay)
                  /\ ps_gross_salary p
                     = Finite (gross_salary emp + inject_Z pay)
                  /\ ps_net_salary p
                     = Finite (gross_salary emp + inject_Z pay
                               - ps_total_deductions p)))
         (select_active_employees (committed w))
         (payslips_of rid (committed w')).
Proof.
  intros Hw H.
  destruct (payslips_after_process _ _ _ _ _ Hw H)
    as (run & rest & Hrun & Hps & _ & _).
  exists run, rest. split; [exact Hrun |].
  rewrite Hps. unfold regenerated.
  apply Forall2_map_right. intros emp Hemp. cbn zeta.
  do 9 (split; [reflexivity |]).
  intros Hwd. unfold payslip_of.
  cbn [make_payslip ps_overtime_pay ps_gross_salary ps_net_salary
       ps_total_deductions].
  match goal with
  | |- context [overtimePay ?h ?g ?wd] =>
      destruct (overtimePay_Finite h g wd Hwd) as [pay ->]
  end.
  exists pay. repeat split; reflexivity.
Qed.

Lemma payslip_deductions_on_structure_gross_witness :
  exists run rest,
    select_run 7%nat (committed draft_world) = run :: rest
    /\ Forall2
         (fun emp p =>
            let workingDays :=
              working_days_of (east_of_utc draft_world) (committed draft_world)
                (pr_month run) (pr_year run) in
            let hours :=
              overtimeHours (attendance_summary (employee_id emp)
                               (pr_month run) (pr_year run)
                               (committed draft_world)) in
            let deductions :=
              calculateAllDeductions (gross_salary emp) (isFiler_of emp)
                (mkAdditional (Some (or_default (loan_deduction emp) 0))
                              (Some (or_default (other_deductions emp) 0))) in
            ps_employee_id p = employee_id emp
            /\ ps_working_days p = workingDays
            /\ ps_overtime_pay p
               = Math_round_number
                   (mul (mul (parseFloat hours)
                             (div (parseFloat (gross_salary emp))
                                  (Finite (inject_Z (workingDays * 8)))))
                        (Finite (15 # 10)))
            /\ ps_gross_salary p
               = add (Finite (gross_salary emp)) (ps_overtime_pay p)
            /\ ps_income_tax p = incomeTax deductions
            /\ ps_eobi_contribution p = eobi deductions
            /\ ps_sessi_contribution p = sessi deductions
            /\ ps_total_deductions p = totalDeductions deductions
            /\ ps_net_salary p
               = sub (ps_gross_salary p) (Finite (ps_total_deductions p))
            /\ (workingDays <> 0%Z ->
                exists pay : Z,
                  ps_overtime_pay p = Finite (inject_Z pay)
                  /\ ps_gross_salary p
                     = Finite (gross_salary emp + inject_Z pay)
                  /\ ps_net_salary p
                     = Finite (gross_salary emp + inject_Z pay
                               - ps_total_deductions p)))
         (select_active_employees (committed draft_world))
         (payslips_of 7%nat
            (committed (snd (processPayroll 7%nat 9%nat draft_world)))).
Proof.
  eapply (payslip_deductions_on_structure_gross 7%nat 9%nat draft_world).
  - reflexivity.
  - vm_compute. reflexivity.
Defined.

(** *** Reprocessing *)


Lemma select_active_employees_ext (a b : DB) :
  employees a = employees b ->
  salary_structures a = salary_structures b ->
  select_active_employees a = select_active_employees b.
Proof.
  intros He Hs. unfold select_active_employees. rewrite He, Hs. reflexivity.
Qed.

Lemma working_days_of_ext (east : bool) (a b : DB) (m y : Z) :
  public_holidays a = public_holidays b ->
  working_days_of east a m y = working_days_of east b m y.
Proof.
  intros H. unfold working_days_of, select_holidays. rewrite H. reflexivity.
Qed.




(** *** Attendance statuses *)

Lemma Forall2_filter {A} (R : A -> A -> Prop) (f : A -> bool) (l l' : list A) :
  (forall x y, R x y -> f x = f y) ->
  Forall2 R l l' -> Forall2 R (filter f l) (filter f l').
Proof.
  intros Hf H. induction H as [| x y l l' Hxy Hl IH]; [constructor |].
  cbn [filter]. rewrite (Hf x y Hxy). destruct (f y); [constructor |]; auto.
Qed.

Lemma fold_overtime_same (l l' : list Attendance) :
  Forall2 same_but_status l l' ->
  forall acc,
    fold_left (fun acc a => acc + or_default (a_overtime_hours a) 0) l acc
    = fold_left (fun acc a => acc + or_default (a_overtime_hours a) 0) l' acc.
Proof.
  intros H. induction H as [| x y l l' (_ & _ & Hxy) Hl IH]; intros acc;
    [reflexivity |].
  cbn [fold_left]. rewrite Hxy. apply IH.
Qed.

(** The summed overtime does not read the statuses. *)
Lemma overtimeHours_same (e : uuid) (m y : Z) (a b : DB) :
  Forall2 same_but_status (attendance a) (attendance b) ->
  overtimeHours (attendance_summary e m y a)
  = overtimeHours (attendance_summary e m y b).
Proof.
  intros H. unfold attendance_summary. cbn [overtimeHours]. f_equal.
  assert (Hrows : Forall2 same_but_status (attendance_rows e m y a)
                                          (attendance_rows e m y b)).
  { unfold attendance_rows. apply Forall2_filter; [| exact H].
    intros x x' (He & Hd & _). rewrite He, Hd. reflexivity. }
  unfold sum_overtime.
  destruct Hrows as [| x x' l l' Hx Hl]; [reflexivity |].
  f_equal. apply (fold_overtime_same (x :: l) (x' :: l')).
  constructor; assumption.
Qed.

Lemma money_payslip_of (rid : uuid) (m y wd : Z) (a b : DB) (emp : EmployeeRow) :
  Forall2 same_but_status (attendance a) (attendance b) ->
  money (payslip_of rid m y wd a emp) = money (payslip_of rid m y wd b emp).
Proof.
  intros H. unfold money, payslip_of, make_payslip.
  cbn [ps_basic_salary ps_housing_allowance ps_transport_allowance
       ps_medical_allowance ps_utility_allowance ps_other_allowances
       ps_overtime_pay ps_gross_salary ps_income_tax ps_eobi_contribution
       ps_sessi_contribution ps_loan_deduction ps_other_deductions
       ps_total_deductions ps_net_salary ps_taxable_income].
  rewrite (overtimeHours_same (employee_id emp) m y a b H). reflexivity.
Qed.

(** Without overtime hours the overtime pay is zero when the month has a
    working day, and NaN when it has none: [0 * (gross / 0)]. *)
Lemma to_double_zero_times (x : Q) : to_double (0 * x) = 0.
Proof.
  destruct x as [n d]. reflexivity.
Qed.

Lemma overtimePay_no_hours (gross : Q) (wd : Z) :
  wd <> 0%Z -> overtimePay 0 gross wd = Finite 0.
Proof.
  intros Hwd. unfold overtimePay, hourlyRate, parseFloat, div.
  assert (Hz : is_zero (inject_Z (wd * 8)) = false).
  { unfold is_zero. destruct (Qeq_bool _ 0) eqn:E; [| reflexivity].
    apply Qeq_bool_eq in E. unfold Qeq in E. cbn in E. lia. }
  rewrite Hz. change (to_double 0) with 0. cbn [mul].
  rewrite to_double_zero_times. reflexivity.
Qed.

Lemma overtimePay_no_hours_no_days (gross : Q) :
  overtimePay 0 gross 0 = NaN.
Proof.
  unfold overtimePay, hourlyRate, parseFloat, div.
  change (is_zero (inject_Z (0 * 8))) with true. cbn iota.
  change (to_double 0) with 0.
  destruct (is_zero (to_double gross)); reflexivity.
Qed.

(** C10 (where the code departs from it).  April 2024 with every week day
    a public holiday has no working day.  [processPayroll] completes the
    run all the same, and worker 2, who has no attendance row in the
    period, gets a payslip with zero day counts and zero overtime hours
    whose overtime pay, gross and net are NaN: [0 * (gross / 0) * 1.5].
    The run row is committed with NaN totals. *)
Theorem no_working_day_pay_is_NaN :
  exists r w' p row,
    working_days_of (east_of_utc shutdown_world) (committed shutdown_world)
                    4 2024 = 0%Z
    /\ attendance_rows 2%nat 4 2024 (committed shutdown_world) = []
    /\ processPayroll 7%nat 9%nat shutdown_world = (Return r, w')
    /\ pr_status r = completed
    /\ In p (payslips_of 7%nat (committed w'))
    /\ ps_employee_id p = 2%nat
    /\ ps_working_days p = 0%Z
    /\ ps_present_days p = 0%Z /\ ps_absent_days p = 0%Z
    /\ ps_leave_days p = 0%Z
    /\ ps_overtime_hours p = 0
    /\ ps_overtime_pay p = NaN
    /\ ps_gross_salary p = NaN
    /\ ps_net_salary p = NaN
    /\ select_run 7%nat (committed w') = [row]
    /\ pr_total_gross_salary row = NaN
    /\ pr_total_net_salary row = NaN.
Proof.
  eexists. eexists. eexists. eexists.
  split; [vm_compute; reflexivity |].
  split; [vm_compute; reflexivity |].
  split; [vm_compute; reflexivity |].
  split; [reflexivity |].
  split; [vm_compute; right; left; reflexivity |].
  repeat split; vm_compute; reflexivity.
Qed.

(** With overtime hours in such a month the overtime pay is an infinity:
    the store refuses the payslip and the run is rolled back, still a
    draft. *)
Lemma no_working_day_overtime_is_refused :
  exists w',
    processPayroll 7%nat 9%nat shutdown_overtime_world
    = (Throw (DatabaseError "numeric field overflow"), w')
    /\ overtimePay 10 150000 0 = Infinity false
    /\ committed w' = committed shutdown_overtime_world
    /\ working w' = None.
Proof.
  eexists. split; [vm_compute; reflexivity |].
  repeat split; vm_compute; reflexivity.
Qed.

End ServiceFacts.

(** ** The tax schedule, bounds and monotonicity *)

Module TaxMoreFacts.
Import JS JSFacts TaxCalculator TaxFacts Schedule.

Ltac reduce_constants :=
  repeat match goal with
  | |- context [Qle_bool ?a ?b] =>
      let c := eval vm_compute in (Qle_bool a b) in
      change (Qle_bool a b) with c
  end;
  cbn [negb].

(** Between 0 and the top rate: the unrounded tax of any income. *)
Lemma raw_tax_bounds (i : Q) (isFiler : bool) :
  0 <= i -> 0 <= raw_tax i isFiler <= i * top_rate isFiler.
Proof.
  intros Hi. unfold top_rate.
  destruct isFiler;
    unfold raw_tax, find_slab, slabs_of, TAX_SLABS_FILER, TAX_SLABS_NON_FILER;
    unfold find, in_slab, le_max, geb, leb; cbn [slab_min slab_max];
    split_comparisons; unfold slab_tax, gtb;
    cbn [slab_rate slab_min slab_fixed];
    try (exfalso; lra);
    reduce_constants; unfold Qdiv; change (/ 100) with (1 # 100);
    split; lra.
Qed.

Lemma raw_tax_exempt (i : Q) (isFiler : bool) :
  i <= 600000 -> raw_tax i isFiler == 0.
Proof.
  intros Hi.
  destruct isFiler;
    unfold raw_tax, find_slab, slabs_of, TAX_SLABS_FILER, TAX_SLABS_NON_FILER;
    unfold find, in_slab, le_max, geb, leb; cbn [slab_min slab_max];
    split_comparisons; unfold slab_tax, gtb;
    cbn [slab_rate slab_min slab_fixed];
    try (exfalso; lra);
    reduce_constants; reflexivity.
Qed.

(** X1.  The annual tax of an income from 0 up is never negative and never
    more than the table's top marginal rate (35% for a filer, 38.5% for a
    non-filer) of the income, rounded; and up to an income of 600,000 it is
    0, as is the monthly figure. *)
Theorem annual_tax_within_top_rate (i : Q) (isFiler : bool) :
  0 <= i ->
  (0 <= at_annualTax (calculateAnnualTax i isFiler)
   <= Math_round (i * top_rate isFiler))%Z
  /\ (i <= 600000 ->
      at_annualTax (calculateAnnualTax i isFiler) = 0%Z
      /\ at_monthlyTax (calculateAnnualTax i isFiler) = 0%Z).
Proof.
  intros Hi. destruct (raw_tax_bounds i isFiler Hi) as [Hlo Hhi].
  unfold calculateAnnualTax. cbn [at_annualTax at_monthlyTax].
  fold (raw_tax i isFiler).
  split; [split |].
  - rewrite <- (Math_round_Z 0). apply Math_round_mono. exact Hlo.
  - apply Math_round_mono. exact Hhi.
  - intros Hex.
    pose proof (raw_tax_exempt i isFiler Hex) as H0.
    split.
    + rewrite (Math_round_comp _ (inject_Z 0)); [apply Math_round_Z | exact H0].
    + rewrite (Math_round_comp _ (inject_Z 0)); [apply Math_round_Z |].
      rewrite H0. reflexivity.
Qed.

Lemma annual_tax_within_top_rate_witness :
  0 <= 500000
  /\ (0 <= at_annualTax (calculateAnnualTax 500000 false)
      <= Math_round (500000 * top_rate false))%Z
  /\ at_annualTax (calculateAnnualTax 500000 false) = 0%Z
  /\ at_monthlyTax (calculateAnnualTax 500000 false) = 0%Z.
Proof.
  split; [discriminate |].
  destruct (annual_tax_within_top_rate 500000 false) as [Hb Hz];
    [discriminate |].
  split; [exact Hb | apply Hz; discriminate].
Defined.

Lemma raw_tax_whole (n : Z) (isFiler : bool) :
  (0 <= n)%Z ->
  raw_tax (inject_Z n) isFiler == marginal_tax (inject_Z n) isFiler.
Proof.
  intros Hn.
  destruct isFiler;
    unfold marginal_tax, raw_tax, find_slab, slabs_of, TAX_SLABS_FILER,
      TAX_SLABS_NON_FILER;
    unfold find, in_slab, le_max, geb, leb; cbn [slab_min slab_max];
    rewrite ?Qle_bool_Z_left, ?Qle_bool_Z_right;
    split_leb; cbn [andb]; unfold slab_tax, gtb;
    cbn [slab_rate slab_min slab_fixed];
    reduce_constants; unfold Qdiv; change (/ 100) with (1 # 100);
    ring.
Qed.

Lemma marginal_tax_mono (a b : Q) (isFiler : bool) :
  a <= b -> marginal_tax a isFiler <= marginal_tax b isFiler.
Proof.
  intros Hab. unfold marginal_tax, leb.
  destruct isFiler; split_comparisons; lra.
Qed.

(** X2.  On a whole income from 0 up the calculator's annual tax is the
    marginal schedule rounded: the bracket's fixed amount plus the
    bracket's rate on the excess over the previous bracket's upper bound. *)
Theorem annual_tax_is_marginal_schedule (n : Z) (isFiler : bool) :
  (0 <= n)%Z ->
  at_annualTax (calculateAnnualTax (inject_Z n) isFiler)
  = Math_round (marginal_tax (inject_Z n) isFiler).
Proof.
  intros Hn. unfold calculateAnnualTax. cbn [at_annualTax].
  apply Math_round_comp. exact (raw_tax_whole n isFiler Hn).
Qed.

Lemma annual_tax_is_marginal_schedule_witness :
  (0 <= 2500000)%Z
  /\ at_annualTax (calculateAnnualTax (inject_Z 2500000) true)
     = Math_round (marginal_tax (inject_Z 2500000) true).
Proof.
  split; [discriminate |].
  apply (annual_tax_is_marginal_schedule 2500000 true). discriminate.
Defined.

(** X3.  On whole incomes the annual tax never decreases when the income
    grows, in either table. *)
Theorem annual_tax_monotone_on_whole_incomes (a b : Z) (isFiler : bool) :
  (0 <= a)%Z -> (a <= b)%Z ->
  (at_annualTax (calculateAnnualTax (inject_Z a) isFiler)
   <= at_annualTax (calculateAnnualTax (inject_Z b) isFiler))%Z.
Proof.
  intros Ha Hab. unfold calculateAnnualTax. cbn [at_annualTax].
  apply Math_round_mono.
  fold (raw_tax (inject_Z a) isFiler). fold (raw_tax (inject_Z b) isFiler).
  rewrite (raw_tax_whole a isFiler Ha).
  rewrite (raw_tax_whole b isFiler); [| lia].
  apply marginal_tax_mono. rewrite <- Zle_Qle. exact Hab.
Qed.

Lemma annual_tax_monotone_on_whole_incomes_witness :
  (0 <= 1200000)%Z /\ (1200000 <= 1200001)%Z
  /\ (at_annualTax (calculateAnnualTax (inject_Z 1200000) false)
      <= at_annualTax (calculateAnnualTax (inject_Z 1200001) false))%Z.
Proof.
  split; [discriminate | split; [discriminate |]].
  apply (annual_tax_monotone_on_whole_incomes 1200000 1200001 false);
    discriminate.
Defined.

Lemma net_salary_value (g loan other : Q) (isFiler : bool) :
  netSalary (calculateAllDeductions g isFiler
               (mkAdditional (Some loan) (Some other)))
  == g - inject_Z (Math_round (raw_tax (g * 12) isFiler / 12))
       - inject_Z (Math_round (g * (15 # 10000))) - loan - other.
Proof.
  unfold calculateAllDeductions, calculateMonthlyTax, calculateAnnualTax,
    calculateEOBI, raw_tax.
  cbn [netSalary mt_monthlyTax at_monthlyTax employee or_default
       ad_loanDeduction ad_otherDeductions].
  ring.
Qed.

(** X4.  For a gross salary from 0 up and adjustments that are not negative,
    the calculator's income tax, employee contribution and total deductions
    are not negative and the net salary does not exceed the gross; with no
    adjustment the net salary is never negative. *)
Theorem deductions_never_exceed_gross (g loan other : Q) (isFiler : bool) :
  0 <= g -> 0 <= loan -> 0 <= other ->
  let d := calculateAllDeductions g isFiler
             (mkAdditional (Some loan) (Some other)) in
  (0 <= incomeTax d)%Z
  /\ (0 <= eobi d)%Z
  /\ sessi d = 0%Z
  /\ 0 <= totalDeductions d
  /\ netSalary d <= g
  /\ 0 <= netSalary (calculateAllDeductions g isFiler no_additional).
Proof.
  intros Hg Hl Ho d.
  assert (Hg12 : 0 <= g * 12) by lra.
  destruct (raw_tax_bounds (g * 12) isFiler Hg12) as [HT0 HT1].
  assert (Htax0 : (0 <= Math_round (raw_tax (g * 12) isFiler / 12))%Z).
  { rewrite <- (Math_round_Z 0). apply Math_round_mono.
    rewrite div12. change (inject_Z 0) with 0. lra. }
  assert (Heobi0 : (0 <= Math_round (g * (15 # 10000)))%Z).
  { rewrite <- (Math_round_Z 0). apply Math_round_mono.
    change (inject_Z 0) with 0. lra. }
  assert (Hnet : netSalary d
     == g - inject_Z (Math_round (raw_tax (g * 12) isFiler / 12))
          - inject_Z (Math_round (g * (15 # 10000))) - loan - other)
    by apply net_salary_value.
  assert (Hnet0 : netSalary (calculateAllDeductions g isFiler no_additional)
     == g - inject_Z (Math_round (raw_tax (g * 12) isFiler / 12))
          - inject_Z (Math_round (g * (15 # 10000)))).
  { unfold calculateAllDeductions, calculateMonthlyTax, calculateAnnualTax,
      calculateEOBI, raw_tax, no_additional.
    cbn [netSalary mt_monthlyTax at_monthlyTax employee or_default
         ad_loanDeduction ad_otherDeductions].
    ring. }
  assert (Htot : totalDeductions d
     == inject_Z (Math_round (raw_tax (g * 12) isFiler / 12))
        + inject_Z (Math_round (g * (15 # 10000))) + loan + other).
  { unfold d, calculateAllDeductions, calculateMonthlyTax, calculateAnnualTax,
      calculateEOBI, raw_tax.
    cbn [totalDeductions mt_monthlyTax at_monthlyTax employee or_default
         ad_loanDeduction ad_otherDeductions].
    reflexivity. }
  split; [exact Htax0 |].
  split; [exact Heobi0 |].
  rewrite Zle_Qle in Htax0, Heobi0. change (inject_Z 0) with 0 in Htax0, Heobi0.
  split; [reflexivity |].
  split; [rewrite Htot; lra |].
  split; [rewrite Hnet; lra |].
  rewrite Hnet0.
  destruct (Qlt_le_dec g 2) as [Hsmall | Hbig].
  - assert (HT : raw_tax (g * 12) isFiler == 0)
      by (apply raw_tax_exempt; lra).
    assert (Htz : Math_round (raw_tax (g * 12) isFiler / 12) = 0%Z).
    { rewrite (Math_round_comp _ (inject_Z 0)); [apply Math_round_Z |].
      rewrite HT. reflexivity. }
    assert (Hez : (Math_round (g * (15 # 10000)) < 1)%Z).
    { apply Math_round_upper. change (inject_Z 1) with 1. lra. }
    rewrite Htz. change (inject_Z 0) with 0.
    assert (Hez' : inject_Z (Math_round (g * (15 # 10000))) <= 0).
    { change 0 with (inject_Z 0). rewrite <- Zle_Qle. lia. }
    lra.
  - destruct (Math_round_near (raw_tax (g * 12) isFiler / 12)) as [Ht _].
    destruct (Math_round_near (g * (15 # 10000))) as [He _].
    remember (Math_round (raw_tax (g * 12) isFiler / 12)) as tz eqn:Etz.
    remember (Math_round (g * (15 # 10000))) as ez eqn:Eez.
    rewrite div12 in Ht.
    unfold top_rate in HT1. destruct isFiler; lra.
Qed.

Lemma deductions_never_exceed_gross_witness :
  0 <= 150000 /\ 0 <= 5000 /\ 0 <= 2000
  /\ netSalary (calculateAllDeductions 150000 true
                  (mkAdditional (Some 5000) (Some 2000))) <= 150000
  /\ 0 <= netSalary (calculateAllDeductions 150000 true no_additional).
Proof.
  do 3 (split; [discriminate |]).
  destruct (deductions_never_exceed_gross 150000 5000 2000 true)
    as (_ & _ & _ & _ & Hnet & Hpos); try discriminate.
  split; [exact Hnet | exact Hpos].
Defined.

Lemma Math_min_mono (a b c : Q) : a <= b -> Math_min a c <= Math_min b c.
Proof.
  intros Hab. unfold Math_min.
  destruct (Qle_bool a c) eqn:Ea; destruct (Qle_bool b c) eqn:Eb;
    try apply Qle_bool_iff in Ea; try apply Qle_bool_iff in Eb;
    try apply Qle_bool_false in Ea; try apply Qle_bool_false in Eb; lra.
Qed.

(** X5.  Both statutory contributions never decrease when the gross grows.
    The capped contribution of a gross from 0 up lies between 0 and 188,
    and is 188 for every gross from 25,000 up. *)
Theorem contributions_monotone_and_capped (g g' : Q) :
  g <= g' ->
  (employer (calculateEOBI g) <= employer (calculateEOBI g'))%Z
  /\ (employee (calculateEOBI g) <= employee (calculateEOBI g'))%Z
  /\ (employer (calculateSESSI g) <= employer (calculateSESSI g'))%Z
  /\ (0 <= g -> (0 <= employer (calculateSESSI g) <= 188)%Z)
  /\ (25000 <= g -> employer (calculateSESSI g) = 188%Z).
Proof.
  intros Hgg. unfold calculateEOBI, calculateSESSI. cbn [employer employee].
  split; [apply Math_round_mono; lra |].
  split; [apply Math_round_mono; lra |].
  split.
  { apply Math_round_mono. pose proof (Math_min_mono g g' 25000 Hgg). lra. }
  split.
  - intros Hg. destruct (Math_min_spec g 25000) as (Hcase & _ & Hle).
    split.
    + rewrite <- (Math_round_Z 0). apply Math_round_mono.
      change (inject_Z 0) with 0. destruct Hcase as [-> | ->]; lra.
    + change 188%Z with (Math_round (25000 * (75 # 10000))).
      apply Math_round_mono. lra.
  - intros Hg.
    apply (Math_round_comp _ (25000 * (75 # 10000))).
    unfold Math_min. destruct (Qle_bool g 25000) eqn:E.
    + apply Qle_bool_iff in E. assert (Heq : g == 25000) by lra.
      rewrite Heq. reflexivity.
    + reflexivity.
Qed.

Lemma contributions_monotone_and_capped_witness :
  20000 <= 100000
  /\ (employer (calculateSESSI 20000) <= employer (calculateSESSI 100000))%Z
  /\ employer (calculateSESSI 100000) = 188%Z.
Proof.
  split; [discriminate |].
  destruct (contributions_monotone_and_capped 20000 100000)
    as (_ & _ & Hm & _ & _); [discriminate |].
  destruct (contributions_monotone_and_capped 100000 100000)
    as (_ & _ & _ & _ & Hc); [discriminate |].
  split; [exact Hm | apply Hc; discriminate].
Defined.
End TaxMoreFacts.

(** ** Working days of a month *)

Module CalendarFacts.
Import Store Conn Calendar PayrollService RunContent WeekDays.
Local Open Scope Z_scope.

Lemma days_from_civil_day (y m d : Z) :
  days_from_civil y m d = days_from_civil y m 1 + (d - 1).
Proof. unfold days_from_civil. cbv zeta. lia. Qed.

Lemma getDay_day (y m d : Z) :
  getDay (mkDate y m d) = (getDay (mkDate y m 1) + (d - 1)) mod 7.
Proof.
  unfold getDay. cbn [d_year d_month d_day].
  rewrite (days_from_civil_day y m d).
  rewrite Z.add_mod_idemp_l by lia. f_equal. lia.
Qed.

Lemma week_days_in_from (y m : Z) :
  week_days_in y m
  = week_days_from (getDay (mkDate y m 1)) (days_in_month y m).
Proof.
  unfold week_days_in, week_days_from. do 2 f_equal.
  apply filter_ext. intros k. unfold is_week_day.
  rewrite (getDay_day y m (Z.of_nat k)). reflexivity.
Qed.

Lemma days_in_month_cases (y m : Z) :
  days_in_month y m = 28 \/ days_in_month y m = 29
  \/ days_in_month y m = 30 \/ days_in_month y m = 31.
Proof.
  unfold days_in_month.
  destruct (m =? 2); [destruct (is_leap y); auto |].
  destruct ((m =? 4) || (m =? 6) || (m =? 9) || (m =? 11)); auto.
Qed.

(** Any month of any year has 20 to 23 week days. *)
Lemma week_days_in_bounds (y m : Z) : 20 <= week_days_in y m <= 23.
Proof.
  rewrite week_days_in_from.
  assert (Hs : 0 <= getDay (mkDate y m 1) < 7)
    by (unfold getDay; apply Z.mod_pos_bound; lia).
  remember (getDay (mkDate y m 1)) as s eqn:Es. clear Es.
  assert (Hc : s = 0 \/ s = 1 \/ s = 2 \/ s = 3 \/ s = 4 \/ s = 5 \/ s = 6)
    by lia.
  destruct (days_in_month_cases y m) as [-> | [-> | [-> | ->]]];
    destruct Hc as [-> | [-> | [-> | [-> | [-> | [-> | ->]]]]]];
    vm_compute; split; discriminate.
Qed.

(** *** The working-day loop *)

Lemma date_eqb_eq (a b : Date) : date_eqb a b = true <-> a = b.
Proof.
  unfold date_eqb. destruct a as [ya ma da], b as [yb mb db].
  cbn [d_year d_month d_day]. rewrite !andb_true_iff, !Z.eqb_eq.
  split.
  - intros [[-> ->] ->]. reflexivity.
  - intros H. inversion H. auto.
Qed.

Lemma date_eqb_refl (a : Date) : date_eqb a a = true.
Proof. apply date_eqb_eq. reflexivity. Qed.

(** The test of the loop, split into its two parts. *)
Lemma count_working_days_unfold (hs dates : list Date) :
  count_working_days hs dates
  = Z.of_nat (List.length
      (filter (fun c => is_week_day c && negb (existsb (date_eqb c) hs))
              dates)).
Proof. reflexivity. Qed.

Lemma filter_length_le_pointwise {A} (f g : A -> bool) (l : list A) :
  (forall x, f x = true -> g x = true) ->
  (List.length (filter f l) <= List.length (filter g l))%nat.
Proof.
  intros Hfg. induction l as [| x l IH]; [apply le_n |].
  cbn [filter]. destruct (f x) eqn:Ef.
  - rewrite (Hfg x Ef). cbn [List.length]. lia.
  - destruct (g x); cbn [List.length]; lia.
Qed.

Lemma filter_map_length {A B} (f : B -> bool) (g : A -> B) (l : list A) :
  List.length (filter f (map g l))
  = List.length (filter (fun x => f (g x)) l).
Proof.
  induction l as [| x l IH]; [reflexivity |].
  cbn [map filter]. destruct (f (g x)); cbn [List.length]; rewrite IH;
    reflexivity.
Qed.

(** Dropping one date from a test drops at most one element of a list
    without repetition, and exactly one when the date is in the list and
    passes the test. *)
Lemma filter_without_one (P : Date -> bool) (h : Date) (l : list Date) :
  NoDup l ->
  (List.length (filter P l)
   <= List.length (filter (fun c => P c && negb (date_eqb c h)) l) + 1)%nat
  /\ (In h l -> P h = true ->
      List.length (filter P l)
      = (List.length (filter (fun c => P c && negb (date_eqb c h)) l) + 1)%nat)
  /\ (~ In h l ->
      filter (fun c => P c && negb (date_eqb c h)) l = filter P l).
Proof.
  intros Hnd. induction Hnd as [| c l Hc Hnd IH].
  - cbn. repeat split; auto. intros [].
  - destruct IH as (IHle & IHeq & IHnot).
    cbn [filter In]. destruct (date_eqb c h) eqn:Ech.
    + apply date_eqb_eq in Ech. subst c.
      rewrite andb_false_r. rewrite (IHnot Hc).
      split; [destruct (P h); cbn [List.length]; lia |].
      split.
      * intros _ HP. rewrite HP. cbn [List.length]. lia.
      * intros Hn. exfalso. apply Hn. left. reflexivity.
    + rewrite andb_true_r.
      assert (Hne : c <> h).
      { intros ->. rewrite date_eqb_refl in Ech. discriminate. }
      split; [destruct (P c); cbn [List.length]; lia |].
      split.
      * intros [Heq | Hin] HP; [contradiction |].
        specialize (IHeq Hin HP). destruct (P c); cbn [List.length]; lia.
      * intros Hn. rewrite IHnot by tauto. reflexivity.
Qed.

Lemma working_test_cons (h : Date) (hs dates : list Date) :
  filter (fun c => is_week_day c && negb (existsb (date_eqb c) (h :: hs))) dates
  = filter (fun c => (is_week_day c && negb (existsb (date_eqb c) hs))
                     && negb (date_eqb c h)) dates.
Proof.
  apply filter_ext. intros c. cbn [existsb].
  destruct (is_week_day c), (date_eqb c h), (existsb (date_eqb c) hs);
    reflexivity.
Qed.

Lemma count_working_days_upper (hs dates : list Date) :
  (count_working_days hs dates <= count_working_days [] dates)%Z.
Proof.
  rewrite !count_working_days_unfold. apply inj_le.
  apply filter_length_le_pointwise. intros c Hc.
  apply andb_true_iff in Hc. destruct Hc as [Hc _].
  rewrite Hc. reflexivity.
Qed.

Lemma count_working_days_lower (hs dates : list Date) :
  NoDup dates ->
  (count_working_days [] dates
   <= count_working_days hs dates + Z.of_nat (List.length hs))%Z.
Proof.
  intros Hnd. induction hs as [| h hs IH]; [cbn [List.length]; lia |].
  rewrite (count_working_days_unfold (h :: hs)), working_test_cons.
  destruct (filter_without_one
              (fun c => is_week_day c && negb (existsb (date_eqb c) hs))
              h dates Hnd) as (Hle & _ & _).
  cbv beta in Hle.
  rewrite (count_working_days_unfold hs) in IH.
  cbn [List.length]. lia.
Qed.

Lemma month_dates_NoDup (month year : Z) : NoDup (month_dates month year).
Proof.
  unfold month_dates. cbv zeta.
  generalize (seq_NoDup (Z.to_nat (days_in_month (full_year year) month)) 1).
  generalize (seq 1 (Z.to_nat (days_in_month (full_year year) month))).
  intros l Hl. induction Hl as [| k l Hk Hl IH]; cbn [map]; constructor.
  - intros Hin. apply in_map_iff in Hin. destruct Hin as (k' & Heq & Hin).
    inversion Heq as [Hz]. apply Nat2Z.inj in Hz. subst k'. contradiction.
  - exact IH.
Qed.

Lemma count_week_days (month year : Z) :
  count_working_days [] (month_dates month year)
  = week_days_in (full_year year) month.
Proof.
  rewrite count_working_days_unfold. unfold week_days_in, month_dates.
  cbv zeta. rewrite filter_map_length. f_equal. f_equal.
  apply filter_ext. intros k. cbn [existsb negb]. apply andb_true_r.
Qed.

Lemma calculateWorkingDays_Return (month year : Z) (w w' : World) (wd : Z) :
  calculateWorkingDays month year w = (Return wd, w') ->
  wd = working_days_of (east_of_utc w) (view w) month year.
Proof.
  unfold calculateWorkingDays, bind, server_zone, client_query, select,
    working_days_of.
  destruct (faults w (issued w)); [discriminate |].
  intros H. inversion H; subst. reflexivity.
Qed.

(** A server ahead of UTC asks for the holidays of a window that lies one
    day early: of the holidays on 10 and 30 April 2024 it finds the first
    only and counts 21 working days, where a server in UTC counts 20. *)
Lemma working_days_depend_on_zone :
  toISODate true (startDate 4 2024) = mkDate 2024 3 31
  /\ toISODate true (endDate 4 2024) = mkDate 2024 4 29
  /\ fst (calculateWorkingDays 4 2024 Scenario2.karachi_world) = Return 21
  /\ fst (calculateWorkingDays 4 2024 Scenario2.utc_world) = Return 20.
Proof.
  repeat split; vm_compute; reflexivity.
Qed.

(** X6.  Whatever the holidays, [calculateWorkingDays] returns at most 23
    days for a month 1..12 of a year 0..9999, and at least 20 less the
    number of holidays the query finds in its window, the month as the
    server's zone writes its first and last day in UTC; so with fewer than
    20 holidays in the window the count is positive and the hourly rate has
    a divisor. *)
Theorem working_days_between (month year : Z) (w w' : World) (wd : Z) :
  (1 <= month <= 12)%Z ->
  (0 <= year <= 9999)%Z ->
  calculateWorkingDays month year w = (Return wd, w') ->
  let holidays :=
    select_holidays (toISODate (east_of_utc w) (startDate month year))
                    (toISODate (east_of_utc w) (endDate month year))
                    (view w) in
  (0 <= wd <= 23)%Z
  /\ (20 - Z.of_nat (List.length holidays) <= wd)%Z
  /\ ((List.length holidays < 20)%nat -> (0 < wd)%Z).
Proof.
  intros Hm Hy H. apply calculateWorkingDays_Return in H. subst wd.
  unfold working_days_of. cbv zeta.
  set (hs := select_holidays (toISODate (east_of_utc w) (startDate month year))
                             (toISODate (east_of_utc w) (endDate month year))
                             (view w)).
  pose proof (count_working_days_upper hs (month_dates month year)) as Hup.
  pose proof (count_working_days_lower hs (month_dates month year)
                (month_dates_NoDup month year)) as Hlo.
  rewrite count_week_days in Hup, Hlo.
  pose proof (week_days_in_bounds (full_year year) month) as Hb.
  assert (H0 : (0 <= count_working_days hs (month_dates month year))%Z)
    by (rewrite count_working_days_unfold; lia).
  repeat split; lia.
Qed.

Lemma working_days_between_witness :
  (1 <= 4 <= 12)%Z
  /\ (0 <= 21 <= 23)%Z
  /\ (20 - Z.of_nat (List.length
              (select_holidays (startDate 4 2024) (endDate 4 2024)
                               (view Scenario.draft_world))) <= 21)%Z
  /\ (20 - Z.of_nat (List.length
              (select_holidays (mkDate 2024 3 31) (mkDate 2024 4 29)
                               (view Scenario2.karachi_world))) <= 21)%Z.
Proof.
  split; [lia |].
  destruct (working_days_between 4 2024 Scenario.draft_world
              (snd (calculateWorkingDays 4 2024 Scenario.draft_world)) 21)
    as (Hb & Hl & _).
  - lia.
  - lia.
  - vm_compute. reflexivity.
  - split; [exact Hb |]. split; [exact Hl |].
    destruct (working_days_between 4 2024 Scenario2.karachi_world
                (snd (calculateWorkingDays 4 2024 Scenario2.karachi_world)) 21)
      as (_ & Hk & _).
    + lia.
    + lia.
    + vm_compute. reflexivity.
    + exact Hk.
Defined.

(** X7.  In the loop over a month 1..12 of a year 0..9999, a holiday that
    falls on a Saturday or Sunday, or is not a day of the month, leaves the
    count unchanged, and so does a holiday listed a second time; a week-day
    holiday of the month that is not yet listed lowers the count by exactly
    one. *)
Theorem holiday_effect_on_working_days (h : Date) (hs : list Date)
    (month year : Z) :
  (1 <= month <= 12)%Z ->
  (0 <= year <= 9999)%Z ->
  let dates := month_dates month year in
  ((is_week_day h = false \/ ~ In h dates \/ In h hs) ->
     count_working_days (h :: hs) dates = count_working_days hs dates)
  /\ (is_week_day h = true -> In h dates -> ~ In h hs ->
      count_working_days (h :: hs) dates
      = (count_working_days hs dates - 1)%Z).
Proof.
  intros _ _. cbv zeta. set (dates := month_dates month year).
  assert (Hnd : NoDup dates) by apply month_dates_NoDup.
  set (P := fun c => is_week_day c && negb (existsb (date_eqb c) hs)).
  destruct (filter_without_one P h dates Hnd) as (_ & Hone & Hnot).
  rewrite (count_working_days_unfold (h :: hs)), working_test_cons.
  rewrite (count_working_days_unfold hs). fold P.
  split.
  - intros Hcase. f_equal. f_equal.
    destruct Hcase as [Hwk | [Hout | Hin]].
    + apply filter_ext. intros c. destruct (date_eqb c h) eqn:E;
        [| apply andb_true_r].
      apply date_eqb_eq in E. subst c. unfold P. rewrite Hwk. reflexivity.
    + exact (Hnot Hout).
    + apply filter_ext. intros c. destruct (date_eqb c h) eqn:E;
        [| apply andb_true_r].
      apply date_eqb_eq in E. subst c. unfold P.
      assert (Hex : existsb (date_eqb h) hs = true).
      { apply existsb_exists. exists h. split; [exact Hin |].
        apply date_eqb_refl. }
      rewrite Hex. cbn [negb]. rewrite !andb_false_r. reflexivity.
  - intros Hwk Hin Hnin.
    assert (HP : P h = true).
    { unfold P. rewrite Hwk. cbn [andb].
      destruct (existsb (date_eqb h) hs) eqn:Hex; [| reflexivity].
      apply existsb_exists in Hex. destruct Hex as (x & Hx & Heq).
      apply date_eqb_eq in Heq. subst x. contradiction. }
    specialize (Hone Hin HP). subst P. cbv beta in Hone |- *. lia.
Qed.

Lemma holiday_effect_on_working_days_witness :
  count_working_days [mkDate 2024 4 13; mkDate 2024 4 10] (month_dates 4 2024)
  = count_working_days [mkDate 2024 4 10] (month_dates 4 2024)
  /\ count_working_days [mkDate 2024 4 10] (month_dates 4 2024)
     = (count_working_days [] (month_dates 4 2024) - 1)%Z.
Proof.
  split.
  - apply (holiday_effect_on_working_days (mkDate 2024 4 13)
             [mkDate 2024 4 10] 4 2024 ltac:(lia) ltac:(lia)).
    left. vm_compute. reflexivity.
  - apply (holiday_effect_on_working_days (mkDate 2024 4 10) [] 4 2024
             ltac:(lia) ltac:(lia)).
    + vm_compute. reflexivity.
    + vm_compute. tauto.
    + intros [].
Defined.
End CalendarFacts.

(** ** What a processed run holds *)

Module ServiceMoreFacts.
Import JS JSFacts TaxCalculator Store Conn Calendar PayrollService.
Import RunContent Transactional ConnFacts Scenario ServiceFacts.
Import Database PayrollRuns ServiceViews Scenario2.

(** *** Runs that do not exist *)

(** X8.  On an id that no run carries, [processPayroll] and
    [approvePayroll] throw the not-found error and the committed database
    stays as it was, provided the store fails none of the statements up to
    the lookup. *)
Theorem missing_run_not_found (rid by_ : uuid) (w : World) :
  working w = None ->
  select_run rid (committed w) = [] ->
  faults w (issued w) = false ->
  (faults w (S (issued w)) = false ->
   exists w',
     processPayroll rid by_ w
       = (Throw (NotFoundError "Payroll run not found"), w')
     /\ committed w' = committed w /\ working w' = None)
  /\ (exists w',
        approvePayroll rid by_ w
          = (Throw (NotFoundError "Payroll run not found"), w')
        /\ committed w' = committed w /\ working w' = None).
Proof.
  intros Hw Hrun Hf0. split.
  - intros Hf1.
    assert (Hs : exists w1, process_steps rid by_ w
      = (Throw (NotFoundError "Payroll run not found"), w1)).
    { unfold process_steps, bind, BEGIN, client_query, view, set_view, tick.
      rewrite Hf0. cbn [committed working issued faults now].
      rewrite Hf1, Hw. cbn [select]. rewrite Hrun. eexists. reflexivity. }
    destruct Hs as (w1 & Hs). exists (ROLLBACK w1).
    unfold processPayroll, try_rollback, bind. rewrite Hs.
    split; [reflexivity |]. cbn [ROLLBACK committed working].
    split; [| reflexivity].
    exact (process_steps_Throw _ _ _ _ _ Hw Hs).
  - unfold approvePayroll, bind, pool_query. rewrite Hf0.
    cbn [select]. rewrite Hrun. eexists. cbn [throw].
    split; [reflexivity |]. cbn [committed working]. auto.
Qed.

Lemma missing_run_not_found_witness :
  (exists w',
     processPayroll other_id 9%nat draft_world
       = (Throw (NotFoundError "Payroll run not found"), w')
     /\ committed w' = committed draft_world /\ working w' = None)
  /\ (exists w',
        approvePayroll other_id 9%nat draft_world
          = (Throw (NotFoundError "Payroll run not found"), w')
        /\ committed w' = committed draft_world /\ working w' = None).
Proof.
  destruct (missing_run_not_found other_id 9%nat draft_world)
    as [Hp Ha]; try reflexivity.
  split; [apply Hp; reflexivity | exact Ha].
Defined.

(** *** Totals *)

Lemma same_number_refl (a : Number) : same_number a a.
Proof.
  destruct a; cbn; auto. reflexivity.
Qed.

Lemma same_number_trans (a b c : Number) :
  same_number a b -> same_number b c -> same_number a c.
Proof.
  destruct a, b, c; cbn; intros H1 H2; try contradiction; auto.
  - rewrite H1. exact H2.
  - congruence.
Qed.

Lemma add_assoc (a b c : Number) :
  same_number (add (add a b) c) (add a (add b c)).
Proof.
  destruct a as [x | | [|]], b as [y | | [|]], c as [z | | [|]];
    cbn; auto; ring.
Qed.

Lemma add_same_r (a b c : Number) :
  same_number b c -> same_number (add a b) (add a c).
Proof.
  destruct a as [x | | [|]], b as [y | | [|]], c as [z | | [|]];
    cbn; intros H; try contradiction; try discriminate; auto.
  rewrite H. reflexivity.
Qed.

Lemma fold_totals_numbers (slips : list Payslip) :
  forall t,
    same_number (totalGross (fold_left add_totals slips t))
                (add (totalGross t) (sum_of_numbers ps_gross_salary slips))
    /\ same_number (totalNet (fold_left add_totals slips t))
                   (add (totalNet t) (sum_of_numbers ps_net_salary slips)).
Proof.
  induction slips as [| p slips IH]; intros t.
  - cbn [fold_left sum_of_numbers fold_right].
    destruct (totalGross t), (totalNet t); cbn; auto; split; auto; ring.
  - cbn [fold_left sum_of_numbers fold_right].
    destruct (IH (add_totals t p)) as (H1 & H2).
    cbn [add_totals totalGross totalNet] in H1, H2.
    split.
    + eapply same_number_trans; [exact H1 | apply add_assoc].
    + eapply same_number_trans; [exact H2 | apply add_assoc].
Qed.

Lemma fold_totals (slips : list Payslip) :
  forall t,
    totalDeductions_ (fold_left add_totals slips t)
      == totalDeductions_ t + sum_of ps_total_deductions slips
    /\ totalTax (fold_left add_totals slips t)
      == totalTax t + sum_of (fun p => inject_Z (ps_income_tax p)) slips.
Proof.
  induction slips as [| p slips IH]; intros t.
  - cbn. split; ring.
  - cbn [fold_left sum_of fold_right].
    destruct (IH (add_totals t p)) as (H2 & H3).
    rewrite H2, H3. unfold add_totals.
    cbn [totalGross totalDeductions_ totalTax totalNet].
    fold (sum_of ps_total_deductions slips).
    fold (sum_of (fun p => inject_Z (ps_income_tax p)) slips).
    split; ring.
Qed.

Lemma add_zero_l (a : Number) : same_number (add (Finite 0) a) a.
Proof.
  destruct a; cbn; auto. ring.
Qed.

(** Sums of payslips whose gross and net are finite. *)
Lemma finite_sums (slips : list Payslip) :
  (forall p, In p slips ->
     exists g, ps_gross_salary p = Finite g
               /\ ps_net_salary p = Finite (g - ps_total_deductions p)) ->
  exists G N,
    sum_of_numbers ps_gross_salary slips = Finite G
    /\ sum_of_numbers ps_net_salary slips = Finite N
    /\ N == G - sum_of ps_total_deductions slips.
Proof.
  induction slips as [| p slips IH]; intros H.
  - exists 0, 0. cbn. repeat split; try ring.
  - destruct IH as (G & N & HG & HN & HNG).
    { intros q Hq. apply H. right. exact Hq. }
    destruct (H p (or_introl eq_refl)) as (g & Hg & Hn).
    cbn [sum_of_numbers sum_of fold_right].
    fold (sum_of_numbers ps_gross_salary slips).
    fold (sum_of_numbers ps_net_salary slips).
    fold (sum_of ps_total_deductions slips).
    rewrite HG, HN, Hg, Hn. cbn [add].
    eexists. eexists. split; [reflexivity |]. split; [reflexivity |].
    rewrite HNG. ring.
Qed.

(** With no working day the overtime pay is NaN or an infinity. *)
Lemma overtimePay_no_days (hours gross : Q) :
  overtimePay hours gross 0 = NaN
  \/ exists s, overtimePay hours gross 0 = Infinity s.
Proof.
  unfold overtimePay, hourlyRate, parseFloat, div.
  change (is_zero (inject_Z (0 * 8))) with true. cbn iota.
  destruct (is_zero (to_double gross)).
  - left. reflexivity.
  - cbn [mul]. destruct (is_zero (to_double hours)).
    + left. reflexivity.
    + right. cbn [mul]. change (is_zero (15 # 10)) with false. cbn iota.
      cbn [Math_round_number]. eauto.
Qed.

(** A payslip of a month without working day that the store accepted holds
    NaN. *)
Lemma stored_payslip_no_days (rid : uuid) (m y : Z) (emp : EmployeeRow)
    (att : AttendanceSummary) :
  storable_row (make_payslip rid m y 0 emp att) = true ->
  ps_overtime_pay (make_payslip rid m y 0 emp att) = NaN
  /\ ps_gross_salary (make_payslip rid m y 0 emp att) = NaN
  /\ ps_net_salary (make_payslip rid m y 0 emp att) = NaN.
Proof.
  unfold storable_row.
  cbn [make_payslip ps_overtime_pay ps_gross_salary ps_net_salary].
  destruct (overtimePay_no_days (overtimeHours att) (gross_salary emp))
    as [-> | [s ->]].
  - intros _. repeat split.
  - cbn. discriminate.
Qed.

(** Sums that begin with a NaN. *)
Lemma NaN_sums (slips : list Payslip) :
  slips <> [] ->
  (forall p, In p slips -> ps_gross_salary p = NaN /\ ps_net_salary p = NaN) ->
  sum_of_numbers ps_gross_salary slips = NaN
  /\ sum_of_numbers ps_net_salary slips = NaN.
Proof.
  destruct slips as [| p slips]; [contradiction |].
  intros _ H. destruct (H p (or_introl eq_refl)) as [Hg Hn].
  cbn [sum_of_numbers fold_right]. rewrite Hg, Hn. split; reflexivity.
Qed.

Lemma or_zero_Finite (x : Number) (q : Q) :
  same_number x (Finite q) ->
  exists q', or_zero x = Finite q' /\ q' == q.
Proof.
  destruct x as [v | |]; cbn; intros H; try contradiction.
  unfold is_zero. destruct (Qeq_bool v 0) eqn:E.
  - exists 0. split; [reflexivity |].
    apply Qeq_bool_eq in E. rewrite <- H, E. reflexivity.
  - exists v. split; [reflexivity | exact H].
Qed.

(** X9.  A completed [processPayroll] commits a run row that is completed,
    names the processor, counts one worker per payslip of the run, and
    whose four totals are the sums of the payslips' gross, total
    deductions, income tax and net, a sum over a NaN being NaN; the run it
    returns is that row through [transformPayrollRun], which turns a NaN
    total into 0.  When the payslips were made with a working day, the
    returned gross and net totals are those finite sums and the net total
    is the gross total less the deductions total.  When they were made
    without one, the row's gross and net totals are NaN and the returned
    ones are 0, next to the deductions total of the payslips. *)
Theorem run_totals_are_payslip_sums (rid by_ : uuid) (w w' : World)
    (r : PayrollRun) :
  working w = None ->
  processPayroll rid by_ w = (Return r, w') ->
  let slips := payslips_of rid (committed w') in
  exists row,
    In row (select_run rid (committed w'))
    /\ r = transformPayrollRun row
    /\ pr_status r = completed
    /\ pr_processed_by row = Some by_
    /\ pr_total_employees r = Z.of_nat (List.length slips)
    /\ same_number (pr_total_gross_salary row)
                   (sum_of_numbers ps_gross_salary slips)
    /\ pr_total_deductions r == sum_of ps_total_deductions slips
    /\ pr_total_tax r == sum_of (fun p => inject_Z (ps_income_tax p)) slips
    /\ same_number (pr_total_net_salary row)
                   (sum_of_numbers ps_net_salary slips)
    /\ ((forall p, In p slips -> ps_working_days p <> 0%Z) ->
        exists gross net,
          pr_total_gross_salary r = Finite gross
          /\ pr_total_net_salary r = Finite net
          /\ same_number (Finite gross) (sum_of_numbers ps_gross_salary slips)
          /\ same_number (Finite net) (sum_of_numbers ps_net_salary slips)
          /\ net == gross - pr_total_deductions r)
    /\ (slips <> [] ->
        (forall p, In p slips -> ps_working_days p = 0%Z) ->
        pr_total_gross_salary row = NaN
        /\ pr_total_net_salary row = NaN
        /\ pr_total_gross_salary r = Finite 0
        /\ pr_total_net_salary r = Finite 0).
Proof.
  intros Hw H.
  destruct (processPayroll_Return _ _ _ _ _ Hw H)
    as (run & rest & Hrun & _ & Hc & _ & Hsts & _ & row & Hrow & Hr).
  cbv zeta. exists row. split; [exact Hrow |]. split; [exact Hr |].
  rewrite Hc, payslips_of_processed.
  rewrite Hc in Hrow. unfold processed, select_run in Hrow.
  cbn [payroll_runs] in Hrow. apply filter_In in Hrow.
  destruct Hrow as [Hrow Hid].
  apply in_map_iff in Hrow. destruct Hrow as (r0 & Hr0 & _).
  assert (Hid0 : (pr_id r0 =? rid)%nat = true).
  { destruct (pr_id r0 =? rid)%nat eqn:E; [reflexivity |].
    subst row. rewrite E in Hid. discriminate. }
  rewrite Hid0 in Hr0. subst row. subst r.
  set (east := east_of_utc w) in *.
  set (slips := regenerated east rid run (committed w)) in *.
  cbn [transformPayrollRun complete_run pr_status pr_processed_by
       pr_total_employees pr_total_gross_salary pr_total_deductions
       pr_total_tax pr_total_net_salary].
  destruct (fold_totals slips zero_totals) as (H2 & H3).
  destruct (fold_totals_numbers slips zero_totals) as (H1 & H4).
  unfold run_totals.
  cbn [zero_totals totalGross totalDeductions_ totalTax totalNet]
    in H1, H2, H3, H4.
  assert (HG : same_number (totalGross (fold_left add_totals slips zero_totals))
                           (sum_of_numbers ps_gross_salary slips)).
  { eapply same_number_trans; [exact H1 | apply add_zero_l]. }
  assert (HN : same_number (totalNet (fold_left add_totals slips zero_totals))
                           (sum_of_numbers ps_net_salary slips)).
  { eapply same_number_trans; [exact H4 | apply add_zero_l]. }
  split; [reflexivity |]. split; [reflexivity |].
  split; [unfold slips, regenerated; rewrite length_map; reflexivity |].
  split; [exact HG |].
  split; [rewrite H2; ring |]. split; [rewrite H3; ring |].
  split; [exact HN |].
  split.
  - intros Hwd.
    destruct (finite_sums slips) as (G & N & HsG & HsN & HNG).
    { intros p Hp. specialize (Hwd p Hp).
      unfold slips, regenerated in Hp. apply in_map_iff in Hp.
      destruct Hp as (emp & <- & _).
      unfold payslip_of in Hwd |- *.
      cbn [make_payslip ps_working_days] in Hwd.
      cbn [make_payslip ps_gross_salary ps_net_salary ps_total_deductions].
      match goal with
      | |- context [overtimePay ?h ?g ?wd] =>
          destruct (overtimePay_Finite h g wd Hwd) as [pay ->]
      end.
      cbn [add sub]. eexists. split; reflexivity. }
    rewrite HsG in HG. rewrite HsN in HN.
    destruct (or_zero_Finite _ _ HG) as (g & -> & Hg).
    destruct (or_zero_Finite _ _ HN) as (n & -> & Hn).
    exists g, n. rewrite HsG, HsN. cbn [same_number].
    repeat split; auto.
    rewrite Hn, Hg, HNG, H2. ring.
  - intros Hne Hwd.
    assert (HsG : sum_of_numbers ps_gross_salary slips = NaN
                  /\ sum_of_numbers ps_net_salary slips = NaN).
    { apply NaN_sums; [exact Hne |].
      intros p Hp. pose proof (Hwd p Hp) as Hwd0.
      rewrite Forall_forall in Hsts. pose proof (Hsts p Hp) as Hst.
      unfold slips, regenerated in Hp. apply in_map_iff in Hp.
      destruct Hp as (emp & Hpe & _). unfold payslip_of in Hpe.
      rewrite <- Hpe in Hwd0. cbn [make_payslip ps_working_days] in Hwd0.
      rewrite Hwd0 in Hpe. rewrite <- Hpe in Hst |- *.
      destruct (stored_payslip_no_days _ _ _ _ _ Hst) as (_ & Hg & Hn).
      split; assumption. }
    destruct HsG as [HsG HsN]. rewrite HsG in HG. rewrite HsN in HN.
    destruct (totalGross _); cbn in HG; try contradiction.
    destruct (totalNet _); cbn in HN; try contradiction.
    repeat split.
Qed.

Lemma run_totals_are_payslip_sums_witness :
  (exists gross net,
     pr_total_gross_salary (returned (processPayroll 7%nat 9%nat draft_world))
     = Finite gross
     /\ pr_total_net_salary (returned (processPayroll 7%nat 9%nat draft_world))
        = Finite net
     /\ net == gross - pr_total_deductions
                         (returned (processPayroll 7%nat 9%nat draft_world)))
  /\ pr_total_gross_salary
       (returned (processPayroll 7%nat 9%nat shutdown_world)) = Finite 0.
Proof.
  split.
  - destruct (run_totals_are_payslip_sums 7%nat 9%nat draft_world
                (snd (processPayroll 7%nat 9%nat draft_world))
                (returned (processPayroll 7%nat 9%nat draft_world)))
      as (row & _ & _ & _ & _ & _ & _ & _ & _ & _ & Hfin & _).
    + reflexivity.
    + vm_compute. reflexivity.
    + destruct Hfin as (gross & net & Hg & Hn & _ & _ & Hgn).
      * intros p Hp. vm_compute in Hp.
        destruct Hp as [<- | [<- | []]]; discriminate.
      * exists gross, net. auto.
  - destruct (run_totals_are_payslip_sums 7%nat 9%nat shutdown_world
                (snd (processPayroll 7%nat 9%nat shutdown_world))
                (returned (processPayroll 7%nat 9%nat shutdown_world)))
      as (row & _ & _ & _ & _ & _ & _ & _ & _ & _ & _ & Hnan).
    + reflexivity.
    + vm_compute. reflexivity.
    + destruct Hnan as (_ & _ & Hg & _).
      * vm_compute. discriminate.
      * intros p Hp. vm_compute in Hp.
        destruct Hp as [<- | [<- | []]]; reflexivity.
      * exact Hg.
Defined.

(** *** Who gets a payslip *)

Lemma in_select_active_employees (d : DB) (row : EmployeeRow) :
  In row (select_active_employees d) <->
  exists e ss,
    In e (employees d) /\ e_status e = Some active
    /\ In ss (salary_structures d)
    /\ ss_employee_id ss = e_id e /\ ss_is_current ss = true
    /\ row = join_row e ss.
Proof.
  unfold select_active_employees. rewrite in_flat_map. split.
  - intros (e & He & Hrow). apply filter_In in He. destruct He as [He Hact].
    apply in_map_iff in Hrow. destruct Hrow as (ss & <- & Hss).
    apply filter_In in Hss. destruct Hss as [Hss Hcur].
    apply andb_true_iff in Hcur. destruct Hcur as [Hid Hcur].
    apply Nat.eqb_eq in Hid.
    exists e, ss. repeat split; auto.
    unfold is_active in Hact. destruct (e_status e) as [st |]; [| discriminate].
    apply internal_EmployeeStatus_dec_bl in Hact. subst st. reflexivity.
  - intros (e & ss & He & Hst & Hss & Hid & Hcur & ->).
    exists e. split.
    + apply filter_In. split; [exact He |]. unfold is_active. rewrite Hst.
      reflexivity.
    + apply in_map. apply filter_In. split; [exact Hss |].
      rewrite Hid, Nat.eqb_refl, Hcur. reflexivity.
Qed.

(** X10.  After a completed [processPayroll] a worker has a payslip in the
    run exactly when the worker's status is active and one of the worker's
    salary structures is current; and every payslip of the run carries the
    earnings of a current structure of an active worker. *)
Theorem payslips_for_active_workers_with_current_structure
    (rid by_ : uuid) (w w' : World) (r : PayrollRun) :
  working w = None ->
  processPayroll rid by_ w = (Return r, w') ->
  (forall worker : uuid,
     (exists p, In p (payslips_of rid (committed w'))
                /\ ps_employee_id p = worker)
     <-> (exists e ss,
            In e (employees (committed w)) /\ e_id e = worker
            /\ e_status e = Some active
            /\ In ss (salary_structures (committed w))
            /\ ss_employee_id ss = worker /\ ss_is_current ss = true))
  /\ (forall p, In p (payslips_of rid (committed w')) ->
        exists e ss,
          In e (employees (committed w)) /\ e_id e = ps_employee_id p
          /\ e_status e = Some active
          /\ In ss (salary_structures (committed w))
          /\ ss_employee_id ss = ps_employee_id p
          /\ ss_is_current ss = true
          /\ ps_basic_salary p = ss_basic_salary ss
          /\ ps_housing_allowance p = ss_housing_allowance ss
          /\ ps_transport_allowance p = ss_transport_allowance ss
          /\ ps_medical_allowance p = ss_medical_allowance ss
          /\ ps_utility_allowance p = ss_utility_allowance ss
          /\ ps_other_allowances p = ss_other_allowances ss
          /\ ps_taxable_income p = ss_gross_salary ss * 12).
Proof.
  intros Hw H.
  destruct (payslips_after_process _ _ _ _ _ Hw H)
    as (run & rest & _ & Hps & _ & _).
  rewrite Hps. unfold regenerated.
  assert (Hall : forall p,
    In p (map (payslip_of rid (pr_month run) (pr_year run)
                 (working_days_of (east_of_utc w) (committed w)
                    (pr_month run) (pr_year run))
                 (committed w)) (select_active_employees (committed w))) ->
    exists e ss,
      In e (employees (committed w)) /\ e_id e = ps_employee_id p
      /\ e_status e = Some active
      /\ In ss (salary_structures (committed w))
      /\ ss_employee_id ss = ps_employee_id p
      /\ ss_is_current ss = true
      /\ ps_basic_salary p = ss_basic_salary ss
      /\ ps_housing_allowance p = ss_housing_allowance ss
      /\ ps_transport_allowance p = ss_transport_allowance ss
      /\ ps_medical_allowance p = ss_medical_allowance ss
      /\ ps_utility_allowance p = ss_utility_allowance ss
      /\ ps_other_allowances p = ss_other_allowances ss
      /\ ps_taxable_income p = ss_gross_salary ss * 12).
  { intros p Hp. apply in_map_iff in Hp. destruct Hp as (row & <- & Hrow).
    apply in_select_active_employees in Hrow.
    destruct Hrow as (e & ss & He & Hst & Hss & Hid & Hcur & ->).
    exists e, ss. repeat split; auto. }
  split; [| exact Hall].
  intros worker. split.
  - intros (p & Hp & Hid). destruct (Hall p Hp)
      as (e & ss & He & Heid & Hst & Hss & Hsid & Hcur & _).
    exists e, ss. subst worker. repeat split; auto.
  - intros (e & ss & He & Heid & Hst & Hss & Hsid & Hcur).
    exists (payslip_of rid (pr_month run) (pr_year run)
              (working_days_of (east_of_utc w) (committed w)
                 (pr_month run) (pr_year run))
              (committed w) (join_row e ss)).
    split; [| exact Heid].
    apply in_map. apply in_select_active_employees.
    exists e, ss. repeat split; auto. congruence.
Qed.

Lemma payslips_for_active_workers_with_current_structure_witness :
  (exists p, In p (payslips_of 7%nat
                     (committed (snd (processPayroll 7%nat 9%nat draft_world))))
             /\ ps_employee_id p = 2%nat)
  /\ ~ (exists p, In p (payslips_of 7%nat
                     (committed (snd (processPayroll 7%nat 9%nat draft_world))))
                  /\ ps_employee_id p = 3%nat).
Proof.
  destruct (payslips_for_active_workers_with_current_structure 7%nat 9%nat
              draft_world (snd (processPayroll 7%nat 9%nat draft_world))
              (returned (processPayroll 7%nat 9%nat draft_world)))
    as [Hiff _].
  - reflexivity.
  - vm_compute. reflexivity.
  - split.
    + apply Hiff. exists worker2, structure2.
      repeat split; try reflexivity; cbn; auto.
    + intros Hp. apply Hiff in Hp.
      destruct Hp as (e & ss & He & Hid & Hst & _).
      cbn in He. destruct He as [<- | [<- | [<- | []]]]; discriminate.
Defined.

(** *** What a run leaves alone *)

(** X11.  A completed [processPayroll] changes nothing but the run's own
    row and payslips: workers, salary structures, attendance and holidays
    are the same, the rows and payslips of every other run are the same,
    and the run's rows keep their id and period. *)
Theorem processPayroll_touches_only_its_run (rid by_ : uuid) (w w' : World)
    (r : PayrollRun) :
  working w = None ->
  processPayroll rid by_ w = (Return r, w') ->
  employees (committed w') = employees (committed w)
  /\ salary_structures (committed w') = salary_structures (committed w)
  /\ attendance (committed w') = attendance (committed w)
  /\ public_holidays (committed w') = public_holidays (committed w)
  /\ map (fun x => (pr_id x, period x)) (payroll_runs (committed w'))
     = map (fun x => (pr_id x, period x)) (payroll_runs (committed w))
  /\ (forall other, other <> rid ->
        select_run other (committed w') = select_run other (committed w)
        /\ payslips_of other (committed w') = payslips_of other (committed w)).
Proof.
  intros Hw H.
  destruct (processPayroll_Return _ _ _ _ _ Hw H)
    as (run & rest & _ & _ & Hc & _).
  rewrite Hc. unfold processed.
  cbn [employees salary_structures attendance public_holidays payroll_runs].
  repeat (split; [reflexivity |]).
  split.
  - rewrite map_map. apply map_ext. intros x.
    destruct (pr_id x =? rid)%nat; reflexivity.
  - intros other Hother. apply Nat.eqb_neq in Hother. split.
    + unfold select_run. cbn [payroll_runs].
      induction (payroll_runs (committed w)) as [| x xs IH]; [reflexivity |].
      cbn [map filter]. destruct (pr_id x =? rid)%nat eqn:E.
      * cbn [complete_run pr_id]. apply Nat.eqb_eq in E.
        assert (Hx : (pr_id x =? other)%nat = false).
        { apply Nat.eqb_neq. apply Nat.eqb_neq in Hother. congruence. }
        rewrite Hx. exact IH.
      * destruct (pr_id x =? other)%nat; [f_equal |]; exact IH.
    + unfold payslips_of. cbn [payslips]. rewrite filter_app.
      assert (Hnew : filter (fun p => (ps_payroll_run_id p =? other)%nat)
                       (regenerated (east_of_utc w) rid run (committed w)) = []).
      { unfold regenerated.
        induction (select_active_employees (committed w)) as [| e es IH];
          [reflexivity |].
        cbn [map filter]. unfold payslip_of at 1.
        cbn [make_payslip ps_payroll_run_id].
        rewrite Nat.eqb_sym, Hother. exact IH. }
      rewrite Hnew, app_nil_r.
      induction (payslips (committed w)) as [| p ps IH]; [reflexivity |].
      cbn [filter]. destruct (ps_payroll_run_id p =? rid)%nat eqn:E;
        cbn [negb filter].
      * apply Nat.eqb_eq in E.
        assert (Hp : (ps_payroll_run_id p =? other)%nat = false).
        { apply Nat.eqb_neq. apply Nat.eqb_neq in Hother. congruence. }
        rewrite Hp. exact IH.
      * destruct (ps_payroll_run_id p =? other)%nat; [f_equal |]; exact IH.
Qed.

Lemma processPayroll_touches_only_its_run_witness :
  attendance (committed (snd (processPayroll 7%nat 9%nat redo_world)))
  = attendance (committed redo_world)
  /\ map (fun x => (pr_id x, period x))
         (payroll_runs (committed (snd (processPayroll 7%nat 9%nat redo_world))))
     = map (fun x => (pr_id x, period x)) (payroll_runs (committed redo_world)).
Proof.
  destruct (processPayroll_touches_only_its_run 7%nat 9%nat redo_world
              (snd (processPayroll 7%nat 9%nat redo_world))
              (returned (processPayroll 7%nat 9%nat redo_world)))
    as (_ & _ & Ha & _ & Hr & _).
  - reflexivity.
  - vm_compute. reflexivity.
  - split; [exact Ha | exact Hr].
Defined.

(** *** The life cycle *)

Lemma select_run_processed (east : bool) (rid by_ : uuid) (at_ : nat)
    (run : PayrollRun) (d : DB) :
  forall x, In x (select_run rid (processed east rid by_ at_ run d)) ->
            pr_status x = completed.
Proof.
  intros x Hx. unfold processed, select_run in Hx. cbn [payroll_runs] in Hx.
  apply filter_In in Hx. destruct Hx as [Hx Hid].
  apply in_map_iff in Hx. destruct Hx as (r0 & Hr0 & _).
  destruct (pr_id r0 =? rid)%nat eqn:E.
  - subst x. reflexivity.
  - subst x. rewrite E in Hid. discriminate.
Qed.

Lemma processPayroll_needs_draft (rid by_ : uuid) (w w' : World)
    (r : PayrollRun) :
  working w = None ->
  (forall x, In x (select_run rid (committed w)) -> pr_status x <> draft) ->
  processPayroll rid by_ w <> (Return r, w').
Proof.
  intros Hw Hst H.
  destruct (processPayroll_Return _ _ _ _ _ Hw H)
    as (run & rest & Hrun & Hdraft & _).
  apply (Hst run); [rewrite Hrun; left; reflexivity | exact Hdraft].
Qed.

Lemma approvePayroll_needs_completed (rid by_ : uuid) (w w' : World)
    (r : PayrollRun) :
  (forall x, In x (select_run rid (committed w)) -> pr_status x <> completed) ->
  approvePayroll rid by_ w <> (Return r, w').
Proof.
  intros Hst H.
  destruct (approvePayroll_Return _ _ _ _ _ H)
    as (run & rest & Hrun & Hcompleted & _).
  apply (Hst run); [rewrite Hrun; left; reflexivity | exact Hcompleted].
Qed.

(** X12.  Once [processPayroll] has completed on a run, no later call of
    [processPayroll] on that run completes while its rows are as the call
    left them, whoever calls and whatever the store does: the payslips are
    regenerated only after the status is set back to draft by other
    means. *)
Theorem processed_run_is_not_processed_again (rid by_ : uuid) (w w' : World)
    (r : PayrollRun) :
  working w = None ->
  processPayroll rid by_ w = (Return r, w') ->
  forall (later : World) (by2 : uuid) (r2 : PayrollRun) (w2 : World),
    working later = None ->
    select_run rid (committed later) = select_run rid (committed w') ->
    processPayroll rid by2 later <> (Return r2, w2).
Proof.
  intros Hw H later by2 r2 w2 Hlater Hsame.
  destruct (processPayroll_Return _ _ _ _ _ Hw H)
    as (run & rest & _ & _ & Hc & _).
  apply processPayroll_needs_draft; [exact Hlater |].
  intros x Hx. rewrite Hsame, Hc in Hx.
  rewrite (select_run_processed _ _ _ _ _ _ x Hx). discriminate.
Qed.

Lemma processed_run_is_not_processed_again_witness :
  processPayroll 7%nat 9%nat (snd (processPayroll 7%nat 9%nat draft_world))
  <> (Return (run_in completed), draft_world).
Proof.
  apply (processed_run_is_not_processed_again 7%nat 9%nat draft_world
           (snd (processPayroll 7%nat 9%nat draft_world))
           (returned (processPayroll 7%nat 9%nat draft_world))).
  - reflexivity.
  - vm_compute. reflexivity.
  - reflexivity.
  - reflexivity.
Defined.

(** X13.  Once [approvePayroll] has completed on a run, neither
    [processPayroll] nor a second [approvePayroll] completes on it while
    its rows are as the approval left them: an approved run keeps its
    payslips. *)
Theorem approved_run_is_final (rid by_ : uuid) (w w' : World)
    (r : PayrollRun) :
  approvePayroll rid by_ w = (Return r, w') ->
  forall (later : World) (by2 : uuid) (r2 : PayrollRun) (w2 : World),
    select_run rid (committed later) = select_run rid (committed w') ->
    (working later = None -> processPayroll rid by2 later <> (Return r2, w2))
    /\ approvePayroll rid by2 later <> (Return r2, w2).
Proof.
  intros H later by2 r2 w2 Hsame.
  destruct (approvePayroll_Return _ _ _ _ _ H)
    as (run & rest & _ & _ & Hc & _).
  assert (Hall : forall x, In x (select_run rid (committed later)) ->
                   pr_status x = approved).
  { intros x Hx. rewrite Hsame, Hc in Hx.
    unfold update_payslips_status, set_payslips, select_run in Hx.
    cbn [payroll_runs] in Hx.
    change (In x (select_run rid
                    (update_run rid (approve_run by_ (now w)) (committed w))))
      in Hx.
    rewrite select_run_update in Hx by reflexivity.
    apply in_map_iff in Hx. destruct Hx as (r0 & <- & _). reflexivity. }
  split.
  - intros Hlater. apply processPayroll_needs_draft; [exact Hlater |].
    intros x Hx. rewrite (Hall x Hx). discriminate.
  - apply approvePayroll_needs_completed.
    intros x Hx. rewrite (Hall x Hx). discriminate.
Qed.

Lemma approved_run_is_final_witness :
  processPayroll 7%nat 9%nat (snd (approvePayroll 7%nat 9%nat completed_world))
  <> (Return (run_in completed), draft_world).
Proof.
  apply (approved_run_is_final 7%nat 9%nat completed_world
           (snd (approvePayroll 7%nat 9%nat completed_world))
           (returned (approvePayroll 7%nat 9%nat completed_world))
           ltac:(vm_compute; reflexivity)
           (snd (approvePayroll 7%nat 9%nat completed_world))
           9%nat (run_in completed) draft_world eq_refl).
  reflexivity.
Defined.

Lemma select_run_processed_rows (east : bool) (rid by_ : uuid) (at_ : nat)
    (run : PayrollRun) (d : DB) :
  select_run rid (processed east rid by_ at_ run d)
  = map (complete_run (List.length (select_active_employees d))
           (run_totals (regenerated east rid run d)) by_ at_)
        (select_run rid d).
Proof.
  unfold processed, select_run. cbn [payroll_runs].
  induction (payroll_runs d) as [| x xs IH]; [reflexivity |].
  cbn [map filter]. destruct (pr_id x =? rid)%nat eqn:E.
  - cbn [complete_run pr_id]. rewrite E. cbn [map]. f_equal. exact IH.
  - rewrite E. exact IH.
Qed.

Lemma processPayroll_keeps_faults (rid by_ : uuid) (w w' : World)
    (r : PayrollRun) :
  working w = None ->
  processPayroll rid by_ w = (Return r, w') ->
  faults w' = faults w /\ now w' = now w.
Proof.
  intros Hw H. unfold processPayroll, try_rollback in H.
  destruct (bind _ _ w) as [[a | e] w1] eqn:Eb; [| discriminate].
  inversion H; subst a w1; clear H.
  apply bind_Return in Eb. destruct Eb as (u & w1 & Hsteps & Hget).
  apply (process_steps_Return _ _ _ _ _ Hw) in Hsteps.
  destruct Hsteps as (run & rest & _ & _ & _ & _ & Hf & Hn & _).
  unfold getPayrollRunById in Hget.
  apply bind_Return in Hget. destruct Hget as (rows & w2 & Hq & Hm).
  apply pool_query_Return in Hq. destruct Hq as (d' & _ & ->).
  destruct rows; inversion Hm; subst. cbn [faults now]. auto.
Qed.

(** [approvePayroll] completes on a completed run when the store fails no
    statement. *)
Lemma approvePayroll_completes (rid by_ : uuid) (w : World)
    (run : PayrollRun) (rest : list PayrollRun) :
  (forall n, faults w n = false) ->
  select_run rid (committed w) = run :: rest ->
  pr_status run = completed ->
  exists r w', approvePayroll rid by_ w = (Return r, w').
Proof.
  intros Hf Hrun Hst.
  unfold approvePayroll, bind at 1, pool_query at 1. rewrite Hf.
  cbn [select]. rewrite Hrun, Hst. cbn [RunStatus_beq negb].
  unfold bind at 1. cbn [current_timestamp].
  unfold bind at 1, pool_query at 1. cbn [committed working issued faults now].
  rewrite Hf. cbn [execute].
  unfold bind at 1, pool_query at 1. cbn [committed working issued faults now].
  rewrite Hf. cbn [execute].
  unfold getPayrollRunById, bind, pool_query.
  cbn [committed working issued faults now]. rewrite Hf. cbn [select].
  match goal with
  | |- context [select_run rid ?d] =>
      assert (Hsel : select_run rid d
                     = map (approve_run by_ (now w)) (run :: rest))
  end.
  { unfold update_payslips_status, set_payslips, select_run.
    cbn [payroll_runs].
    change (select_run rid
              (update_run rid (approve_run by_ (now w)) (committed w))
            = map (approve_run by_ (now w)) (run :: rest)).
    rewrite select_run_update by reflexivity. rewrite Hrun. reflexivity. }
  rewrite Hsel. cbn [map]. unfold ret. eauto.
Qed.

(** X14.  From a draft run, when the store fails no statement, the month
    has a working day and the join lists no worker twice, [processPayroll]
    followed by [approvePayroll] completes: the run ends approved, every
    payslip of the run is approved, and the approval changes no money
    column of a payslip. *)
Theorem process_then_approve (rid by_ by2 : uuid) (w : World)
    (run : PayrollRun) (rest : list PayrollRun) :
  working w = None ->
  (forall n, faults w n = false) ->
  select_run rid (committed w) = run :: rest ->
  pr_status run = draft ->
  working_days_of (east_of_utc w) (committed w) (pr_month run) (pr_year run)
  <> 0%Z ->
  NoDup (map employee_id (select_active_employees (committed w))) ->
  exists r1 w1 r2 w2,
    processPayroll rid by_ w = (Return r1, w1)
    /\ approvePayroll rid by2 w1 = (Return r2, w2)
    /\ pr_status r2 = approved
    /\ pr_approved_by r2 = Some by2
    /\ (forall p, In p (payslips_of rid (committed w2)) ->
          ps_status p = slip_approved)
    /\ map money (payslips_of rid (committed w2))
       = map money (payslips_of rid (committed w1))
    /\ List.length (payslips_of rid (committed w2))
       = List.length (select_active_employees (committed w)).
Proof.
  intros Hw Hf Hrun Hst Hwd Hnd.
  destruct (processPayroll_completes rid by_ w run rest Hw Hf Hrun Hst Hwd Hnd)
    as (r1 & w1 & H1).
  destruct (processPayroll_Return _ _ _ _ _ Hw H1)
    as (run' & rest' & Hrun' & _ & Hc & _).
  rewrite Hrun in Hrun'. inversion Hrun'; subst run' rest'; clear Hrun'.
  destruct (processPayroll_keeps_faults _ _ _ _ _ Hw H1) as [Hf1 _].
  set (totals := run_totals (regenerated (east_of_utc w) rid run (committed w))).
  assert (Hsel1 : select_run rid (committed w1)
     = complete_run (List.length (select_active_employees (committed w)))
         totals by_ (now w) run
       :: map (complete_run (List.length (select_active_employees (committed w)))
                 totals by_ (now w))
              rest).
  { rewrite Hc, select_run_processed_rows, Hrun. reflexivity. }
  destruct (approvePayroll_completes rid by2 w1 _ _
              ltac:(intros n; rewrite Hf1; apply Hf) Hsel1 eq_refl)
    as (r2 & w2 & H2).
  exists r1, w1, r2, w2. split; [exact H1 |]. split; [exact H2 |].
  destruct (approvePayroll_Return _ _ _ _ _ H2)
    as (run2 & rest2 & _ & _ & Hc2 & row2 & Hr2 & ->).
  assert (Hps : payslips_of rid (committed w2)
                = map (set_payslip_status slip_approved)
                      (payslips_of rid (committed w1))).
  { rewrite Hc2, payslips_of_update_status. reflexivity. }
  assert (Hrows : select_run rid (committed w2)
                  = map (approve_run by2 (now w1)) (select_run rid (committed w1))).
  { rewrite Hc2. unfold update_payslips_status, set_payslips, select_run.
    cbn [payroll_runs]. apply select_run_update. reflexivity. }
  rewrite Hrows in Hr2. apply in_map_iff in Hr2.
  destruct Hr2 as (r0 & <- & _).
  split; [reflexivity |]. split; [reflexivity |].
  split.
  - intros p Hp. rewrite Hps in Hp. apply in_map_iff in Hp.
    destruct Hp as (p0 & <- & _). reflexivity.
  - split.
    + rewrite Hps, map_map. apply map_ext. intros p. reflexivity.
    + rewrite Hps, length_map, Hc, payslips_of_processed.
      unfold regenerated. apply length_map.
Qed.

Lemma process_then_approve_witness :
  exists r1 w1 r2 w2,
    processPayroll 7%nat 9%nat draft_world = (Return r1, w1)
    /\ approvePayroll 7%nat 3%nat w1 = (Return r2, w2)
    /\ pr_status r2 = approved
    /\ pr_approved_by r2 = Some 3%nat
    /\ (forall p, In p (payslips_of 7%nat (committed w2)) ->
          ps_status p = slip_approved)
    /\ map money (payslips_of 7%nat (committed w2))
       = map money (payslips_of 7%nat (committed w1))
    /\ List.length (payslips_of 7%nat (committed w2))
       = List.length (select_active_employees (committed draft_world)).
Proof.
  apply (process_then_approve 7%nat 9%nat 3%nat draft_world (run_in draft) []).
  - reflexivity.
  - intros n. reflexivity.
  - reflexivity.
  - reflexivity.
  - vm_compute. discriminate.
  - vm_compute. repeat constructor; cbn; intuition discriminate.
Defined.
End ServiceMoreFacts.

(** ** Failures of the store, attendance and overtime *)

Module FailureFacts.
Import JS JSFacts TaxCalculator Store Conn Calendar PayrollService RunContent.
Import Transactional ConnFacts Scenario ServiceFacts Database ServiceViews Scenario2.

(** X15.  [approvePayroll] is not atomic: when the store fails its third
    statement, the update of the payslips, the call throws although the
    run row is already approved, and every payslip keeps the status it
    had. *)
Theorem approval_is_not_atomic (rid by_ : uuid) (w : World)
    (run : PayrollRun) (rest : list PayrollRun) :
  select_run rid (committed w) = run :: rest ->
  pr_status run = completed ->
  faults w (issued w) = false ->
  faults w (S (issued w)) = false ->
  faults w (S (S (issued w))) = true ->
  exists w',
    approvePayroll rid by_ w = (Throw (DatabaseError "statement failed"), w')
    /\ select_run rid (committed w')
       = map (approve_run by_ (now w)) (run :: rest)
    /\ payslips (committed w') = payslips (committed w).
Proof.
  intros Hrun Hst H0 H1 H2.
  unfold approvePayroll, bind at 1, pool_query at 1. rewrite H0.
  cbn [select]. rewrite Hrun, Hst. cbn [RunStatus_beq negb].
  unfold bind at 1. cbn [current_timestamp].
  unfold bind at 1, pool_query at 1. cbn [committed working issued faults now].
  rewrite H1. cbn [execute].
  unfold bind at 1, pool_query at 1. cbn [committed working issued faults now].
  rewrite H2. unfold tick. cbn [committed working issued faults now].
  eexists. split; [reflexivity |]. cbn [committed].
  split.
  - rewrite select_run_update by reflexivity. rewrite Hrun. reflexivity.
  - reflexivity.
Qed.

Lemma approval_is_not_atomic_witness :
  exists w',
    approvePayroll 7%nat 9%nat cascade_failing_world
    = (Throw (DatabaseError "statement failed"), w')
    /\ select_run 7%nat (committed w')
       = map (approve_run 9%nat (now cascade_failing_world))
             [run_in completed]
    /\ payslips (committed w') = payslips (committed cascade_failing_world).
Proof.
  apply (approval_is_not_atomic 7%nat 9%nat cascade_failing_world
           (run_in completed) []); reflexivity.
Defined.

(** X16.  When the statements of [processPayroll] run through COMMIT and
    the store then fails the read-back of the run, the call throws although
    the run is committed: the committed database is the processed one, with
    the run completed. *)
Theorem processPayroll_fails_after_commit (rid by_ : uuid) (w w1 : World)
    (u : unit) :
  working w = None ->
  process_steps rid by_ w = (Return u, w1) ->
  faults w (issued w1) = true ->
  exists run rest w',
    select_run rid (committed w) = run :: rest
    /\ processPayroll rid by_ w = (Throw (DatabaseError "statement failed"), w')
    /\ committed w'
       = processed (east_of_utc w) rid by_ (now w) run (committed w)
    /\ (forall r, In r (select_run rid (committed w')) ->
         pr_status r = completed).
Proof.
  intros Hw Hs Hf.
  destruct (process_steps_Return _ _ _ _ _ Hw Hs)
    as (run & rest & Hrun & _ & Hc & _ & Hfe & _).
  exists run, rest.
  unfold processPayroll, try_rollback, bind at 1. rewrite Hs.
  unfold getPayrollRunById, bind, pool_query. rewrite Hfe, Hf.
  eexists. split; [exact Hrun |]. split; [reflexivity |].
  unfold ROLLBACK, tick. cbn [committed].
  split; [exact Hc |].
  intros r Hr. rewrite Hc in Hr.
  unfold processed, select_run in Hr. cbn [payroll_runs] in Hr.
  apply filter_In in Hr. destruct Hr as [Hin Hid].
  apply in_map_iff in Hin. destruct Hin as (r0 & Hr0 & _).
  destruct (pr_id r0 =? rid)%nat eqn:E.
  - subst r. reflexivity.
  - subst r. congruence.
Qed.

Lemma processPayroll_fails_after_commit_witness :
  exists run rest w',
    select_run 7%nat (committed readback_failing_world) = run :: rest
    /\ processPayroll 7%nat 9%nat readback_failing_world
       = (Throw (DatabaseError "statement failed"), w')
    /\ committed w'
       = processed false 7%nat 9%nat (now readback_failing_world) run
           (committed readback_failing_world)
    /\ (forall r, In r (select_run 7%nat (committed w')) ->
         pr_status r = completed).
Proof.
  apply (processPayroll_fails_after_commit 7%nat 9%nat readback_failing_world
           (snd (process_steps 7%nat 9%nat readback_failing_world)) tt).
  - reflexivity.
  - vm_compute. reflexivity.
  - vm_compute. reflexivity.
Defined.

(** X17.  The [transaction] helper is atomic for a callback that issues its
    statements on the client: the call leaves no transaction open; when it
    throws, the committed database is the one it started from; when it
    returns, the callback ran after BEGIN and the committed database is the
    callback's working copy. *)
Theorem transaction_is_atomic {A} (callback : M A) (w w' : World)
    (r : Outcome A) :
  working w = None ->
  tx_safe callback ->
  transaction callback w = (r, w') ->
  working w' = None
  /\ (forall e, r = Throw e -> committed w' = committed w)
  /\ (forall a, r = Return a ->
        exists w0 w1, BEGIN w = (Return tt, w0)
                      /\ callback w0 = (Return a, w1)
                      /\ committed w' = view w1).
Proof.
  intros Hw Hsafe H. unfold transaction, try_rollback in H.
  unfold bind at 1 in H. unfold BEGIN in H.
  destruct (faults w (issued w)) eqn:Ef.
  { inversion H; subst r w'; clear H. cbn [ROLLBACK tick committed working].
    split; [reflexivity |]. split; [reflexivity | discriminate]. }
  set (w0 := mkWorld (committed w) (Some (view w)) (S (issued w)) (faults w)
                     (now w) (east_of_utc w)) in H.
  assert (Hw0 : working w0 <> None) by (unfold w0; cbn; discriminate).
  unfold bind at 1 in H.
  destruct (callback w0) as [[a | e] w1] eqn:Ec.
  - destruct (Hsafe _ _ _ Hw0 Ec) as [Hc1 Hw1].
    unfold bind, COMMIT in H.
    destruct (faults w1 (issued w1)).
    + inversion H; subst r w'; clear H.
      cbn [ROLLBACK tick committed working].
      split; [reflexivity |]. split; [| discriminate].
      intros _ _. exact Hc1.
    + cbn [ret] in H. inversion H; subst r w'; clear H.
      cbn [committed working].
      split; [reflexivity |]. split; [discriminate |].
      intros a' Ha. inversion Ha; subst a'.
      exists w0, w1. split; [unfold BEGIN; rewrite Ef; reflexivity |].
      split; [exact Ec | reflexivity].
  - destruct (Hsafe _ _ _ Hw0 Ec) as [Hc1 Hw1].
    inversion H; subst r w'; clear H.
    cbn [ROLLBACK committed working].
    split; [reflexivity |]. split; [| discriminate].
    intros _ _. exact Hc1.
Qed.

Lemma transaction_is_atomic_witness :
  working (snd (transaction
             (client_query (execute (delete_payslips 7%nat)) ;;;
              client_query (insert_payslip stale_payslip))
             redo_world)) = None
  /\ (forall e,
        fst (transaction
               (client_query (execute (delete_payslips 7%nat)) ;;;
                client_query (insert_payslip stale_payslip))
               redo_world) = Throw e ->
        committed (snd (transaction
               (client_query (execute (delete_payslips 7%nat)) ;;;
                client_query (insert_payslip stale_payslip))
               redo_world)) = committed redo_world)
  /\ (forall a,
        fst (transaction
               (client_query (execute (delete_payslips 7%nat)) ;;;
                client_query (insert_payslip stale_payslip))
               redo_world) = Return a ->
        exists w0 w1,
          BEGIN redo_world = (Return tt, w0)
          /\ (client_query (execute (delete_payslips 7%nat)) ;;;
              client_query (insert_payslip stale_payslip)) w0 = (Return a, w1)
          /\ committed (snd (transaction
               (client_query (execute (delete_payslips 7%nat)) ;;;
                client_query (insert_payslip stale_payslip))
               redo_world)) = view w1).
Proof.
  apply (transaction_is_atomic
           (client_query (execute (delete_payslips 7%nat)) ;;;
            client_query (insert_payslip stale_payslip))
           redo_world).
  - reflexivity.
  - apply tx_safe_bind; [apply tx_safe_client_query |].
    intros _. apply tx_safe_client_query.
  - apply surjective_pairing.
Defined.

End FailureFacts.

Module AttendanceFacts.
Import JS JSFacts TaxCalculator Store Conn Calendar PayrollService RunContent.
Import Scenario ServiceFacts ServiceViews Scenario2.

Lemma count_partition (rows : list Attendance) :
  (count_filter is_present rows + count_filter is_absent rows
   + count_filter is_on_leave rows + count_filter is_uncounted rows
   = Z.of_nat (List.length rows))%Z.
Proof.
  unfold count_filter.
  induction rows as [| a rows IH]; [reflexivity |].
  cbn [filter List.length].
  unfold is_present, is_absent, is_on_leave, is_uncounted in *.
  destruct (a_status a); cbn [AttendanceStatus_beq orb List.length]; lia.
Qed.

(** X18.  In the summary [getEmployeeAttendance] builds, every attendance row
    of the worker's month is counted at most once: present and late rows as
    present days, absent rows as absent days, leave rows as leave days;
    half days, holidays and weekends are in none of the three counts. *)
Theorem attendance_counts_partition (employeeId : uuid) (month year : Z)
    (d : DB) :
  let s := attendance_summary employeeId month year d in
  let rows := attendance_rows employeeId month year d in
  (presentDays s + absentDays s + leaveDays s
   = Z.of_nat (List.length rows) - count_filter is_uncounted rows)%Z
  /\ (0 <= presentDays s)%Z /\ (0 <= absentDays s)%Z /\ (0 <= leaveDays s)%Z
  /\ (presentDays s + absentDays s + leaveDays s
      <= Z.of_nat (List.length (attendance d)))%Z.
Proof.
  cbv zeta. unfold attendance_summary.
  cbn [presentDays absentDays leaveDays].
  pose proof (count_partition (attendance_rows employeeId month year d)) as H.
  assert (Hlen : (List.length (attendance_rows employeeId month year d)
                  <= List.length (attendance d))%nat).
  { unfold attendance_rows. apply filter_length_le. }
  unfold count_filter in *.
  repeat split; lia.
Qed.

(** With hours and gross not negative and a working day, the overtime pay
    is the half-up rounding of a value that five binary64 roundings
    separate from the exact product. *)
Lemma overtimePay_near (h g : Q) (wd : Z) :
  0 <= h -> 0 <= g -> (0 < wd)%Z ->
  let exact := h * g * (3 # 16) / inject_Z wd in
  exists y : Q,
    overtimePay h g wd = Finite (inject_Z (Math_round y))
    /\ 0 <= y
    /\ exact * (1 - rounding_slack) <= y
    /\ y <= exact * (1 + rounding_slack).
Proof.
  intros Hh Hg Hwd. cbv zeta.
  unfold overtimePay, hourlyRate, parseFloat, div.
  assert (Hz : is_zero (inject_Z (wd * 8)) = false).
  { unfold is_zero. destruct (Qeq_bool _ 0) eqn:E; [| reflexivity].
    apply Qeq_bool_eq in E. unfold Qeq in E. cbn in E. lia. }
  rewrite Hz. cbn [mul Math_round_number].
  eexists. split; [reflexivity |].
  assert (Hd : 0 < inject_Z (wd * 8)).
  { change 0 with (inject_Z 0). rewrite <- Zlt_Qlt. lia. }
  assert (Hex : h * g * (3 # 16) / inject_Z wd
                == h * (g * / inject_Z (wd * 8)) * (15 # 10)).
  { rewrite inject_Z_mult. change (inject_Z 8) with 8.
    assert (Hw : 0 < inject_Z wd).
    { change 0 with (inject_Z 0). rewrite <- Zlt_Qlt. lia. }
    field. lra. }
  change (to_double g / inject_Z (wd * 8))
    with (to_double g * / inject_Z (wd * 8)).
  assert (Hi : 0 < / inject_Z (wd * 8)) by (apply Qinv_lt_0_compat; exact Hd).
  set (i := / inject_Z (wd * 8)) in *. clearbody i.
  pose (u := 1 # 9007199254740992).
  change unit_roundoff with u in *.
  destruct (to_double_within 1 1 h h Hh) as (A1 & A2 & A0); [lra | lra |].
  destruct (to_double_within 1 1 g g Hg) as (B1 & B2 & B0); [lra | lra |].
  assert (Hgi : 0 <= g * i) by (apply Qmult_le_0_compat; lra).
  assert (C : g * i * (1 * (1 - u)) <= to_double g * i
              /\ to_double g * i <= g * i * (1 * (1 + u))).
  { split.
    - setoid_replace (g * i * (1 * (1 - u))) with (g * (1 * (1 - u)) * i)
        by ring.
      apply Qmult_le_compat_r; [exact B1 | lra].
    - setoid_replace (g * i * (1 * (1 + u))) with (g * (1 * (1 + u)) * i)
        by ring.
      apply Qmult_le_compat_r; [exact B2 | lra]. }
  assert (Hl1 : 0 <= 1 * (1 - u)) by (unfold u; lra).
  destruct (to_double_within _ _ (g * i) _ Hgi Hl1 C) as (D1 & D2 & D0).
  assert (Hl2 : 0 <= 1 * (1 - u) * (1 - u)) by (unfold u; lra).
  pose proof (product_within _ _ _ _ h (to_double h) (g * i)
                (to_double (to_double g * i)) Hh Hgi Hl1 Hl2
                (conj A1 A2) (conj D1 D2)) as E.
  assert (Hhgi : 0 <= h * (g * i)) by (apply Qmult_le_0_compat; lra).
  assert (Hl3 : 0 <= 1 * (1 - u) * (1 * (1 - u) * (1 - u))) by (unfold u; lra).
  destruct (to_double_within _ _ (h * (g * i)) _ Hhgi Hl3 E)
    as (F1 & F2 & F0).
  set (m := to_double (to_double h * to_double (to_double g * i))) in *.
  clearbody m.
  set (x := h * (g * i)) in *. clearbody x.
  assert (Hx15 : 0 <= x * (15 # 10)) by (unfold u; lra).
  set (lo := 1 * (1 - u) * (1 * (1 - u) * (1 - u)) * (1 - u)) in *.
  set (hi := 1 * (1 + u) * (1 * (1 + u) * (1 + u)) * (1 + u)) in *.
  assert (Hlo : 0 <= lo) by (unfold lo, u; lra).
  assert (G : x * (15 # 10) * lo <= m * (15 # 10)
              /\ m * (15 # 10) <= x * (15 # 10) * hi).
  { split.
    - setoid_replace (x * (15 # 10) * lo) with (x * lo * (15 # 10)) by ring.
      apply Qmult_le_compat_r; [exact F1 | lra].
    - setoid_replace (x * (15 # 10) * hi) with (x * hi * (15 # 10)) by ring.
      apply Qmult_le_compat_r; [exact F2 | lra]. }
  destruct (to_double_within _ _ _ _ Hx15 Hlo G) as (K1 & K2 & K0).
  split; [exact K0 |].
  rewrite Hex.
  assert (L1 : 1 - rounding_slack <= lo * (1 - u)).
  { unfold lo, u, rounding_slack. lra. }
  assert (L2 : hi * (1 + u) <= 1 + rounding_slack).
  { unfold hi, u, rounding_slack. lra. }
  split.
  - apply Qle_trans with (x * (15 # 10) * (lo * (1 - u))); [| exact K1].
    rewrite !(Qmult_comm (x * (15 # 10))).
    apply Qmult_le_compat_r; assumption.
  - apply Qle_trans with (x * (15 # 10) * (hi * (1 + u))); [exact K2 |].
    rewrite !(Qmult_comm (x * (15 # 10))).
    apply Qmult_le_compat_r; assumption.
Qed.

(** The spec's 10 hours on 150,000 over 21 days give 13,393.  At 7 hours
    on 25,000 the exact product is 1562.5, which rounds half-up to 1563;
    binary64 has it just below the half and the code stores 1562. *)
Lemma overtimePay_examples :
  overtimePay 10 150000 21 = Finite 13393
  /\ overtimePay 7 25000 21 = Finite 1562
  /\ Math_round (7 * (25000 / (inject_Z 21 * 8)) * (15 # 10)) = 1563%Z.
Proof.
  repeat split; vm_compute; reflexivity.
Qed.

(** X19.  With hours and gross not negative and a month with a working
    day, the overtime pay of a payslip is a whole amount, never negative,
    and lies within half a rupee of one and a half times the hourly rate
    (the structure's gross over eight hours a working day) on the overtime
    hours, up to the relative error [2^-50] of the binary64 products; the
    payslip's gross is the structure's gross plus that amount, never below
    the structure's gross, and with no overtime hours it is the structure's
    gross. *)
Theorem overtime_pay_of_payslip (payrollRunId : uuid) (month year wd : Z)
    (emp : EmployeeRow) (att : AttendanceSummary) :
  0 <= overtimeHours att ->
  0 <= gross_salary emp ->
  (0 < wd)%Z ->
  let p := make_payslip payrollRunId month year wd emp att in
  let exact := overtimeHours att * gross_salary emp * (3 # 16) / inject_Z wd in
  exists pay : Z,
    ps_overtime_pay p = Finite (inject_Z pay)
    /\ exact * (1 - rounding_slack) - (1 # 2) < inject_Z pay
    /\ inject_Z pay <= exact * (1 + rounding_slack) + (1 # 2)
    /\ (0 <= pay)%Z
    /\ ps_gross_salary p = Finite (gross_salary emp + inject_Z pay)
    /\ gross_salary emp <= gross_salary emp + inject_Z pay
    /\ (overtimeHours att == 0 -> pay = 0%Z).
Proof.
  intros Hh Hg Hwd. cbv zeta.
  unfold make_payslip. cbn [ps_overtime_pay ps_gross_salary].
  destruct (overtimePay_near _ _ _ Hh Hg Hwd) as (y & Hpay & Hy & Hlo & Hhi).
  rewrite Hpay. cbn [add].
  pose proof (Math_round_near y) as [Hr1 Hr2].
  assert (Hnn : (0 <= Math_round y)%Z).
  { apply Math_round_lower. change (inject_Z 0) with 0. lra. }
  assert (Hq : inject_Z 0 <= inject_Z (Math_round y))
    by (rewrite <- Zle_Qle; exact Hnn).
  change (inject_Z 0) with 0 in Hq.
  exists (Math_round y).
  split; [reflexivity |]. split; [lra |]. split; [lra |].
  split; [exact Hnn |]. split; [reflexivity |]. split; [lra |].
  intros H0.
  assert (Hex : overtimeHours att * gross_salary emp * (3 # 16) / inject_Z wd
                == 0).
  { rewrite H0. unfold Qdiv. ring. }
  rewrite Hex in Hhi.
  assert (Hup : (Math_round y < 1)%Z).
  { apply Math_round_upper. change (inject_Z 1) with 1. lra. }
  lia.
Qed.

Lemma overtime_pay_of_payslip_witness :
  let emp := join_row (mkEmployee 1%nat "EMP-001" (Some filer) (Some active))
               (mkSalaryStructure 1%nat 25000 0 0 0 0 0 None None true) in
  let p := make_payslip 7%nat 4 2024 21 emp (mkSummary 20 0 0 7) in
  exists pay : Z,
    ps_overtime_pay p = Finite (inject_Z pay)
    /\ (1562 <= pay <= 1563)%Z
    /\ ps_gross_salary p = Finite (gross_salary emp + inject_Z pay).
Proof.
  cbv zeta.
  destruct (overtime_pay_of_payslip 7%nat 4 2024 21
              (join_row (mkEmployee 1%nat "EMP-001" (Some filer) (Some active))
                 (mkSalaryStructure 1%nat 25000 0 0 0 0 0 None None true))
              (mkSummary 20 0 0 7))
    as (pay & Hpay & Hlo & Hhi & _ & Hgross & _).
  - vm_compute. discriminate.
  - vm_compute. discriminate.
  - lia.
  - exists pay. split; [exact Hpay |]. split; [| exact Hgross].
    match type of Hhi with
    | _ <= ?exact * _ + _ =>
        assert (He : exact == 3125 # 2) by (vm_compute; reflexivity);
        rewrite He in Hlo, Hhi
    end.
    unfold rounding_slack in Hlo, Hhi.
    assert (H1 : inject_Z 1561 < inject_Z pay).
    { change (inject_Z 1561) with 1561. lra. }
    assert (H2 : inject_Z pay < inject_Z 1564).
    { change (inject_Z 1564) with 1564. lra. }
    rewrite <- Zlt_Qlt in H1, H2. lia.
Defined.

(** X30.  Two completed invocations of [processPayroll] of one server whose
    inputs differ only in the statuses of the attendance rows (the same
    workers, days and overtime hours) produce payslips for the same workers
    with identical money columns: earnings, overtime pay, gross, every
    deduction, total deductions, net and taxable income.  A worker without
    any attendance row in the period still has a payslip, with zero day
    counts and zero overtime hours; when the month has a working day its
    overtime pay is zero, its gross the full gross of the current salary
    structure and its net that gross less the deductions; when the month
    has none, the three are NaN. *)
Theorem pay_independent_of_attendance_status (rid byA byB : uuid)
    (wA wA' wB wB' : World) (rA rB : PayrollRun) :
  working wA = None ->
  working wB = None ->
  east_of_utc wA = east_of_utc wB ->
  same_input_but_status rid (committed wA) (committed wB) ->
  processPayroll rid byA wA = (Return rA, wA') ->
  processPayroll rid byB wB = (Return rB, wB') ->
  map money (payslips_of rid (committed wA'))
    = map money (payslips_of rid (committed wB'))
  /\ map ps_employee_id (payslips_of rid (committed wA'))
     = map ps_employee_id (payslips_of rid (committed wB'))
  /\ exists run rest,
       select_run rid (committed wA) = run :: rest
       /\ forall emp,
            In emp (select_active_employees (committed wA)) ->
            attendance_rows (employee_id emp) (pr_month run) (pr_year run)
                            (committed wA) = [] ->
            exists p,
              In p (payslips_of rid (committed wA'))
              /\ ps_employee_id p = employee_id emp
              /\ ps_present_days p = 0%Z /\ ps_absent_days p = 0%Z
              /\ ps_leave_days p = 0%Z
              /\ ps_overtime_hours p = 0
              /\ (ps_working_days p <> 0%Z ->
                  ps_overtime_pay p = Finite 0
                  /\ same_number (ps_gross_salary p)
                                 (Finite (gross_salary emp))
                  /\ same_number (ps_net_salary p)
                       (Finite (gross_salary emp
                                - totalDeductions (deductions_of emp))))
              /\ (ps_working_days p = 0%Z ->
                  ps_overtime_pay p = NaN
                  /\ ps_gross_salary p = NaN
                  /\ ps_net_salary p = NaN).
Proof.
  intros HwA HwB Hzone (He & Hs & Ha & Hh & Hp) HA HB.
  destruct (payslips_after_process _ _ _ _ _ HwA HA)
    as (runA & restA & HrunA & HpsA & _ & _).
  destruct (payslips_after_process _ _ _ _ _ HwB HB)
    as (runB & restB & HrunB & HpsB & _ & _).
  rewrite HpsA, HpsB.
  assert (Hperiod : pr_month runA = pr_month runB /\ pr_year runA = pr_year runB).
  { rewrite HrunA, HrunB in Hp. cbn [map] in Hp. inversion Hp. auto. }
  destruct Hperiod as [Hm Hy].
  split; [| split].
  - unfold regenerated. rewrite !map_map, Hm, Hy, Hzone.
    rewrite (select_active_employees_ext _ _ He Hs).
    rewrite (working_days_of_ext _ _ _ _ _ Hh).
    apply map_ext. intros emp. apply money_payslip_of. exact Ha.
  - unfold regenerated. rewrite !map_map.
    rewrite (select_active_employees_ext _ _ He Hs). reflexivity.
  - exists runA, restA. split; [exact HrunA |].
    intros emp Hemp Hrows.
    set (wd := working_days_of (east_of_utc wA) (committed wA)
                 (pr_month runA) (pr_year runA)).
    exists (payslip_of rid (pr_month runA) (pr_year runA) wd
              (committed wA) emp).
    split; [unfold regenerated; apply in_map; exact Hemp |].
    unfold payslip_of, make_payslip, attendance_summary.
    rewrite Hrows.
    cbn [ps_employee_id ps_present_days ps_absent_days ps_leave_days
         ps_overtime_pay ps_gross_salary ps_net_salary ps_overtime_hours
         ps_working_days
         presentDays absentDays leaveDays overtimeHours
         count_filter filter List.length sum_overtime or_default].
    do 5 (split; [reflexivity |]).
    split.
    + intros Hwd. rewrite (overtimePay_no_hours _ _ Hwd). cbn [add sub same_number].
      repeat split; ring.
    + intros Hwd. rewrite Hwd, overtimePay_no_hours_no_days. repeat split.
Qed.

Lemma pay_independent_of_attendance_status_witness :
  map money (payslips_of 7%nat
               (committed (snd (processPayroll 7%nat 9%nat draft_world))))
  = map money (payslips_of 7%nat
                 (committed (snd (processPayroll 7%nat 9%nat absent_world))))
  /\ map ps_present_days
        (payslips_of 7%nat
           (committed (snd (processPayroll 7%nat 9%nat draft_world))))
     <> map ps_present_days
          (payslips_of 7%nat
             (committed (snd (processPayroll 7%nat 9%nat absent_world))))
  /\ (exists p,
        In p (payslips_of 7%nat
                (committed (snd (processPayroll 7%nat 9%nat draft_world))))
        /\ ps_employee_id p = 2%nat
        /\ ps_overtime_pay p = Finite 0
        /\ same_number (ps_gross_salary p) (Finite 60000)).
Proof.
  destruct (pay_independent_of_attendance_status 7%nat 9%nat 9%nat
              draft_world (snd (processPayroll 7%nat 9%nat draft_world))
              absent_world (snd (processPayroll 7%nat 9%nat absent_world))
              (returned (processPayroll 7%nat 9%nat draft_world))
              (returned (processPayroll 7%nat 9%nat absent_world)))
    as (Hmoney & _ & run & rest & Hrun & Hnone).
  - reflexivity.
  - reflexivity.
  - reflexivity.
  - repeat split; try reflexivity.
    repeat constructor.
  - vm_compute. reflexivity.
  - vm_compute. reflexivity.
  - split; [exact Hmoney |]. split; [vm_compute; discriminate |].
    vm_compute in Hrun. inversion Hrun; subst run rest.
    destruct (Hnone (join_row worker2 structure2))
      as (p & Hp & Hid & _ & _ & _ & _ & Hpay & _).
    + vm_compute. right. left. reflexivity.
    + vm_compute. reflexivity.
    + destruct Hpay as (Hot & Hgross & _).
      * vm_compute in Hp. destruct Hp as [<- | [<- | []]]; discriminate.
      * exists p. repeat split; assumption.
Defined.

End AttendanceFacts.

(** ** Creating and listing runs *)

Module RunsFacts.
Import JS JSFacts TaxCalculator Store Conn Calendar PayrollService RunContent.
Import ConnFacts Scenario ServiceFacts PayrollRuns ServiceViews Scenario2.

(** *** createPayrollRun *)

Lemma fresh_id_new (d : DB) (r : PayrollRun) :
  In r (payroll_runs d) -> pr_id r <> fresh_id d.
Proof.
  intros Hin. unfold fresh_id.
  assert (H : (pr_id r <= list_max (map pr_id (payroll_runs d)))%nat).
  { pose proof (proj1 (list_max_le (map pr_id (payroll_runs d)) _) (le_n _))
      as HF.
    rewrite Forall_forall in HF. apply HF. apply in_map. exact Hin. }
  lia.
Qed.

Lemma filter_none {A} (f : A -> bool) (l : list A) :
  (forall x, In x l -> f x = false) -> filter f l = [].
Proof.
  induction l as [| x l IH]; intros H; [reflexivity |].
  cbn [filter]. rewrite (H x (or_introl eq_refl)).
  apply IH. intros y Hy. apply H. right. exact Hy.
Qed.

Lemma existsb_period_false (month year : Z) (d : DB) :
  select_period month year d = [] ->
  existsb (fun r => (pr_month r =? month)%Z && (pr_year r =? year)%Z)
          (payroll_runs d) = false.
Proof.
  unfold select_period. induction (payroll_runs d) as [| x l IH];
    [reflexivity |].
  cbn [filter existsb].
  destruct ((pr_month x =? month)%Z && (pr_year x =? year)%Z);
    [discriminate | exact IH].
Qed.

Lemma getPayrollRunById_reads (id : uuid) (w w' : World)
    (r : Outcome PayrollRun) :
  getPayrollRunById id w = (r, w') -> committed w' = committed w.
Proof.
  unfold getPayrollRunById, bind, pool_query.
  destruct (faults w (issued w)).
  - intros H. inversion H; subst. reflexivity.
  - cbn [select]. destruct (select_run id (committed w));
      intros H; inversion H; subst; reflexivity.
Qed.

(** The database after the INSERT of a fresh run. *)
Lemma select_run_inserted (d : DB) (row : PayrollRun) :
  pr_id row = fresh_id d ->
  select_run (fresh_id d) (set_payroll_runs d (payroll_runs d ++ [row]))
  = [row].
Proof.
  intros Hid. unfold select_run, set_payroll_runs. cbn [payroll_runs].
  rewrite filter_app. rewrite filter_none.
  - cbn [filter app]. rewrite Hid, Nat.eqb_refl. reflexivity.
  - intros x Hx. apply Nat.eqb_neq. apply fresh_id_new. exact Hx.
Qed.

Lemma select_period_inserted (d : DB) (month year : Z) (row : PayrollRun) :
  select_period month year d = [] ->
  pr_month row = month -> pr_year row = year ->
  select_period month year (set_payroll_runs d (payroll_runs d ++ [row]))
  = [row].
Proof.
  intros Hnone Hm Hy. unfold select_period, set_payroll_runs in *.
  cbn [payroll_runs]. rewrite filter_app, Hnone.
  cbn [filter app]. rewrite Hm, Hy, !Z.eqb_refl. reflexivity.
Qed.

(** X20.  [createPayrollRun] changes the committed database in one way only:
    when the period has no run and the month is between 1 and 12, it may
    append one draft run of the period under a new id, with every total 0.
    Whatever it returns or throws, nothing else is written. *)
Theorem createPayrollRun_inserts_at_most_one_draft (month year : Z)
    (by_ : uuid) (w w' : World) (r : Outcome PayrollRun) :
  createPayrollRun month year by_ w = (r, w') ->
  committed w' = committed w
  \/ (select_period month year (committed w) = []
      /\ (1 <= month <= 12)%Z
      /\ committed w'
         = set_payroll_runs (committed w)
             (payroll_runs (committed w)
              ++ [new_run (fresh_id (committed w)) month year by_])).
Proof.
  unfold createPayrollRun, bind at 1, pool_query at 1.
  destruct (faults w (issued w)).
  { intros H. inversion H; subst. left. reflexivity. }
  cbn [select].
  destruct (select_period month year (committed w)) as [| row rest] eqn:Ep.
  - unfold bind at 1, pool_query at 1.
    cbn [committed working issued faults now].
    destruct (faults w (S (issued w))).
    { intros H. inversion H; subst. left. reflexivity. }
    unfold insert_run.
    destruct ((1 <=? month)%Z && (month <=? 12)%Z) eqn:Em; cbn [negb].
    + rewrite (existsb_period_false _ _ _ Ep).
      intros H. apply getPayrollRunById_reads in H.
      cbn [committed] in H. right.
      split; [reflexivity |]. split; [lia |]. exact H.
    + intros H. inversion H; subst. left. reflexivity.
  - destruct (negb (RunStatus_beq (pr_status row) draft)).
    + intros H. inversion H; subst. left. reflexivity.
    + intros H. apply getPayrollRunById_reads in H. left. exact H.
Qed.

Lemma createPayrollRun_inserts_at_most_one_draft_witness :
  committed (snd (createPayrollRun 5 2024 9%nat draft_world))
  = committed draft_world
  \/ (select_period 5 2024 (committed draft_world) = []
      /\ (1 <= 5 <= 12)%Z
      /\ committed (snd (createPayrollRun 5 2024 9%nat draft_world))
         = set_payroll_runs (committed draft_world)
             (payroll_runs (committed draft_world)
              ++ [new_run (fresh_id (committed draft_world)) 5 2024 9%nat])).
Proof.
  apply (createPayrollRun_inserts_at_most_one_draft 5 2024 9%nat draft_world
           (snd (createPayrollRun 5 2024 9%nat draft_world))
           (fst (createPayrollRun 5 2024 9%nat draft_world))).
  apply surjective_pairing.
Defined.

(** X21.  When the period already has a run that is not a draft,
    [createPayrollRun] throws a bad-request error that names the period and
    the run's status, and writes nothing. *)
Theorem createPayrollRun_rejects_processed_period (month year : Z)
    (by_ : uuid) (w : World) (row : PayrollRun) (rest : list PayrollRun) :
  select_period month year (committed w) = row :: rest ->
  pr_status row <> draft ->
  faults w (issued w) = false ->
  exists w',
    createPayrollRun month year by_ w
    = (Throw (BadRequestError (already_message month year (pr_status row))), w')
    /\ committed w' = committed w.
Proof.
  intros Hp Hst Hf.
  unfold createPayrollRun, bind, pool_query. rewrite Hf.
  cbn [select]. rewrite Hp.
  assert (Hb : RunStatus_beq (pr_status row) draft = false).
  { destruct (pr_status row); [congruence | | | | |]; reflexivity. }
  rewrite Hb. cbn [negb throw].
  eexists. split; reflexivity.
Qed.

Lemma createPayrollRun_rejects_processed_period_witness :
  exists w',
    createPayrollRun 4 2024 9%nat completed_world
    = (Throw (BadRequestError "Payroll for 4/2024 is already completed"), w')
    /\ committed w' = committed completed_world.
Proof.
  apply (createPayrollRun_rejects_processed_period 4 2024 9%nat completed_world
           (run_in completed) []).
  - reflexivity.
  - discriminate.
  - reflexivity.
Defined.

(** X22.  Get or create: for a period without a run, a month between 1 and
    12 of a year 0..9999, with no statement failed, [createPayrollRun]
    inserts and returns a draft run under an id no run had; a second call
    for the period, by whatever user, returns that same run and writes
    nothing. *)
Theorem createPayrollRun_get_or_create (month year : Z) (by_ by2 : uuid)
    (w : World) :
  (forall n, faults w n = false) ->
  select_period month year (committed w) = [] ->
  (1 <= month <= 12)%Z ->
  (0 <= year <= 9999)%Z ->
  exists r w1 w2,
    createPayrollRun month year by_ w = (Return r, w1)
    /\ r = new_run (fresh_id (committed w)) month year by_
    /\ ~ In (pr_id r) (map pr_id (payroll_runs (committed w)))
    /\ payroll_runs (committed w1) = payroll_runs (committed w) ++ [r]
    /\ createPayrollRun month year by2 w1 = (Return r, w2)
    /\ committed w2 = committed w1.
Proof.
  intros Hf Hp Hm _.
  set (r := new_run (fresh_id (committed w)) month year by_).
  set (d1 := set_payroll_runs (committed w) (payroll_runs (committed w) ++ [r])).
  assert (Hsel : select_run (pr_id r) d1 = [r]).
  { apply (select_run_inserted (committed w) r). reflexivity. }
  assert (Hper : select_period month year d1 = [r]).
  { apply select_period_inserted; [exact Hp | reflexivity | reflexivity]. }
  exists r,
    (mkWorld d1 (working w) (S (S (S (issued w)))) (faults w) (now w)
             (east_of_utc w)),
    (mkWorld d1 (working w) (S (S (S (S (S (issued w)))))) (faults w) (now w)
             (east_of_utc w)).
  split.
  { unfold createPayrollRun, bind at 1, pool_query at 1. rewrite Hf.
    cbn [select]. rewrite Hp.
    unfold bind at 1, pool_query at 1.
    cbn [committed working issued faults now]. rewrite Hf.
    unfold insert_run.
    replace ((1 <=? month)%Z && (month <=? 12)%Z) with true
      by (symmetry; apply andb_true_intro; split; lia).
    cbn [negb]. rewrite (existsb_period_false _ _ _ Hp).
    fold r. fold d1.
    unfold getPayrollRunById, bind, pool_query.
    cbn [committed working issued faults now]. rewrite Hf.
    cbn [select]. rewrite Hsel. reflexivity. }
  split; [reflexivity |].
  split.
  { intros Hin. apply in_map_iff in Hin. destruct Hin as (x & Hx & Hin).
    apply (fresh_id_new _ _ Hin). exact Hx. }
  split; [reflexivity |].
  split; [| reflexivity].
  unfold createPayrollRun, bind at 1, pool_query at 1.
  cbn [committed working issued faults now]. rewrite Hf.
  cbn [select]. rewrite Hper.
  change (pr_status r) with draft. cbn [RunStatus_beq negb].
  unfold getPayrollRunById, bind, pool_query.
  cbn [committed working issued faults now]. rewrite Hf.
  cbn [select]. rewrite Hsel. reflexivity.
Qed.

Lemma createPayrollRun_get_or_create_witness :
  exists r w1 w2,
    createPayrollRun 5 2024 9%nat draft_world = (Return r, w1)
    /\ r = new_run (fresh_id (committed draft_world)) 5 2024 9%nat
    /\ ~ In (pr_id r) (map pr_id (payroll_runs (committed draft_world)))
    /\ payroll_runs (committed w1)
       = payroll_runs (committed draft_world) ++ [r]
    /\ createPayrollRun 5 2024 3%nat w1 = (Return r, w2)
    /\ committed w2 = committed w1.
Proof.
  apply (createPayrollRun_get_or_create 5 2024 9%nat 3%nat draft_world).
  - intros n. reflexivity.
  - reflexivity.
  - lia.
  - lia.
Defined.

(** *** getPayrollRuns *)

Lemma insert_sorted_length (r : PayrollRun) (l : list PayrollRun) :
  List.length (insert_sorted r l) = S (List.length l).
Proof.
  induction l as [| x l IH]; [reflexivity |].
  cbn [insert_sorted]. destruct (listed_before r x); cbn [List.length]; lia.
Qed.

Lemma order_by_period_length (l : list PayrollRun) :
  List.length (order_by_period l) = List.length l.
Proof.
  unfold order_by_period. induction l as [| x l IH]; [reflexivity |].
  cbn [fold_right]. rewrite insert_sorted_length. cbn [List.length]. lia.
Qed.

Lemma listing_length (year : option Z) (status : StatusFilter) (d : DB) :
  Z.of_nat (List.length (listing year status d)) = count_runs year status d.
Proof.
  unfold listing, count_runs. rewrite order_by_period_length. reflexivity.
Qed.

Lemma firstn_add {A} (a b : nat) (l : list A) :
  firstn (a + b) l = firstn a l ++ firstn b (skipn a l).
Proof.
  revert l. induction a as [| a IH]; intros l; [reflexivity |].
  destruct l as [| x l]; cbn [Nat.add firstn skipn app].
  - rewrite firstn_nil. reflexivity.
  - rewrite IH. reflexivity.
Qed.

(** Pages of [n] rows, read one after another. *)
Lemma concat_pages {A} (n k : nat) (l : list A) :
  List.concat (map (fun p => firstn n (skipn ((p - 1) * n) l)) (seq 1 k))
  = firstn (k * n) l.
Proof.
  induction k as [| k IH]; [reflexivity |].
  rewrite seq_S, map_app, List.concat_app, IH.
  cbn [map List.concat Nat.add]. rewrite app_nil_r.
  replace (S k - 1)%nat with k by lia.
  replace (S k * n)%nat with (k * n + n)%nat by lia.
  symmetry. apply firstn_add.
Qed.

(** [Math.ceil(total / limit)] pages hold [total] rows, and the last of
    them is not empty. *)
Lemma Math_ceil_div_enough (total limit : Z) :
  (0 <= total)%Z -> (0 < limit)%Z ->
  (total <= Math_ceil_div total limit * limit)%Z
  /\ (0 <= Math_ceil_div total limit)%Z
  /\ (Math_ceil_div total limit * limit < total + limit)%Z.
Proof.
  intros Ht Hl. unfold Math_ceil_div.
  pose proof (Qle_ceiling (inject_Z total / inject_Z limit)) as Hc.
  pose proof (Qceiling_lt (inject_Z total / inject_Z limit)) as Hu.
  remember (Qceiling (inject_Z total / inject_Z limit)) as N.
  assert (HL : inject_Z 0 < inject_Z limit) by (rewrite <- Zlt_Qlt; lia).
  change (inject_Z 0) with 0 in HL.
  assert (E : inject_Z total / inject_Z limit * inject_Z limit
              == inject_Z total) by (field; lra).
  assert (H : inject_Z total <= inject_Z (N * limit)).
  { rewrite inject_Z_mult.
    apply (Qmult_le_compat_r _ _ (inject_Z limit)) in Hc; [| lra].
    rewrite E in Hc. exact Hc. }
  assert (H' : inject_Z ((N - 1) * limit) < inject_Z total).
  { rewrite inject_Z_mult.
    apply (Qmult_lt_compat_r _ _ (inject_Z limit)) in Hu; [| lra].
    rewrite E in Hu. exact Hu. }
  rewrite <- Zle_Qle in H. rewrite <- Zlt_Qlt in H'.
  split; [exact H |]. split; nia.
Qed.

Lemma getPayrollRuns_page (page limit : Z) (year : option Z)
    (status : StatusFilter) (w : World) :
  (0 < limit)%Z -> (1 <= page)%Z ->
  faults w (issued w) = false -> faults w (S (issued w)) = false ->
  getPayrollRuns page limit year status w
  = (Return {| payrollRuns :=
                 map transformPayrollRun
                   (firstn (Z.to_nat limit)
                      (skipn (Z.to_nat ((page - 1) * limit))
                         (listing year status (committed w))));
               pagination :=
                 mkPagination page limit
                   (count_runs year status (committed w))
                   (Finite (inject_Z
                      (Math_ceil_div (count_runs year status (committed w))
                         limit))) |},
     mkWorld (committed w) (working w) (S (S (issued w))) (faults w) (now w)
             (east_of_utc w)).
Proof.
  intros Hl Hp H0 H1.
  unfold getPayrollRuns, bind at 1, pool_query at 1. rewrite H0.
  cbn [select]. unfold bind at 1, pool_query at 1.
  cbn [committed working issued faults now]. rewrite H1.
  unfold select_page.
  replace ((page - 1) * limit <? 0)%Z with false by (symmetry; apply Z.ltb_ge; nia).
  replace (limit <? 0)%Z with false by (symmetry; apply Z.ltb_ge; lia).
  unfold total_pages.
  replace (limit =? 0)%Z with false by (symmetry; apply Z.eqb_neq; lia).
  reflexivity.
Qed.

(** X23.  Paging through the runs: with a positive limit, the runs having
    distinct periods, the two statements of a call not failed and numbers
    the engine holds exactly, every page from 1 on is returned with the
    count of the matching runs and [Math.ceil(total / limit)] as the number
    of pages, and no call writes; the pages 1 to that number, one after
    another, are exactly the listing of the matching runs, each row through
    [transformPayrollRun], and every later page is empty. *)
Theorem getPayrollRuns_pages_cover_listing (limit : Z) (year : option Z)
    (status : StatusFilter) (w : World) :
  (0 < limit)%Z ->
  (count_runs year status (committed w) + limit <= MAX_SAFE_INTEGER)%Z ->
  NoDup (map period (payroll_runs (committed w))) ->
  faults w (issued w) = false ->
  faults w (S (issued w)) = false ->
  let total_ := count_runs year status (committed w) in
  let pages := Math_ceil_div total_ limit in
  (forall page, (1 <= page)%Z -> (page * limit <= MAX_SAFE_INTEGER)%Z ->
     exists rp w',
       getPayrollRuns page limit year status w = (Return rp, w')
       /\ pagination rp
          = mkPagination page limit total_ (Finite (inject_Z pages))
       /\ (List.length (payrollRuns rp) <= Z.to_nat limit)%nat
       /\ committed w' = committed w)
  /\ (pages * limit <= MAX_SAFE_INTEGER)%Z
  /\ List.concat (map (fun p => rows_of_page (Z.of_nat p) limit year status w)
                      (seq 1 (Z.to_nat pages)))
     = map transformPayrollRun (listing year status (committed w))
  /\ (forall page, (pages < page)%Z -> (page * limit <= MAX_SAFE_INTEGER)%Z ->
        rows_of_page page limit year status w = []).
Proof.
  intros Hl Hsafe _ H0 H1. cbv zeta.
  pose proof (listing_length year status (committed w)) as Hlen.
  destruct (Math_ceil_div_enough (count_runs year status (committed w)) limit)
    as (Hen & Hnn & Hlast); [rewrite <- Hlen; lia | exact Hl |].
  remember (Math_ceil_div (count_runs year status (committed w)) limit) as N.
  split; [| split; [| split]].
  - intros page Hp _. eexists. eexists.
    split; [apply getPayrollRuns_page; assumption |].
    cbn [payrollRuns pagination committed].
    split; [rewrite HeqN; reflexivity |].
    split; [rewrite length_map; apply firstn_le_length | reflexivity].
  - lia.
  - rewrite (map_ext_in _
      (fun p => map transformPayrollRun
                  (firstn (Z.to_nat limit)
                     (skipn ((p - 1) * Z.to_nat limit)
                        (listing year status (committed w)))))).
    + rewrite <- (map_map
                    (fun p => firstn (Z.to_nat limit)
                                (skipn ((p - 1) * Z.to_nat limit)
                                   (listing year status (committed w))))
                    (map transformPayrollRun)).
      rewrite <- concat_map, concat_pages. f_equal.
      apply firstn_all2. nia.
    + intros p Hin. apply in_seq in Hin.
      unfold rows_of_page.
      rewrite getPayrollRuns_page by (assumption || lia).
      cbn [fst payrollRuns]. do 3 f_equal. nia.
  - intros page Hp _. unfold rows_of_page.
    rewrite getPayrollRuns_page by (assumption || lia).
    cbn [fst payrollRuns].
    rewrite skipn_all2; [rewrite firstn_nil; reflexivity | nia].
Qed.

Lemma getPayrollRuns_pages_cover_listing_witness :
  let w := world_of five_runs_db no_faults in
  let total_ := count_runs (Some 2024%Z) AnyStatus (committed w) in
  let pages := Math_ceil_div total_ 2 in
  (forall page, (1 <= page)%Z -> (page * 2 <= MAX_SAFE_INTEGER)%Z ->
     exists rp w',
       getPayrollRuns page 2 (Some 2024%Z) AnyStatus w = (Return rp, w')
       /\ pagination rp
          = mkPagination page 2 total_ (Finite (inject_Z pages))
       /\ (List.length (payrollRuns rp) <= Z.to_nat 2)%nat
       /\ committed w' = committed w)
  /\ (pages * 2 <= MAX_SAFE_INTEGER)%Z
  /\ List.concat
       (map (fun p => rows_of_page (Z.of_nat p) 2 (Some 2024%Z) AnyStatus w)
            (seq 1 (Z.to_nat pages)))
     = map transformPayrollRun
         (listing (Some 2024%Z) AnyStatus (committed w))
  /\ (forall page, (pages < page)%Z -> (page * 2 <= MAX_SAFE_INTEGER)%Z ->
        rows_of_page page 2 (Some 2024%Z) AnyStatus w = []).
Proof.
  apply (getPayrollRuns_pages_cover_listing 2 (Some 2024%Z) AnyStatus
           (world_of five_runs_db no_faults)).
  - lia.
  - vm_compute. discriminate.
  - vm_compute. repeat constructor; cbn; intuition discriminate.
  - reflexivity.
  - reflexivity.
Defined.

(** X24.  [getPayrollRuns] does not check its page and limit: with a
    negative limit, or a positive limit and a page below 1, the store
    refuses the page query and the call throws a database error; nothing
    is written. *)
Theorem getPayrollRuns_refuses_bad_window (page limit : Z) (year : option Z)
    (status : StatusFilter) (w : World) :
  (limit < 0)%Z \/ ((0 < limit)%Z /\ (page < 1)%Z) ->
  faults w (issued w) = false ->
  exists msg w',
    getPayrollRuns page limit year status w = (Throw (DatabaseError msg), w')
    /\ committed w' = committed w.
Proof.
  intros Hbad H0.
  unfold getPayrollRuns, bind at 1, pool_query at 1. rewrite H0.
  cbn [select]. unfold bind at 1, pool_query at 1.
  cbn [committed working issued faults now].
  destruct (faults w (S (issued w))).
  { eexists. eexists. split; reflexivity. }
  unfold select_page.
  destruct ((page - 1) * limit <? 0)%Z eqn:Eo.
  { eexists. eexists. split; reflexivity. }
  destruct (limit <? 0)%Z eqn:El.
  { eexists. eexists. split; reflexivity. }
  apply Z.ltb_ge in Eo, El. exfalso. nia.
Qed.

Lemma getPayrollRuns_refuses_bad_window_witness :
  exists msg w',
    getPayrollRuns (-1) 10 None AnyStatus (world_of five_runs_db no_faults)
    = (Throw (DatabaseError msg), w')
    /\ committed w' = committed (world_of five_runs_db no_faults).
Proof.
  apply (getPayrollRuns_refuses_bad_window (-1) 10 None AnyStatus
           (world_of five_runs_db no_faults)).
  - right. lia.
  - reflexivity.
Defined.

End RunsFacts.

(** ** The routes in front of the service *)

Module RunRouteFacts.
Import Store Conn PayrollService PayrollRuns RunRoutes Scenario.

Lemma not_admin (role : string) :
  role <> "admin"%string -> existsb (String.eqb role) ["admin"%string] = false.
Proof.
  intros H. cbn [existsb]. apply String.eqb_neq in H. rewrite H. reflexivity.
Qed.

Lemma not_hr_or_admin (role : string) :
  role <> "admin"%string -> role <> "hr"%string ->
  existsb (String.eqb role) ["admin"%string; "hr"%string] = false.
Proof.
  intros Ha Hh. cbn [existsb].
  apply String.eqb_neq in Ha, Hh. rewrite Ha, Hh. reflexivity.
Qed.

(** A request the first two handlers end: the answer is the error's, and
    the world is the one the request came to. *)
Lemma route_refused (roles : list string) (rest : list Middleware)
    (controller : Request -> M Response) (req : Request) (w : World) :
  (forall uid role, bearer req = ValidBearer uid role ->
     existsb (String.eqb role) roles = false) ->
  exists resp,
    route (protect :: restrictTo roles :: rest) controller req w
    = (Return resp, w)
    /\ (status_of resp = Some 401%Z
        \/ status_of resp = Some 403%Z
        \/ (bearer req = NotActiveBearer /\ status_of resp = Some 500%Z)).
Proof.
  intros H. unfold route, run_handlers, protect.
  destruct (bearer req) as [| | | | uid role] eqn:Eb;
    try (eexists; split; [reflexivity | left; reflexivity]).
  - eexists; split; [reflexivity |]. right; right. split; reflexivity.
  - unfold restrictTo. cbn [user set_user user_role].
    rewrite (H uid role eq_refl).
    eexists; split; [reflexivity | right; left; reflexivity].
Qed.

(** X25.  Only an administrator approves: a request to the approve route
    whose token does not verify, or verifies for any role other than admin,
    is answered with status 401 or 403 (500 for a token that is not yet
    active), and the service is not called: no statement is issued and the
    world is unchanged. *)
Theorem only_admin_approves (req : Request) (w : World) :
  (forall uid, bearer req <> ValidBearer uid "admin") ->
  exists resp,
    post_approve req w = (Return resp, w)
    /\ (status_of resp = Some 401%Z
        \/ status_of resp = Some 403%Z
        \/ (bearer req = NotActiveBearer /\ status_of resp = Some 500%Z)).
Proof.
  intros H. unfold post_approve, adminOnly. apply route_refused.
  intros uid role Hb. apply not_admin. intros ->. exact (H uid Hb).
Qed.

Lemma only_admin_approves_witness :
  exists resp,
    post_approve (mkRequest (ValidBearer 3%nat "hr") None (IdUuid 7%nat)
                            IntMissing IntMissing [])
                 completed_world
    = (Return resp, completed_world)
    /\ (status_of resp = Some 401%Z
        \/ status_of resp = Some 403%Z
        \/ (ValidBearer 3%nat "hr" = NotActiveBearer
            /\ status_of resp = Some 500%Z)).
Proof.
  apply (only_admin_approves
           (mkRequest (ValidBearer 3%nat "hr") None (IdUuid 7%nat)
                      IntMissing IntMissing [])
           completed_world).
  intros uid. discriminate.
Defined.

(** X26.  Creating and processing a run need the role hr or admin: a
    request to either route whose token does not verify, or verifies for
    another role, is answered with status 401 or 403 (500 for a token that
    is not yet active), and the service is not called: the world is
    unchanged. *)
Theorem runs_need_hr_or_admin (req : Request) (w : World) :
  (forall uid, bearer req <> ValidBearer uid "admin"
               /\ bearer req <> ValidBearer uid "hr") ->
  (exists resp,
     post_process req w = (Return resp, w)
     /\ (status_of resp = Some 401%Z
         \/ status_of resp = Some 403%Z
         \/ (bearer req = NotActiveBearer /\ status_of resp = Some 500%Z)))
  /\ (exists resp,
        post_runs req w = (Return resp, w)
        /\ (status_of resp = Some 401%Z
            \/ status_of resp = Some 403%Z
            \/ (bearer req = NotActiveBearer
                /\ status_of resp = Some 500%Z))).
Proof.
  intros H.
  assert (Hroles : forall uid role, bearer req = ValidBearer uid role ->
            existsb (String.eqb role) ["admin"%string; "hr"%string] = false).
  { intros uid role Hb. destruct (H uid) as [Ha Hh].
    apply not_hr_or_admin; intros ->; [exact (Ha Hb) | exact (Hh Hb)]. }
  split; [unfold post_process | unfold post_runs];
    unfold hrOrAdmin; apply route_refused; exact Hroles.
Qed.

Lemma runs_need_hr_or_admin_witness :
  (exists resp,
     post_process (mkRequest (ValidBearer 3%nat "employee") None (IdUuid 7%nat)
                             (IntWritten 5) (IntWritten 2024) [])
                  draft_world
     = (Return resp, draft_world)
     /\ (status_of resp = Some 401%Z
         \/ status_of resp = Some 403%Z
         \/ (ValidBearer 3%nat "employee" = NotActiveBearer
             /\ status_of resp = Some 500%Z)))
  /\ (exists resp,
        post_runs (mkRequest (ValidBearer 3%nat "employee") None (IdUuid 7%nat)
                             (IntWritten 5) (IntWritten 2024) [])
                  draft_world
        = (Return resp, draft_world)
        /\ (status_of resp = Some 401%Z
            \/ status_of resp = Some 403%Z
            \/ (ValidBearer 3%nat "employee" = NotActiveBearer
                /\ status_of resp = Some 500%Z))).
Proof.
  apply (runs_need_hr_or_admin
           (mkRequest (ValidBearer 3%nat "employee") None (IdUuid 7%nat)
                      (IntWritten 5) (IntWritten 2024) [])
           draft_world).
  intros uid. split; discriminate.
Defined.

(** X27.  The run routes take only the validator of the id, not the
    handler that checks its finding: an administrator's request with an id
    that is not a UUID is not answered with a validation error; it reaches
    the service, whose first statement on the id the store refuses.  The
    committed database is unchanged and no transaction is left open. *)
Theorem malformed_id_reaches_the_store (req : Request) (w : World)
    (uid : uuid) :
  bearer req = ValidBearer uid "admin" ->
  id_param req = IdMalformed ->
  working w = None ->
  faults w (issued w) = false ->
  faults w (S (issued w)) = false ->
  (exists w',
     post_process req w
     = (Return (StoreFailure
                  (DatabaseError "invalid input syntax for type uuid")), w')
     /\ committed w' = committed w /\ working w' = None)
  /\ (exists w',
        post_approve req w
        = (Return (StoreFailure
                     (DatabaseError "invalid input syntax for type uuid")), w')
        /\ committed w' = committed w /\ working w' = None).
Proof.
  intros Hb Hid Hw H0 H1. split.
  - unfold post_process, route, run_handlers, protect, hrOrAdmin, restrictTo.
    rewrite Hb. cbn [user set_user user_role existsb String.eqb Ascii.eqb
                     Bool.eqb orb].
    unfold validate_uuid_param. cbn [id_param set_user]. rewrite Hid.
    unfold respond. cbn [id_param add_error set_user]. rewrite Hid.
    unfold processPayroll_param, try_rollback, bind, BEGIN. rewrite H0.
    unfold client_query. cbn [committed working issued faults now].
    rewrite H1. unfold malformed_id_statement, view, set_view, tick.
    cbn [committed working issued faults now render_error ROLLBACK].
    eexists. repeat split.
  - unfold post_approve, route, run_handlers, protect, adminOnly, restrictTo.
    rewrite Hb. cbn [user set_user user_role existsb String.eqb Ascii.eqb
                     Bool.eqb orb].
    unfold validate_uuid_param. cbn [id_param set_user]. rewrite Hid.
    unfold respond. cbn [id_param add_error set_user]. rewrite Hid.
    unfold approvePayroll_param, pool_query. rewrite H0.
    unfold malformed_id_statement.
    cbn [committed working issued faults now render_error].
    eexists. repeat split. exact Hw.
Qed.

Lemma malformed_id_reaches_the_store_witness :
  (exists w',
     post_process (mkRequest (ValidBearer 9%nat "admin") None IdMalformed
                             IntMissing IntMissing [])
                  completed_world
     = (Return (StoreFailure
                  (DatabaseError "invalid input syntax for type uuid")), w')
     /\ committed w' = committed completed_world /\ working w' = None)
  /\ (exists w',
        post_approve (mkRequest (ValidBearer 9%nat "admin") None IdMalformed
                                IntMissing IntMissing [])
                     completed_world
        = (Return (StoreFailure
                     (DatabaseError "invalid input syntax for type uuid")), w')
        /\ committed w' = committed completed_world /\ working w' = None).
Proof.
  apply (malformed_id_reaches_the_store
           (mkRequest (ValidBearer 9%nat "admin") None IdMalformed
                      IntMissing IntMissing [])
           completed_world 9%nat); reflexivity.
Defined.

Ltac route_steps :=
  cbn [bearer user id_param body_month body_year validation_errors
       user_role user_id requester].

(** The answer of the create route never is the one the model leaves
    open. *)
Lemma post_runs_modelled (req : Request) (w : World) :
  fst (post_runs req w) <> Return NotModelled.
Proof.
  destruct req as [b u i bm by_ ve].
  unfold post_runs, route, run_handlers, protect. route_steps.
  destruct b as [| | | | uid role]; try (cbn; discriminate).
  unfold hrOrAdmin, restrictTo, set_user. route_steps.
  destruct (existsb _ _); [| cbn; discriminate].
  unfold validate_month, validate_year, handleValidation, add_error.
  route_steps.
  destruct (isInt_between 1 12 bm) eqn:Em; route_steps;
    destruct (isInt_between 2020 2100 by_) eqn:Ey; route_steps;
    destruct ve; cbn [app ret fst]; try discriminate.
  unfold createPayrollRun_body.
  destruct bm as [| m | ms |]; try (cbn in Em; discriminate);
    destruct by_ as [| y | ys |]; try (cbn in Ey; discriminate);
    route_steps; cbv iota; unfold respond;
    match goal with
    | |- context [match ?service w with _ => _ end] =>
        destruct (service w) as [[r | e] w1]
    end; cbn [fst]; try discriminate;
    destruct e; cbn [render_error]; discriminate.
Qed.

(** X28.  The create route, for a user with the role hr or admin.  A month
    written as a whole number from 1 to 12 with a year from 2020 to 2100
    goes to [createPayrollRun] under the user's id, and the route answers
    with the service's result under status 201.  A month or a year the
    validator refuses (absent, no whole number, out of range, or an array
    with such an element) is answered with status 400 and code
    VALIDATION_ERROR, with details on the month or the year only, and the
    service is not called: the world is unchanged.  An array the validator
    accepts, all of its elements in range or none at all, is not refused:
    the request reaches the service, whose first statement the store
    refuses; nothing is written. *)
Theorem create_route_validates_period (req : Request) (w : World)
    (uid : uuid) (role : string) :
  bearer req = ValidBearer uid role ->
  role = "admin"%string \/ role = "hr"%string ->
  validation_errors req = [] ->
  (forall m y,
     body_month req = IntWritten m -> body_year req = IntWritten y ->
     (1 <= m <= 12)%Z -> (2020 <= y <= 2100)%Z ->
     post_runs req w
     = respond 201 "Payroll run created" (createPayrollRun m y uid) w)
  /\ (isInt_between 1 12 (body_month req)
      && isInt_between 2020 2100 (body_year req) = false ->
      exists ds,
        ds <> []
        /\ post_runs req w
           = (Return (Failure (PayrollRoutes.mkErrorBody 400 "VALIDATION_ERROR"
                                 "Request validation failed" ds)), w)
        /\ (forall e, In e ds ->
              PayrollRoutes.field e = "month"%string
              \/ PayrollRoutes.field e = "year"%string))
  /\ (isInt_between 1 12 (body_month req)
      && isInt_between 2020 2100 (body_year req) = true ->
      (exists items, body_month req = IntArray items)
      \/ (exists items, body_year req = IntArray items) ->
      exists msg w',
        post_runs req w = (Return (StoreFailure (DatabaseError msg)), w')
        /\ committed w' = committed w /\ working w' = working w)
  /\ fst (post_runs req w) <> Return NotModelled.
Proof.
  intros Hb Hrole Hv.
  assert (Hpass : existsb (String.eqb role) ["admin"%string; "hr"%string]
                  = true).
  { destruct Hrole as [-> | ->]; reflexivity. }
  split; [| split; [| split; [| apply post_runs_modelled]]].
  - intros m y Hm Hy Hmr Hyr.
    destruct req as [b u i bm by_ ve].
    cbn [bearer validation_errors body_month body_year] in Hb, Hv, Hm, Hy.
    subst b ve bm by_.
    unfold post_runs, route, run_handlers, protect, hrOrAdmin, restrictTo,
      validate_month, validate_year, handleValidation, set_user, add_error.
    route_steps.
    assert (Hmb : isInt_between 1 12 (IntWritten m) = true)
      by (apply andb_true_intro; split; lia).
    assert (Hyb : isInt_between 2020 2100 (IntWritten y) = true)
      by (apply andb_true_intro; split; lia).
    rewrite Hpass. route_steps. rewrite Hmb. route_steps. rewrite Hyb.
    route_steps. reflexivity.
  - intros Hbad.
    destruct req as [b u i bm by_ ve].
    cbn [bearer validation_errors body_month body_year] in Hb, Hv, Hbad.
    subst b ve.
    unfold post_runs, route, run_handlers, protect, hrOrAdmin, restrictTo,
      validate_month, validate_year, handleValidation, set_user, add_error.
    route_steps. rewrite Hpass. route_steps.
    destruct (isInt_between 1 12 bm); route_steps;
      destruct (isInt_between 2020 2100 by_);
      try discriminate;
      cbn [bearer user id_param body_month body_year validation_errors
           user_role app ret errorHandler];
      (eexists; split; [| split; [reflexivity |]]; [discriminate |]);
      intros e He; cbn [In] in He;
      repeat (destruct He as [<- | He]; [cbn; auto |]); destruct He.
  - intros Hok Harr.
    destruct req as [b u i bm by_ ve].
    cbn [bearer validation_errors body_month body_year] in Hb, Hv, Hok, Harr.
    subst b ve.
    apply andb_true_iff in Hok. destruct Hok as [Hmb Hyb].
    unfold post_runs, route, run_handlers, protect, hrOrAdmin, restrictTo,
      validate_month, validate_year, handleValidation, set_user, add_error.
    route_steps. rewrite Hpass. route_steps. rewrite Hmb. route_steps.
    rewrite Hyb. route_steps.
    assert (Hbody : createPayrollRun_body bm by_ uid
                    = Some (pool_query array_for_integer_statement)).
    { destruct Harr as [[items ->] | [items ->]].
      - destruct by_; try discriminate; reflexivity.
      - destruct bm; try discriminate; reflexivity. }
    rewrite Hbody. unfold respond, pool_query, array_for_integer_statement.
    destruct (faults w (issued w)); cbn [render_error tick];
      eexists; eexists; (split; [reflexivity |]); split; reflexivity.
Qed.

Lemma create_route_validates_period_witness :
  (post_runs (mkRequest (ValidBearer 9%nat "hr") None (IdUuid 7%nat)
                        (IntWritten 5) (IntWritten 2024) [])
             draft_world
   = respond 201 "Payroll run created" (createPayrollRun 5 2024 9%nat)
             draft_world)
  /\ (exists ds,
        post_runs (mkRequest (ValidBearer 9%nat "hr") None (IdUuid 7%nat)
                             (IntWritten 13) (IntWritten 2024) [])
                  draft_world
        = (Return (Failure (PayrollRoutes.mkErrorBody 400 "VALIDATION_ERROR"
                              "Request validation failed" ds)), draft_world))
  /\ (exists msg w',
        post_runs (mkRequest (ValidBearer 9%nat "hr") None (IdUuid 7%nat)
                             (IntArray [Some 6%Z]) (IntWritten 2024) [])
                  draft_world
        = (Return (StoreFailure (DatabaseError msg)), w')
        /\ committed w' = committed draft_world).
Proof.
  split; [| split].
  - destruct (create_route_validates_period
                (mkRequest (ValidBearer 9%nat "hr") None (IdUuid 7%nat)
                           (IntWritten 5) (IntWritten 2024) [])
                draft_world 9%nat "hr" eq_refl (or_intror eq_refl) eq_refl)
      as (Hcreate & _).
    apply (Hcreate 5%Z 2024%Z eq_refl eq_refl); lia.
  - destruct (create_route_validates_period
                (mkRequest (ValidBearer 9%nat "hr") None (IdUuid 7%nat)
                           (IntWritten 13) (IntWritten 2024) [])
                draft_world 9%nat "hr" eq_refl (or_intror eq_refl) eq_refl)
      as (_ & Hrefuse & _).
    destruct (Hrefuse eq_refl) as (ds & _ & Hpost & _).
    exists ds. exact Hpost.
  - destruct (create_route_validates_period
                (mkRequest (ValidBearer 9%nat "hr") None (IdUuid 7%nat)
                           (IntArray [Some 6%Z]) (IntWritten 2024) [])
                draft_world 9%nat "hr" eq_refl (or_intror eq_refl) eq_refl)
      as (_ & _ & Harray & _).
    destruct (Harray eq_refl) as (msg & w' & Hpost & Hc & _).
    + left. exists [Some 6%Z]. reflexivity.
    + exists msg, w'. split; [exact Hpost | exact Hc].
Defined.

End RunRouteFacts.

Module PreviewFacts.
Import JS JSFacts TaxCalculator PayrollRoutes.

(** X29.  The preview route accepts every gross salary that is not
    negative, zero included, from a request whose token verifies and whose
    [isFiler] the validator accepts; it answers with
    [calculateAllDeductions] on that salary with no additional deduction,
    as a filer only when [isFiler] is the JSON boolean true: a string the
    validator accepts as boolean is answered as a non-filer. *)
Theorem preview_accepts_non_negative_gross (req : Request) (g : Q) :
  token req = TokenValid ->
  validation_errors req = [] ->
  grossSalary req = GrossNumeric g ->
  0 <= g ->
  isFiler req <> FilerOther ->
  post_calculate_tax req
  = Success (calculateAllDeductions g
               (match isFiler req with
                | FilerBoolean true => true
                | _ => false
                end) no_additional).
Proof.
  intros Ht Hv Hg Hnn Hf.
  destruct req as [t gs f ve].
  cbn [token validation_errors grossSalary isFiler] in *. subst t ve gs.
  assert (Hok : isFloat_min0 (GrossNumeric g) = true)
    by (apply Qle_bool_iff; exact Hnn).
  unfold post_calculate_tax, calculateTax_handlers, run_handlers, protect,
    validate_grossSalary.
  cbn [token grossSalary]. rewrite Hok.
  unfold validate_isFiler, handleValidation, calculateTax.
  destruct f; try congruence; reflexivity.
Qed.

Lemma preview_accepts_non_negative_gross_witness :
  post_calculate_tax (mkRequest TokenValid (GrossNumeric 0) FilerBooleanLike [])
  = Success (calculateAllDeductions 0 false no_additional).
Proof.
  apply (preview_accepts_non_negative_gross
           (mkRequest TokenValid (GrossNumeric 0) FilerBooleanLike []) 0).
  - reflexivity.
  - reflexivity.
  - reflexivity.
  - discriminate.
  - discriminate.
Defined.

End PreviewFacts.
